(** * EthicsPoC: the heuristic review engine of [utils/azure_ai.py]

    A shallow embedding of [AzureAIWrapper] (the rule-based stand-in for the
    completion service) and the properties of its request classifier,
    document-review scorers and report composer, followed by the agents that
    call it.

    Modelling conventions.
    - Python [str] values are Rocq [string]s.  The engine only ever searches
      for ASCII markers and keywords; [lower], [strip] and [split] are the
      ASCII parts of the Python methods (letters A-Z, the ASCII white space
      characters), so the model covers ASCII text.
    - Python [float] is IEEE-754 binary64 with round-to-nearest-even, taken
      from [SpecFloat] ([prec = 53], [emax = 1024]); the true division of two
      [int]s rounds their exact quotient once, and [int()] truncates.
    - Exceptions are values of [exn] in the error monad [result]; the
      [try]/[except] of [get_completion] is the only handler.
    - A message is a Python [dict] from [str] to [str]: a [gmap string string].
      Dictionaries whose iteration order is observable (the keyword tables, the
      parsed reviews) are association lists.
    - [datetime.now()] is an explicit argument [now], the formatted clock
      reading at the moment the report is returned.
    - [json.loads] and the [str()] formatting of parsed JSON values belong to
      the Python standard library; the engine section takes them as
      [json_loads] and [py_str].
    - The agents of [agents/] and [get_question_feedback] of [app.py] build
      the messages the engine reads.  The PDF reader, the Word reader and the
      byte decoder are section variables that return [None] when the library
      raises; the dictionaries the agents read are records with optional
      fields. *)

From Stdlib Require Import ZArith Lia Bool List Ascii DecimalString.
From Stdlib Require String.
From Stdlib Require Import SpecFloat.
From stdpp Require Import base gmap strings.

Import ListNotations.
Local Open Scope Z_scope.

(** ** Exceptions and the error monad *)

Inductive exn : Type :=
| KeyError
| TypeError
| AttributeError
| ValueError
| OverflowError
| ZeroDivisionError.

Inductive result (A : Type) : Type :=
| OK (a : A)
| Raise (e : exn).

Arguments OK {A} a.
Arguments Raise {A} e.

#[global] Instance result_ret : MRet result := fun A a => OK a.

#[global] Instance result_bind : MBind result := fun A B k m =>
  match m with
  | OK a => k a
  | Raise e => Raise e
  end.

(** ** Python string methods (ASCII) *)

Module PyStr.

Definition is_upper (c : ascii) : bool :=
  let n := nat_of_ascii c in (65 <=? n)%nat && (n <=? 90)%nat.

Definition lower_char (c : ascii) : ascii :=
  if is_upper c then ascii_of_nat (nat_of_ascii c + 32) else c.

(** [s.lower()] *)
Fixpoint lower (s : string) : string :=
  match s with
  | EmptyString => EmptyString
  | String c s' => String (lower_char c) (lower s')
  end.

(** [p in s] *)
Fixpoint contains (p s : string) : bool :=
  String.prefix p s ||
  match s with
  | EmptyString => false
  | String _ s' => contains p s'
  end.

Fixpoint find_from (p s : string) (i : Z) : Z :=
  if String.prefix p s then i
  else match s with
       | EmptyString => -1
       | String _ s' => find_from p s' (i + 1)
       end.

(** [s.find(p)]: the lowest index of an occurrence, [-1] when there is none. *)
Definition find (p s : string) : Z := find_from p s 0.

Fixpoint rfind_from (p s : string) (i last : Z) : Z :=
  let last' := if String.prefix p s then i else last in
  match s with
  | EmptyString => last'
  | String _ s' => rfind_from p s' (i + 1) last'
  end.

(** [s.rfind(p)]: the highest index of an occurrence, [-1] when there is none. *)
Definition rfind (p s : string) : Z := rfind_from p s 0 (-1).

Definition len (s : string) : Z := Z.of_nat (String.length s).

(** A slice bound as Python normalises it: negative bounds count from the
    end, and every bound is clamped to [0, len]. *)
Definition clamp_index (n i : Z) : Z :=
  if i <? 0 then Z.max (i + n) 0 else Z.min i n.

(** [s[a:b]] *)
Definition slice (s : string) (a b : Z) : string :=
  let a' := clamp_index (len s) a in
  let b' := clamp_index (len s) b in
  String.substring (Z.to_nat a') (Z.to_nat (b' - a')) s.

(** White space of [str.isspace] below code point 128. *)
Definition is_space (c : ascii) : bool :=
  let n := nat_of_ascii c in
  ((9 <=? n)%nat && (n <=? 13)%nat) || ((28 <=? n)%nat && (n <=? 32)%nat).

Fixpoint lstrip (s : string) : string :=
  match s with
  | EmptyString => EmptyString
  | String c s' => if is_space c then lstrip s' else s
  end.

Fixpoint rstrip (s : string) : string :=
  match s with
  | EmptyString => EmptyString
  | String c s' =>
      match rstrip s' with
      | EmptyString => if is_space c then EmptyString else String c EmptyString
      | r => String c r
      end
  end.

(** [s.strip()] *)
Definition strip (s : string) : string := rstrip (lstrip s).

Definition is_empty (s : string) : bool :=
  match s with EmptyString => true | _ => false end.

Fixpoint split_from (s word : string) : list string :=
  match s with
  | EmptyString => if is_empty word then [] else [word]
  | String c s' =>
      if is_space c
      then (if is_empty word then split_from s' EmptyString
            else word :: split_from s' EmptyString)
      else split_from s' (word +:+ String c EmptyString)
  end.

(** [s.split()]: the maximal runs of non-space characters. *)
Definition split (s : string) : list string := split_from s EmptyString.

(** [s.replace(a, b)] for one-character [a] and [b]. *)
Fixpoint replace_char (a b : ascii) (s : string) : string :=
  match s with
  | EmptyString => EmptyString
  | String c s' =>
      String (if Ascii.eqb c a then b else c) (replace_char a b s')
  end.

(** [sep.join(l)] *)
Definition join (sep : string) (l : list string) : string := String.concat sep l.

(** [x in l] for a list of strings. *)
Definition mem (x : string) (l : list string) : bool :=
  existsb (String.eqb x) l.

Definition upper_char (c : ascii) : ascii :=
  let n := nat_of_ascii c in
  if (97 <=? n)%nat && (n <=? 122)%nat then ascii_of_nat (n - 32) else c.

(** [s.upper()] *)
Fixpoint upper (s : string) : string :=
  match s with
  | EmptyString => EmptyString
  | String c s' => String (upper_char c) (upper s')
  end.

(** The line feed, and a text given line by line. *)
Definition LF : string := String "010"%char EmptyString.
Definition text (lines : list string) : string := join LF lines.

End PyStr.

(** ** Python floats: binary64 *)

Module PyFloat.

Definition prec : Z := 53.
Definition emax : Z := 1024.

(** [float(z)] for an [int] [z]. *)
Definition of_int (z : Z) : spec_float := binary_normalize prec emax z 0 false.

(** An [int] as an unrounded mantissa with exponent [0]. *)
Definition exact (z : Z) : spec_float :=
  match z with
  | Z0 => S754_zero false
  | Zpos p => S754_finite false p 0
  | Zneg p => S754_finite true p 0
  end.

(** [a / b] on two [int]s.  CPython rounds the exact quotient of the two
    integers once; [SFdiv] divides the mantissas it is given and rounds the
    result once, so it is applied to the integers themselves.  A quotient
    beyond the range of [float] raises. *)
Definition truediv (a b : Z) : result spec_float :=
  if b =? 0 then Raise ZeroDivisionError
  else match SFdiv prec emax (exact a) (exact b) with
       | S754_infinity _ => Raise OverflowError
       | x => OK x
       end.

Definition mul (x y : spec_float) : spec_float := SFmul prec emax x y.

(** [int(x)]: truncation towards zero; infinities and NaN raise. *)
Definition to_int (x : spec_float) : result Z :=
  match x with
  | S754_zero _ => OK 0
  | S754_finite s m e =>
      let mag := Z.shiftl (Zpos m) e in
      OK (if s then - mag else mag)
  | S754_infinity _ => Raise OverflowError
  | S754_nan => Raise ValueError
  end.

(** The literal [0.3]. *)
Definition lit_0_3 : spec_float := S754_finite false 5404319552844595 (-54).

(** [x > y] *)
Definition gt (x y : spec_float) : bool := SFltb y x.

End PyFloat.

(** ** Verdicts *)

Record verdict : Type := Verdict {
  status : string;
  analysis : string;
  missing_elements : list string;
  recommendations : list string;
  compliance_score : Z
}.

(** ** The typed scorers

    Each typed scorer walks its own table of categories and keywords; the
    walk, the percentage and the 90/70 thresholds are written the same way in
    all five. *)

Definition keyword_table : Type := list (string * list string).

Definition list_len {A : Type} (l : list A) : Z := Z.of_nat (length l).

(** [any(keyword in doc_content.lower() for keyword in keywords)] *)
Definition any_keyword (doc_content : string) (keywords : list string) : bool :=
  existsb (fun keyword => PyStr.contains keyword (PyStr.lower doc_content)) keywords.

(** The two lists filled by the loop over [key_elements.items()]. *)
Definition present_of (key_elements : keyword_table) (doc_content : string) : list string :=
  map fst (List.filter (fun entry => any_keyword doc_content (snd entry)) key_elements).

Definition missing_of (key_elements : keyword_table) (doc_content : string) : list string :=
  map fst (List.filter (fun entry => negb (any_keyword doc_content (snd entry))) key_elements).

(** [int((part / whole) * 100)] *)
Definition percent (part whole : Z) : result Z :=
  ratio ← PyFloat.truediv part whole;
  PyFloat.to_int (PyFloat.mul ratio (PyFloat.of_int 100)).

Definition typed_status (compliance_score : Z) : string :=
  if 90 <=? compliance_score then "APPROVED"
  else if 70 <=? compliance_score then "ANALYZING"
  else "NEEDS_REVISION".

(** [e.replace("_", " ")] *)
Definition human (e : string) : string := PyStr.replace_char "_" " " e.

Definition nonempty {A : Type} (l : list A) : bool :=
  match l with [] => false | _ => true end.

Definition when (b : bool) (s : string) : string := if b then s else "".

Definition consent_key_elements : keyword_table :=
  [ ("research_purpose", ["purpose"; "aim"; "objective"; "goal"]);
    ("procedures", ["procedure"; "what you will do"; "what you'll do"; "activities"; "tasks"]);
    ("risks", ["risk"; "discomfort"; "inconvenience"; "harm"]);
    ("benefits", ["benefit"; "advantage"; "gain"]);
    ("confidentiality", ["confidential"; "privacy"; "private"; "anonymity"; "anonymous"]);
    ("voluntary", ["voluntary"; "choice"; "choose"; "option"; "decide"]);
    ("withdrawal", ["withdraw"; "stop"; "quit"; "leave"; "discontinue"]);
    ("contact", ["contact"; "question"; "concern"; "information"; "email"; "phone"]) ].

Definition _analyze_consent_form (doc_content : string) : result verdict :=
  let key_elements := consent_key_elements in
  let present_elements := present_of key_elements doc_content in
  let missing_elements := missing_of key_elements doc_content in
  compliance_score ← percent (list_len present_elements) (list_len key_elements);
  let status := typed_status compliance_score in
  let recommendations :=
    map (fun element => "Add information about " +:+ human element) missing_elements in
  let analysis :=
    "This consent form "
    +:+ (if 70 <=? compliance_score then "adequately" else "inadequately")
    +:+ " addresses the ethical requirements for informed consent. "
    +:+ when (nonempty present_elements)
          ("The form includes information about "
           +:+ PyStr.join ", " (map human present_elements) +:+ ". ")
    +:+ when (nonempty missing_elements)
          ("However, it is missing information about "
           +:+ PyStr.join ", " (map human missing_elements) +:+ ". ")
    +:+ "Overall, the document "
    +:+ (if 70 <=? compliance_score then "meets" else "does not meet")
    +:+ " the basic requirements for an informed consent form." in
  mret (Verdict status analysis (map human missing_elements) recommendations compliance_score).

Definition protocol_key_elements : keyword_table :=
  [ ("background", ["background"; "introduction"; "literature"; "review"]);
    ("objectives", ["objective"; "aim"; "goal"; "purpose"]);
    ("methodology", ["method"; "approach"; "design"; "procedure"]);
    ("participants", ["participant"; "subject"; "sample"; "recruitment"]);
    ("data_collection", ["data collection"; "gather"; "collect"; "measure"]);
    ("data_analysis", ["data analysis"; "analyze"; "statistical"; "qualitative"]);
    ("ethical_considerations", ["ethic"; "consent"; "confidential"; "privacy"]);
    ("timeline", ["timeline"; "schedule"; "duration"; "period"]) ].

Definition _analyze_research_protocol (doc_content : string) : result verdict :=
  let key_elements := protocol_key_elements in
  let present_elements := present_of key_elements doc_content in
  let missing_elements := missing_of key_elements doc_content in
  compliance_score ← percent (list_len present_elements) (list_len key_elements);
  let status := typed_status compliance_score in
  let recommendations :=
    map (fun element => "Add a section on " +:+ human element) missing_elements in
  let analysis :=
    "This research protocol "
    +:+ (if 70 <=? compliance_score then "adequately" else "inadequately")
    +:+ " addresses the key components required. "
    +:+ when (nonempty present_elements)
          ("The protocol includes information about "
           +:+ PyStr.join ", " (map human present_elements) +:+ ". ")
    +:+ when (nonempty missing_elements)
          ("However, it is missing information about "
           +:+ PyStr.join ", " (map human missing_elements) +:+ ". ")
    +:+ "Overall, the document "
    +:+ (if 70 <=? compliance_score then "meets" else "does not meet")
    +:+ " the basic requirements for a research protocol." in
  mret (Verdict status analysis (map human missing_elements) recommendations compliance_score).

Definition ethics_application_key_elements : keyword_table :=
  [ ("researcher_info", ["researcher"; "investigator"; "applicant"; "principal"]);
    ("project_details", ["project"; "title"; "summary"; "overview"]);
    ("methodology", ["method"; "approach"; "design"; "procedure"]);
    ("participants", ["participant"; "subject"; "sample"; "recruitment"]);
    ("ethical_considerations", ["ethic"; "consideration"; "issue"; "concern"]);
    ("risk_assessment", ["risk"; "harm"; "mitigation"; "minimize"]);
    ("data_management", ["data"; "storage"; "security"; "confidentiality"]);
    ("consent_procedures", ["consent"; "inform"; "voluntary"; "withdraw"]);
    ("declarations", ["declare"; "confirm"; "certify"; "statement"]) ].

Definition _analyze_ethics_application_form (doc_content : string) : result verdict :=
  let key_elements := ethics_application_key_elements in
  let present_elements := present_of key_elements doc_content in
  let missing_elements := missing_of key_elements doc_content in
  compliance_score ← percent (list_len present_elements) (list_len key_elements);
  let status := typed_status compliance_score in
  let recommendations :=
    map (fun element => "Complete the " +:+ human element +:+ " section") missing_elements in
  let analysis :=
    "This ethics committee application form "
    +:+ (if 70 <=? compliance_score then "adequately" else "inadequately")
    +:+ " addresses the required information. "
    +:+ when (nonempty present_elements)
          ("The form includes information about "
           +:+ PyStr.join ", " (map human present_elements) +:+ ". ")
    +:+ when (nonempty missing_elements)
          ("However, it is missing information about "
           +:+ PyStr.join ", " (map human missing_elements) +:+ ". ")
    +:+ "Overall, the document "
    +:+ (if 70 <=? compliance_score then "meets" else "does not meet")
    +:+ " the basic requirements for an ethics committee application form." in
  mret (Verdict status analysis (map human missing_elements) recommendations compliance_score).

Definition cv_key_elements : keyword_table :=
  [ ("education", ["education"; "degree"; "university"; "college"; "school"]);
    ("experience", ["experience"; "work"; "job"; "position"; "role"]);
    ("skills", ["skill"; "competence"; "ability"; "proficiency"]);
    ("research", ["research"; "study"; "investigation"; "project"]);
    ("publications", ["publication"; "paper"; "article"; "journal"]);
    ("ethics_training", ["ethics"; "IRB"; "ethical"; "compliance"]) ].

(** One [if name in missing_elements: recommendations.append(text)] per entry. *)
Definition recommend_missing (advice : list (string * string))
    (missing_elements : list string) : list string :=
  map snd (List.filter (fun entry => PyStr.mem (fst entry) missing_elements) advice).

Definition cv_advice : list (string * string) :=
  [ ("education", "Add educational qualifications relevant to the research");
    ("experience", "Include relevant research or professional experience");
    ("skills", "Add skills relevant to conducting this research");
    ("research", "Include previous research experience");
    ("publications", "Add relevant publications if applicable");
    ("ethics_training", "Include information about ethics training or certifications") ].

Definition _analyze_cv (doc_content : string) : result verdict :=
  let key_elements := cv_key_elements in
  let present_elements := present_of key_elements doc_content in
  let missing_elements := missing_of key_elements doc_content in
  compliance_score ← percent (list_len present_elements) (list_len key_elements);
  let status := typed_status compliance_score in
  let recommendations := recommend_missing cv_advice missing_elements in
  let analysis :=
    "This CV/Resume "
    +:+ (if 70 <=? compliance_score then "adequately" else "inadequately")
    +:+ " demonstrates the researcher's qualifications. "
    +:+ when (nonempty present_elements)
          ("The document includes information about "
           +:+ PyStr.join ", " (map human present_elements) +:+ ". ")
    +:+ when (nonempty missing_elements)
          ("However, it is missing information about "
           +:+ PyStr.join ", " (map human missing_elements) +:+ ". ")
    +:+ "Overall, the document "
    +:+ (if 70 <=? compliance_score then "demonstrates"
         else "does not adequately demonstrate")
    +:+ " the researcher's qualifications for this study." in
  mret (Verdict status analysis (map human missing_elements) recommendations compliance_score).

Definition survey_key_elements : keyword_table :=
  [ ("introduction", ["introduction"; "purpose"; "about"; "overview"]);
    ("instructions", ["instruction"; "direction"; "guide"; "how to"]);
    ("questions", ["question"; "ask"; "respond"; "answer"]);
    ("response_options", ["option"; "choice"; "select"; "scale"]);
    ("sensitive_questions", ["sensitive"; "personal"; "private"; "confidential"]);
    ("data_usage", ["data"; "information"; "use"; "purpose"]);
    ("contact", ["contact"; "question"; "concern"; "information"]) ].

Definition survey_advice : list (string * string) :=
  [ ("introduction", "Add an introduction explaining the purpose of the survey");
    ("instructions", "Include clear instructions for completing the survey");
    ("questions", "Ensure questions are clearly formulated");
    ("response_options", "Provide clear response options for each question");
    ("sensitive_questions",
     "Consider whether any questions are sensitive and provide appropriate warnings");
    ("data_usage", "Include information about how the data will be used");
    ("contact", "Add contact information for questions or concerns") ].

Definition _analyze_survey (doc_content : string) : result verdict :=
  let key_elements := survey_key_elements in
  let present_elements := present_of key_elements doc_content in
  let missing_elements := missing_of key_elements doc_content in
  compliance_score ← percent (list_len present_elements) (list_len key_elements);
  let status := typed_status compliance_score in
  let recommendations := recommend_missing survey_advice missing_elements in
  let analysis :=
    "This survey/questionnaire "
    +:+ (if 70 <=? compliance_score then "adequately" else "inadequately")
    +:+ " addresses the key components required. "
    +:+ when (nonempty present_elements)
          ("The document includes "
           +:+ PyStr.join ", " (map human present_elements) +:+ ". ")
    +:+ when (nonempty missing_elements)
          ("However, it is missing "
           +:+ PyStr.join ", " (map human missing_elements) +:+ ". ")
    +:+ "Overall, the document "
    +:+ (if 70 <=? compliance_score then "meets" else "does not meet")
    +:+ " the basic requirements for a research survey/questionnaire." in
  mret (Verdict status analysis (map human missing_elements) recommendations compliance_score).

(** ** The generic scorer *)

Definition relevance_stop_words : list string :=
  ["what"; "when"; "where"; "which"; "how"; "does"; "will"; "your"; "this";
   "that"; "these"; "those"; "have"; "from"; "with"; "about"].

Definition generic_stop_words : list string :=
  relevance_stop_words ++ ["research"].

(** [[word for word in question.lower().split()
       if len(word) > 3 and word not in stop_words]] *)
Definition significant_words (stop_words : list string) (question : string) : list string :=
  List.filter (fun word => (3 <? PyStr.len word) && negb (PyStr.mem word stop_words))
              (PyStr.split (PyStr.lower question)).

(** [sum(1 for keyword in question_keywords if keyword in doc_content.lower())] *)
Definition keyword_matches (question_keywords : list string) (doc_content : string) : Z :=
  list_len (List.filter (fun keyword => PyStr.contains keyword (PyStr.lower doc_content))
                        question_keywords).

Definition generic_status (relevance_score : Z) : string :=
  if 80 <=? relevance_score then "APPROVED"
  else if 60 <=? relevance_score then "ANALYZING"
  else "NEEDS_REVISION".

Definition _analyze_generic_document (doc_content question doc_type : string)
    : result verdict :=
  let question_keywords := significant_words generic_stop_words question in
  let keyword_matches := keyword_matches question_keywords doc_content in
  relevance_score ←
    (if nonempty question_keywords
     then percent keyword_matches (list_len question_keywords)
     else mret 50);
  let status := generic_status relevance_score in
  let recommendations :=
    (if relevance_score <? 80
     then ["Ensure the document directly addresses the question: '" +:+ question +:+ "'"]
     else [])
    ++ (if PyStr.len doc_content <? 500
        then ["Provide more detailed information in the document"]
        else [])
    ++ (if negb (PyStr.contains "ethics" (PyStr.lower doc_content))
           && negb (PyStr.contains "ethical" (PyStr.lower doc_content))
        then ["Include explicit discussion of ethical considerations"]
        else []) in
  let analysis :=
    "This " +:+ doc_type +:+ " "
    +:+ (if 60 <=? relevance_score then "adequately" else "inadequately")
    +:+ " addresses the question: '" +:+ question +:+ "'. "
    +:+ (if 80 <=? relevance_score
         then "The document provides comprehensive information relevant to the question. "
         else if 60 <=? relevance_score
         then "The document provides some information relevant to the question, but could be more specific. "
         else "The document does not appear to directly address the question. ")
    +:+ "Overall, the document "
    +:+ (if 60 <=? relevance_score then "is" else "is not")
    +:+ " sufficient to address the ethical considerations raised in the question." in
  mret (Verdict status analysis
          (if relevance_score <? 60 then ["Specific addressing of the question"] else [])
          recommendations relevance_score).

(** ** Document types and the relevance gate *)

Definition _determine_expected_document_type (question : string) : string :=
  let question_lower := PyStr.lower question in
  if PyStr.contains "consent" question_lower
     || PyStr.contains "informed consent" question_lower
  then "Consent Form"
  else if PyStr.contains "protocol" question_lower
          || PyStr.contains "research protocol" question_lower
  then "Research Protocol"
  else if PyStr.contains "ethics committee application" question_lower
          || PyStr.contains "ethics application" question_lower
          || PyStr.contains "application form" question_lower
  then "Ethics Committee Application Form"
  else if PyStr.contains "cv" question_lower
          || PyStr.contains "resume" question_lower
          || PyStr.contains "curriculum vitae" question_lower
  then "CV/Resume"
  else if PyStr.contains "survey" question_lower
          || PyStr.contains "questionnaire" question_lower
  then "Survey/Questionnaire"
  else if PyStr.contains "study protocol" question_lower
  then "Study Protocol"
  else "Supporting Document".

Definition _determine_actual_document_type (doc_name doc_content : string) : string :=
  let doc_name_lower := PyStr.lower doc_name in
  let doc_content_lower := PyStr.lower doc_content in
  if PyStr.contains "consent" doc_name_lower
  then "Consent Form"
  else if PyStr.contains "protocol" doc_name_lower
  then "Research Protocol"
  else if PyStr.contains "ethics" doc_name_lower
          && (PyStr.contains "application" doc_name_lower
              || PyStr.contains "committee" doc_name_lower)
  then "Ethics Committee Application Form"
  else if PyStr.contains "cv" doc_name_lower
          || PyStr.contains "resume" doc_name_lower
          || PyStr.contains "curriculum" doc_name_lower
  then "CV/Resume"
  else if PyStr.contains "survey" doc_name_lower
          || PyStr.contains "questionnaire" doc_name_lower
  then "Survey/Questionnaire"
  else if PyStr.contains "consent" doc_content_lower
          && (PyStr.contains "voluntary" doc_content_lower
              || PyStr.contains "withdraw" doc_content_lower)
  then "Consent Form"
  else if PyStr.contains "protocol" doc_content_lower
          && (PyStr.contains "methodology" doc_content_lower
              || PyStr.contains "procedure" doc_content_lower)
  then "Research Protocol"
  else if PyStr.contains "ethics committee" doc_content_lower
          && PyStr.contains "application" doc_content_lower
  then "Ethics Committee Application Form"
  else if (PyStr.contains "education" doc_content_lower
           || PyStr.contains "experience" doc_content_lower)
          && (PyStr.contains "skills" doc_content_lower
              || PyStr.contains "qualification" doc_content_lower)
  then "CV/Resume"
  else if PyStr.contains "question" doc_content_lower
          && (PyStr.contains "answer" doc_content_lower
              || PyStr.contains "response" doc_content_lower)
  then "Survey/Questionnaire"
  else "Supporting Document".

Definition _is_document_relevant (expected_type actual_type doc_content question : string)
    : result bool :=
  if String.eqb expected_type actual_type then mret true
  else
    let question_keywords := significant_words relevance_stop_words question in
    let keyword_matches := keyword_matches question_keywords doc_content in
    relevance_score ←
      (if nonempty question_keywords
       then PyFloat.truediv keyword_matches (list_len question_keywords)
       else mret (PyFloat.of_int 0));
    mret (PyFloat.gt relevance_score PyFloat.lit_0_3).

(** The verdict returned for a document that fails the relevance gate. *)
Definition not_relevant_verdict (expected_doc_type actual_doc_type : string) : verdict :=
  {| status := "NEEDS_REVISION";
     analysis :=
       "The uploaded document does not appear to be the required "
       +:+ expected_doc_type
       +:+ " for this question. The document appears to be a "
       +:+ actual_doc_type
       +:+ ", which does not address the requirements of this question.";
     missing_elements :=
       ["Appropriate document type"; "Content relevant to the question"];
     recommendations :=
       ["Upload a " +:+ expected_doc_type +:+ " that specifically addresses this question";
        "Ensure the document contains all required elements"];
     compliance_score := 20 |}.

(** The dispatch on the actual document type. *)
Definition analyze_by_type (actual_doc_type doc_content question : string)
    : result verdict :=
  if String.eqb actual_doc_type "Consent Form"
  then _analyze_consent_form doc_content
  else if String.eqb actual_doc_type "Research Protocol"
          || String.eqb actual_doc_type "Study Protocol"
  then _analyze_research_protocol doc_content
  else if String.eqb actual_doc_type "Ethics Committee Application Form"
  then _analyze_ethics_application_form doc_content
  else if String.eqb actual_doc_type "CV/Resume"
  then _analyze_cv doc_content
  else if String.eqb actual_doc_type "Survey/Questionnaire"
  then _analyze_survey doc_content
  else _analyze_generic_document doc_content question actual_doc_type.

Definition _generate_document_review (doc_content question doc_name : string)
    : result verdict :=
  let expected_doc_type := _determine_expected_document_type question in
  let actual_doc_type := _determine_actual_document_type doc_name doc_content in
  is_relevant ←
    _is_document_relevant expected_doc_type actual_doc_type doc_content question;
  if negb is_relevant
  then mret (not_relevant_verdict expected_doc_type actual_doc_type)
  else analyze_by_type actual_doc_type doc_content question.

(** ** The narrators *)

Definition dquote : string := String "034"%char EmptyString.

(** The fixed narrative of [_generate_research_context_analysis]. *)
Definition research_context_text : string :=
  PyStr.text
    [ "";
      "    # Ethics Analysis";
      "";
      "    ## Ethical Considerations";
      "    Based on the research context provided, there are several ethical considerations to address:";
      "";
      "    1. **Participant Privacy**: Ensure all participant data is anonymized and securely stored.";
      "    2. **Informed Consent**: Clearly communicate the research purpose and how data will be used.";
      "    3. **Vulnerable Populations**: Take extra precautions if working with vulnerable groups.";
      "";
      "    ## Potential Risks";
      "    1. **Data Breach**: Unauthorized access to participant information";
      "    2. **Psychological Impact**: Potential distress from sensitive questions";
      "    3. **Confidentiality Concerns**: Maintaining anonymity in published results";
      "";
      "    ## Recommended Safeguards";
      "    1. Implement robust data security measures";
      "    2. Establish clear withdrawal procedures for participants";
      "    3. Create a detailed data management plan";
      "    4. Provide support resources for participants if needed";
      "";
      "    ## Compliance Requirements";
      "    1. Obtain IRB/Ethics Committee approval before beginning";
      "    2. Follow GDPR/local data protection regulations";
      "    3. Maintain documentation of consent procedures";
      "    4. Regular ethics reviews throughout the research process";
      "        " ].

(** Feedback templates of [_generate_question_feedback]. *)
Definition human_participants_yes : string :=
  PyStr.text
    [ "";
      "    ## Feedback on Human Participants Question";
      "";
      "    Your 'YES' response indicates that your research involves human participants, which triggers important ethical considerations.";
      "";
      "    ### Key Ethical Requirements:";
      "    1. You must obtain informed consent from all participants";
      "    2. You need to ensure participant privacy and data confidentiality";
      "    3. Risk assessment and mitigation strategies must be in place";
      "    4. Vulnerable populations require additional protections";
      "";
      "    ### Documentation Needed:";
      "    - Participant information sheets";
      "    - Consent forms";
      "    - Recruitment materials";
      "    - Data management plan";
      "";
      "    Please ensure you have addressed all these aspects in your supporting documentation.";
      "                " ].

Definition human_participants_other : string :=
  PyStr.text
    [ "";
      "    ## Feedback on Human Participants Question";
      "";
      "    Your response indicates your research does not involve human participants. If this is accurate, many standard ethical requirements for human subjects research won't apply.";
      "";
      "    However, please double-check that your research truly doesn't involve:";
      "    - Collection of human data (including from existing datasets)";
      "    - Observation of human behavior";
      "    - Use of human tissue samples";
      "    - Surveys, interviews, or focus groups";
      "";
      "    If any of these elements are present, you should reconsider your answer as your research may actually involve human participants indirectly.";
      "                " ].

Definition personal_data_yes : string :=
  PyStr.text
    [ "";
      "    ## Feedback on Personal Data Collection";
      "";
      "    Your 'YES' response indicates you will be collecting personal data, which has significant ethical and legal implications.";
      "";
      "    ### Important Considerations:";
      "    1. You must comply with relevant data protection regulations (e.g., GDPR)";
      "    2. Data minimization principles should be applied";
      "    3. Secure storage and transfer protocols are required";
      "    4. Data retention periods must be defined and justified";
      "    5. Participant rights regarding their data must be clearly communicated";
      "";
      "    ### Documentation Required:";
      "    - Data management plan";
      "    - Privacy notice for participants";
      "    - Data security protocols";
      "    - Data retention and destruction schedule";
      "";
      "    Ensure your documentation thoroughly addresses how you'll protect participant data throughout its lifecycle.";
      "                " ].

Definition personal_data_other : string :=
  PyStr.text
    [ "";
      "    ## Feedback on Personal Data Collection";
      "";
      "    Your response indicates you won't be collecting personal data. This simplifies some ethical requirements, but please verify that you truly won't collect any information that could identify individuals.";
      "";
      "    Remember that personal data includes:";
      "    - Names, addresses, email addresses";
      "    - ID numbers or online identifiers";
      "    - Location data";
      "    - Physical, physiological, genetic, or biometric data";
      "    - Factors specific to a person's identity";
      "";
      "    Even if you're collecting anonymized data, the process of collection might temporarily involve personal information, so consider whether any stage of your research involves personal data.";
      "                " ].

Definition generic_feedback (question response : string) : string :=
  PyStr.text
    [ "";
      "## Feedback on Your Response";
      "";
      "Regarding the question: " +:+ dquote +:+ question +:+ dquote;
      "";
      "Your answer of " +:+ dquote +:+ response +:+ dquote +:+ " has important ethical implications that should be carefully considered.";
      "";
      "### Assessment:";
      "The response you've provided requires you to think about how this aspect of your research aligns with ethical principles including respect for persons, beneficence, and justice.";
      "";
      "### Considerations:";
      "- How does this element of your research impact participant autonomy?";
      "- What measures are in place to ensure fair treatment of all stakeholders?";
      "- Have you considered both direct and indirect consequences of this aspect?";
      "";
      "### Recommendations:";
      "1. Document your reasoning for this decision in your research protocol";
      "2. Consider alternative approaches that might further minimize ethical concerns";
      "3. Consult relevant guidelines specific to this aspect of research ethics";
      "4. Be prepared to justify this position to the ethics committee";
      "";
      "Remember that ethical research requires ongoing reflection and adjustment throughout the research process.";
      "            " ].


(** ** Responses of the engine

    [get_completion] returns a plain string or a dictionary; the dictionaries
    are verdicts, error objects and reports. *)

Inductive completion : Type :=
| Text (s : string)
| Review (v : verdict)
| ErrorObject (status message : string)
| Report (status report generated_at : string).

Definition _generate_research_context_analysis (message : string) : completion :=
  Text research_context_text.

Definition _generate_question_feedback (question response : string) : completion :=
  let response_upper := PyStr.strip (PyStr.upper response) in
  if PyStr.contains "human participants" (PyStr.lower question)
  then (if String.eqb response_upper "YES"
        then Text human_participants_yes
        else Text human_participants_other)
  else if PyStr.contains "personal data" (PyStr.lower question)
  then (if String.eqb response_upper "YES"
        then Text personal_data_yes
        else Text personal_data_other)
  else if PyStr.contains "vulnerable" (PyStr.lower question)
          && PyStr.contains "document" (PyStr.lower question)
  then Review
         {| status := "ANALYZING";
            analysis := "This research protocol outlines the methodology, participant recruitment, data collection procedures, and ethical considerations for the study.";
            missing_elements := ["Detailed risk mitigation strategies"];
            recommendations :=
              ["Add more specific information about how risks will be mitigated";
               "Include a data management plan"];
            compliance_score := 80 |}
  else Text (generic_feedback question response).

(** ** Parsed JSON values *)

#[warnings="-register-all"]
Inductive json : Type :=
| JNull
| JBool (b : bool)
| JInt (z : Z)
| JFloat (x : spec_float)
| JStr (s : string)
| JList (l : list json)
| JDict (d : list (string * json)).

Module PyVal.

(** Truth value of an object in [if v:]. *)
Definition truthy (v : json) : bool :=
  match v with
  | JNull => false
  | JBool b => b
  | JInt z => negb (z =? 0)
  | JFloat (S754_zero _) => false
  | JFloat _ => true
  | JStr s => negb (PyStr.is_empty s)
  | JList l => nonempty l
  | JDict d => nonempty d
  end.

(** [d.items()] *)
Definition items (v : json) : result (list (string * json)) :=
  match v with
  | JDict d => OK d
  | _ => Raise AttributeError
  end.

Fixpoint chars (s : string) : list json :=
  match s with
  | EmptyString => []
  | String c s' => JStr (String c EmptyString) :: chars s'
  end.

(** The elements visited by [for x in v]. *)
Definition iterate (v : json) : result (list json) :=
  match v with
  | JList l => OK l
  | JStr s => OK (chars s)
  | JDict d => OK (map (fun entry => JStr (fst entry)) d)
  | _ => Raise TypeError
  end.

Fixpoint lookup (key : string) (d : list (string * json)) : option json :=
  match d with
  | [] => None
  | (k, v) :: d' => if String.eqb k key then Some v else lookup key d'
  end.

(** [d.get(key, default)] *)
Definition get (d : list (string * json)) (key : string) (default : json) : json :=
  match lookup key d with
  | Some v => v
  | None => default
  end.

(** [v != 'N/A'] and the like: only a string equals a string. *)
Definition ne_str (v : json) (s : string) : bool :=
  match v with
  | JStr s' => negb (String.eqb s' s)
  | _ => true
  end.

End PyVal.

(** The fixed parts of the report of [_generate_review_report]. *)
Definition report_preamble : string :=
  PyStr.text
    [ "";
      "# Ethics Review Report";
      "";
      "## Executive Summary";
      "This report summarizes the ethical review of submitted documents for your research project. Overall, the documentation meets most ethical requirements with some recommendations for improvement.";
      "";
      "## Document Analysis";
      "" ].

Definition report_placeholder : string :=
  PyStr.text
    [ "";
      "No document reviews are available. Please ensure all required documents have been uploaded and reviewed.";
      "" ].

Definition report_next_steps : string :=
  PyStr.text
    [ "";
      "## Next Steps";
      "1. Address any identified issues in the documents";
      "2. Submit revised documentation where required";
      "3. Proceed with participant recruitment once all documents are approved";
      "";
      "For any questions or clarification, please contact the Ethics Committee.";
      "" ].

Section Engine.

(** [json.loads]: [None] when it raises. *)
Variable json_loads : string -> option json.

(** [str()] of a parsed float, list or dictionary. *)
Variable py_str : json -> string.

(** A value interpolated into an f-string. *)
Definition fmt (v : json) : string :=
  match v with
  | JStr s => s
  | JNull => "None"
  | JBool true => "True"
  | JBool false => "False"
  | JInt z => NilZero.string_of_int (Z.to_int z)
  | _ => py_str v
  end.

(** [for element in elements: report += f"- {element}\n"] *)
Definition bullets (elements : list json) : string :=
  String.concat "" (map (fun element => "- " +:+ fmt element +:+ PyStr.LF) elements).

(** The text one [doc_id, review] pair adds to the report. *)
Definition review_section (doc_id : string) (review : json) : result string :=
  match review with
  | JDict review =>
      let status := PyVal.get review "status" (JStr "PENDING") in
      let analysis := PyVal.get review "analysis" (JStr "No analysis available") in
      let recommendations := PyVal.get review "recommendations" (JList []) in
      let missing_elements := PyVal.get review "missing_elements" (JList []) in
      let compliance_score := PyVal.get review "compliance_score" (JStr "N/A") in
      let head :=
        PyStr.LF +:+ "### Document ID: " +:+ doc_id +:+ PyStr.LF
        +:+ "**Status**: " +:+ fmt status +:+ PyStr.LF
        +:+ when (PyVal.ne_str compliance_score "N/A")
              ("**Compliance Score**: " +:+ fmt compliance_score +:+ "/100" +:+ PyStr.LF)
        +:+ PyStr.LF +:+ "**Analysis**: " +:+ fmt analysis +:+ PyStr.LF in
      missing_part ←
        (if PyVal.truthy missing_elements
         then elements ← PyVal.iterate missing_elements;
              mret (PyStr.LF +:+ "**Missing Elements**:" +:+ PyStr.LF +:+ bullets elements)
         else mret "");
      recommendations_part ←
        (if PyVal.truthy recommendations
         then elements ← PyVal.iterate recommendations;
              mret (PyStr.LF +:+ "**Recommendations**:" +:+ PyStr.LF +:+ bullets elements)
         else mret "");
      mret (head +:+ missing_part +:+ recommendations_part
            +:+ PyStr.LF +:+ "---" +:+ PyStr.LF)
  | _ => mret ""
  end.

Fixpoint review_sections (entries : list (string * json)) (report : string)
    : result string :=
  match entries with
  | [] => mret report
  | (doc_id, review) :: rest =>
      section ← review_section doc_id review;
      review_sections rest (report +:+ section)
  end.

Definition _generate_review_report (now : string) (reviews : json) : result completion :=
  let report := report_preamble in
  report ←
    (if PyVal.truthy reviews
     then entries ← PyVal.items reviews; review_sections entries report
     else mret (report +:+ report_placeholder));
  let report := report +:+ report_next_steps in
  mret (Report "COMPLETED" report now).

(** *** The entry point *)

(** [msg[key]] *)
Definition getitem (msg : gmap string string) (key : string) : result string :=
  match msg !! key with
  | Some v => OK v
  | None => Raise KeyError
  end.

(** The loop that keeps the last user message and the last system message. *)
Fixpoint scan_messages (messages : list (gmap string string))
    (last_user_message system_message : option string)
    : result (option string * option string) :=
  match messages with
  | [] => mret (last_user_message, system_message)
  | msg :: rest =>
      role ← getitem msg "role";
      if String.eqb role "user"
      then content ← getitem msg "content";
           scan_messages rest (Some content) system_message
      else if String.eqb role "system"
      then content ← getitem msg "content";
           scan_messages rest last_user_message (Some content)
      else scan_messages rest last_user_message system_message
  end.

(** Truth value of an optional string: [None] and [""] are false. *)
Definition str_truthy (s : option string) : bool :=
  match s with
  | Some s => negb (PyStr.is_empty s)
  | None => false
  end.

Definition fallback_text : string :=
  "I'm here to assist with your research ethics application. Please provide specific details about your research or questions about ethical requirements.".

(** The document-review branch: the three fields cut out of the message. *)
Definition review_doc_content (m : string) : string :=
  let doc_content_start :=
    PyStr.find "Document Content Preview:" m + PyStr.len "Document Content Preview:" in
  let doc_content_end :=
    if PyStr.contains "Please analyze" m then PyStr.find "Please analyze" m
    else PyStr.len m in
  PyStr.strip (PyStr.slice m doc_content_start doc_content_end).

Definition review_question (m : string) : string :=
  let question_start := PyStr.find "Ethics Question:" m + PyStr.len "Ethics Question:" in
  let question_end := PyStr.find "Document Name:" m in
  if question_start <? question_end
  then PyStr.strip (PyStr.slice m question_start question_end)
  else "".

Definition review_doc_name (m : string) : string :=
  let doc_name_start := PyStr.find "Document Name:" m + PyStr.len "Document Name:" in
  let doc_name_end := PyStr.find "Document Type:" m in
  if doc_name_start <? doc_name_end
  then PyStr.strip (PyStr.slice m doc_name_start doc_name_end)
  else "".

(** The test of the fourth branch, with Python's precedence: the
    conditional expression binds weaker than [or], so the line reads
    [A if system_message else (False or B)]. *)
Definition is_report_request (system_message : option string)
    (last_user_message : string) : bool :=
  if str_truthy system_message
  then match system_message with
       | Some s => PyStr.contains "review report" (PyStr.lower s)
       | None => false
       end
  else false || PyStr.contains "generate a review report" (PyStr.lower last_user_message).

(** The reviews read back from the message; any failure leaves [{}]. *)
Definition extract_reviews (m : string) : json :=
  let start_idx := PyStr.find "{" m in
  let end_idx := PyStr.rfind "}" m + 1 in
  if (0 <=? start_idx) && (start_idx <? end_idx)
  then match json_loads (PyStr.slice m start_idx end_idx) with
       | Some reviews => reviews
       | None => JDict []
       end
  else JDict [].

(** The body of the [try] block. *)
Definition attempt (now : string) (messages : list (gmap string string))
    : result completion :=
  '(last_user_message, system_message) ← scan_messages messages None None;
  match last_user_message with
  | None | Some EmptyString =>
      mret (ErrorObject "ERROR" "No user message found in the conversation.")
  | Some m =>
      if PyStr.contains "Document Content Preview:" m
      then
        v ← _generate_document_review
              (review_doc_content m) (review_question m) (review_doc_name m);
        mret (Review v)
      else if PyStr.contains "research context" (PyStr.lower m)
      then mret (_generate_research_context_analysis m)
      else if PyStr.contains "Question:" m && PyStr.contains "Response:" m
      then
        let question_start := PyStr.find "Question:" m + PyStr.len "Question:" in
        let question_end := PyStr.find "Response:" m in
        let question := PyStr.strip (PyStr.slice m question_start question_end) in
        let response_start := PyStr.find "Response:" m + PyStr.len "Response:" in
        let response_end :=
          if PyStr.contains "Document Name:" m then PyStr.find "Document Name:" m
          else PyStr.len m in
        let response := PyStr.strip (PyStr.slice m response_start response_end) in
        mret (_generate_question_feedback question response)
      else if is_report_request system_message m
      then _generate_review_report now (extract_reviews m)
      else mret (Text fallback_text)
  end.

(** [API_CONFIG['max_retries']] *)
Definition max_retries : nat := 3.

Definition service_unavailable : completion :=
  ErrorObject "ERROR" "AI service unavailable. Please try again later.".

(** The [while retries < max_retries] loop around the [try] block: an
    attempt that raises is logged and repeated after a pause, and the loop
    falls through to the last [return] when the attempts are used up. *)
Fixpoint retry (remaining : nat) (body : result completion) : completion :=
  match remaining with
  | O => service_unavailable
  | S remaining' =>
      match body with
      | OK c => c
      | Raise _ => retry remaining' body
      end
  end.

Definition get_completion (now : string) (messages : list (gmap string string))
    : completion :=
  retry max_retries (attempt now messages).

End Engine.

(** A message with the two keys the engine reads. *)
Definition msg (role content : string) : gmap string string :=
  {[ "role" := role; "content" := content ]}.


(** * The agents

    [BaseAgent] and [DocumentProcessorAgent] build the messages and hand
    them to [get_completion]; what they return is the engine's value, an
    error dictionary of their own, or a parsed JSON text. *)

(** [s.endswith(suffix)] *)
Definition endswith (suffix s : string) : bool :=
  let n := String.length s in
  let k := String.length suffix in
  (k <=? n)%nat && String.eqb (String.substring (n - k) k s) suffix.

(** The indentation the prompt templates carry in the source files. *)
Definition indent20 : string := "                    ".
Definition indent4 : string := "    ".

(** Truth value of a value returned by [get_completion]: the dictionaries
    all have keys, a string is true when it is not empty. *)
Definition completion_truthy (c : completion) : bool :=
  match c with
  | Text s => negb (PyStr.is_empty s)
  | _ => true
  end.

(** [result == s] for a string [s]. *)
Definition completion_is (c : completion) (s : string) : bool :=
  match c with
  | Text t => String.eqb t s
  | _ => false
  end.

Definition service_error : string := "AI service encountered an error.".

(** What [review_document] returns: a value of the engine or an error
    dictionary, or the value [json.loads] read from a string result. *)
Inductive agent_reply : Type :=
| Reply (c : completion)
| Loaded (v : json).

(** [DocumentProcessorAgent._determine_document_type] *)
Definition _determine_document_type (question filename : string) : string :=
  let filename_lower := PyStr.lower filename in
  let question_lower := PyStr.lower question in
  if PyStr.contains "consent" filename_lower then "Consent Form"
  else if PyStr.contains "protocol" filename_lower then "Research Protocol"
  else if PyStr.contains "questionnaire" filename_lower
          || PyStr.contains "survey" filename_lower then "Survey/Questionnaire"
  else if PyStr.contains "approval" filename_lower
          || PyStr.contains "letter" filename_lower then "Approval Letter"
  else if PyStr.contains "cv" filename_lower
          || PyStr.contains "curriculum" filename_lower
          || PyStr.contains "resume" filename_lower then "CV/Resume"
  else if PyStr.contains "consent" question_lower then "Consent Form"
  else if PyStr.contains "protocol" question_lower then "Research Protocol"
  else if PyStr.contains "questionnaire" question_lower
          || PyStr.contains "survey" question_lower then "Survey/Questionnaire"
  else if PyStr.contains "approval" question_lower
          || PyStr.contains "letter" question_lower then "Approval Letter"
  else if PyStr.contains "cv" question_lower
          || PyStr.contains "curriculum" question_lower
          || PyStr.contains "resume" question_lower then "CV/Resume"
  else "Supporting Document".

(** The system message of [review_document]. *)
Definition review_system_prompt : string :=
  PyStr.text
    ["You are a document review assistant specializing in research ethics documentation.";
     indent20 +:+ "Analyze the provided document in the context of the related ethics question.";
     indent20 +:+ "Provide specific feedback on whether the document meets ethical requirements,";
     indent20 +:+ "identify any missing elements, and suggest improvements."].

(** [document_text[:3000] if len(document_text) > 3000 else document_text] *)
Definition document_preview (document_text : string) : string :=
  if 3000 <? PyStr.len document_text
  then PyStr.slice document_text 0 3000
  else document_text.

(** The lines of the user message after the document preview. *)
Definition review_instructions : list string :=
    [indent20 +:+ "Please analyze this document and provide:";
     indent20 +:+ "1. An assessment of whether it adequately addresses the ethics question";
     indent20 +:+ "2. Identification of any missing or incomplete elements";
     indent20 +:+ "3. Specific recommendations for improvement";
     indent20 +:+ "4. A status determination (APPROVED, ANALYZING, or NEEDS_REVISION)";
     indent20;
     indent20 +:+ "Format your response as a JSON object with these fields:";
     indent20 +:+ "- status: " +:+ dquote +:+ "APPROVED" +:+ dquote +:+ ", " +:+ dquote +:+ "ANALYZING" +:+ dquote +:+ ", or " +:+ dquote +:+ "NEEDS_REVISION" +:+ dquote;
     indent20 +:+ "- analysis: A detailed analysis of the document";
     indent20 +:+ "- missing_elements: List of any missing or incomplete elements";
     indent20 +:+ "- recommendations: List of specific recommendations for improvement";
     indent20 +:+ "- compliance_score: A number from 0-100 indicating how well the document meets requirements";
     indent20].

(** The user message of [review_document], line by line as the f-string
    has it; [preview] is the document preview. *)
Definition review_user_prompt (question filename document_type preview : string)
    : string :=
  PyStr.text
    (["";
      indent20 +:+ "Ethics Question: " +:+ question;
      indent20;
      indent20 +:+ "Document Name: " +:+ filename;
      indent20 +:+ "Document Type: " +:+ document_type;
      indent20;
      indent20 +:+ "Document Content Preview:";
      indent20 +:+ preview;
      indent20] ++ review_instructions).

(** [field_descriptions] of [BaseAgent.get_research_context_feedback] *)
Definition field_descriptions : list (string * string) :=
  [("title", "research title");
   ("field", "research field");
   ("context", "research context");
   ("description", "research description");
   ("methodology", "research methodology");
   ("participants", "target participants");
   ("timeline", "expected timeline")].

(** [field_descriptions.get(field_name, field_name)] *)
Fixpoint describe (table : list (string * string)) (field_name : string) : string :=
  match table with
  | [] => field_name
  | (key, description) :: rest =>
      if String.eqb key field_name then description else describe rest field_name
  end.

Definition context_feedback_system (field_desc : string) : string :=
  PyStr.text
    ["You are an ethics review assistant providing feedback on a research proposal's " +:+ field_desc +:+ ".";
     indent20 +:+ "Provide constructive feedback focusing on ethical considerations, clarity, and completeness."].

Definition context_feedback_prompt (field_desc field_value : string) : string :=
  PyStr.text
    ["";
     indent20 +:+ "Review this " +:+ field_desc +:+ " for a research proposal:";
     indent20;
     indent20 +:+ field_value;
     indent20;
     indent20 +:+ "Provide specific feedback on:";
     indent20 +:+ "1. Clarity and completeness";
     indent20 +:+ "2. Ethical considerations";
     indent20 +:+ "3. Potential issues or concerns";
     indent20 +:+ "4. Suggestions for improvement";
     indent20;
     indent20 +:+ "Keep your feedback concise, constructive, and focused on helping the researcher improve their proposal.";
     indent20].

(** [PROMPTS["ethics_review"].format(context=...)] of [config.py] *)
Definition ethics_review_prompt (context : string) : string :=
  PyStr.text
    ["";
     indent4 +:+ "Analyze the following research context from an ethics perspective:";
     indent4 +:+ context;
     indent4;
     indent4 +:+ "Provide a structured analysis including:";
     indent4 +:+ "1. Ethical considerations";
     indent4 +:+ "2. Potential risks";
     indent4 +:+ "3. Recommended safeguards";
     indent4 +:+ "4. Compliance requirements";
     indent4].

Definition ethics_review_system : string :=
  "You are an ethics review assistant analyzing research proposals. Provide detailed, specific feedback on the research context with focus on ethical considerations.".


(** The user message of [BaseAgent.get_question_feedback] when no prompt is
    passed: the question and the response, the lines about the document, and
    the closing instructions. *)
Definition indent16 : string := "                ".

Definition question_feedback_system : string :=
  PyStr.text
    ["You are a research ethics expert providing feedback on ethics checklist responses.";
     indent16 +:+ "Analyze the response and any attached document to provide specific, helpful feedback."].

Definition custom_prompt_system : string :=
  "You are a research ethics expert providing feedback on ethics checklist responses.".

Definition question_feedback_head (question response : string) : string :=
  PyStr.text
    ["Question: " +:+ question;
     indent16 +:+ "Response: " +:+ response;
     indent16].

Definition question_feedback_closing : string :=
  PyStr.text
    ["";
     indent16 +:+ "Please provide specific feedback on this ethics question response.";
     indent16 +:+ "If a document is attached, evaluate if it adequately addresses the requirements.";
     indent16;
     indent16 +:+ "Structure your feedback as follows:";
     indent16 +:+ "1. Assessment of the response";
     indent16 +:+ "2. Ethical considerations";
     indent16 +:+ "3. Potential issues or concerns";
     indent16 +:+ "4. Specific recommendations";
     indent16;
     indent16 +:+ "Be detailed and specific in your analysis, focusing on how the response and document (if provided)";
     indent16 +:+ "address the ethical requirements implied by the question.";
     indent16].

(** The [document] dictionary with the keys the functions read, each of
    which may be missing: the name, the type, the uploaded content, and the
    stored review with its status, analysis, missing elements and
    recommendations as strings.  [doc_other_keys] tells whether the
    dictionary has further keys, which matters for its truth value only. *)
Record review_info : Type := ReviewInfo {
  review_status : option string;
  review_analysis : option string;
  review_missing_elements : option (list string);
  review_recommendations : option (list string)
}.

Record document_info (bytes : Type) : Type := DocumentInfo {
  doc_name : option string;
  doc_type : option string;
  doc_content : option bytes;
  doc_review : option review_info;
  doc_other_keys : bool
}.

Arguments DocumentInfo {bytes}.
Arguments doc_name {bytes}.
Arguments doc_type {bytes}.
Arguments doc_content {bytes}.
Arguments doc_review {bytes}.
Arguments doc_other_keys {bytes}.

(** [if document:] is false for [None] and for the empty dictionary. *)
Definition document_truthy {bytes : Type} (document : option (document_info bytes))
    : bool :=
  match document with
  | Some d =>
      bool_decide (is_Some (doc_name d)) || bool_decide (is_Some (doc_type d))
      || bool_decide (is_Some (doc_content d))
      || bool_decide (is_Some (doc_review d)) || doc_other_keys d
  | None => false
  end.

(** [document and 'content' in document] *)
Definition document_has_content {bytes : Type} (document : option (document_info bytes))
    : bool :=
  match document with
  | Some d => bool_decide (is_Some (doc_content d))
  | None => false
  end.

(** A heading and its items, when the key is there and the list is not empty. *)
Definition listed (heading : string) (items : option (list string)) : string :=
  match items with
  | Some (item :: rest) =>
      fold_left (fun text element => text +:+ ("- " +:+ element +:+ PyStr.LF))
                (item :: rest) (heading +:+ PyStr.LF)
  | _ => ""
  end.

(** The two sentences [get_question_feedback] of [app.py] chooses from, and
    the line that ends its prompt. *)
Definition with_document_sentence : string :=
  " Evaluate if the attached document adequately addresses the requirements related to this specific question. Focus on the content of this particular document and how it relates to the ethics question.".

Definition without_document_sentence : string :=
  " Since no document was provided, focus on the ethical implications of the response and what documentation might be needed.".

Definition unique_feedback_sentence : string :=
  "Your feedback should be unique to this specific question and document, not generic.".

(** [DocumentProcessorAgent._is_question] *)
Definition question_keywords : list string :=
  ["required"; "mandatory"; "must"; "should"; "please provide"; "please submit"].

Definition _is_question (text : string) : bool :=
  let text := PyStr.strip (PyStr.lower text) in
  endswith "?" text
  || existsb (fun keyword => PyStr.contains keyword text) question_keywords.

(** The messages of [process_research_context]. *)
Definition process_system_prompt : string :=
  PyStr.text
    ["You are an ethics review assistant. Analyze the research context and ethics questions ";
     indent20 +:+ "to determine which questions are relevant and mandatory."].

Definition process_instructions : list string :=
    [indent20;
     indent20 +:+ "For each question determine:";
     indent20 +:+ "1. If it's a mandatory/core question (required for all research)";
     indent20 +:+ "2. If it's field-specific and relevant to this research";
     indent20 +:+ "3. If it requires document upload";
     indent20 +:+ "4. If it should be included based on the research context";
     indent20;
     indent20 +:+ "Return the analysis in this JSON format:";
     indent20 +:+ "{";
     indent20 +:+ "    " +:+ dquote +:+ "mandatory" +:+ dquote +:+ ": [";
     indent20 +:+ "        {";
     indent20 +:+ "            " +:+ dquote +:+ "id" +:+ dquote +:+ ": " +:+ dquote +:+ "question_id" +:+ dquote +:+ ",";
     indent20 +:+ "            " +:+ dquote +:+ "question" +:+ dquote +:+ ": " +:+ dquote +:+ "question_text" +:+ dquote +:+ ",";
     indent20 +:+ "            " +:+ dquote +:+ "requires_document" +:+ dquote +:+ ": true/false";
     indent20 +:+ "        }";
     indent20 +:+ "    ],";
     indent20 +:+ "    " +:+ dquote +:+ "field_specific" +:+ dquote +:+ ": [";
     indent20 +:+ "        {";
     indent20 +:+ "            " +:+ dquote +:+ "id" +:+ dquote +:+ ": " +:+ dquote +:+ "question_id" +:+ dquote +:+ ",";
     indent20 +:+ "            " +:+ dquote +:+ "question" +:+ dquote +:+ ": " +:+ dquote +:+ "question_text" +:+ dquote +:+ ",";
     indent20 +:+ "            " +:+ dquote +:+ "requires_document" +:+ dquote +:+ ": true/false,";
     indent20 +:+ "            " +:+ dquote +:+ "relevant" +:+ dquote +:+ ": true/false";
     indent20 +:+ "        }";
     indent20 +:+ "    ]";
     indent20 +:+ "}";
     indent20].

Definition process_user_prompt (research_json questions_json : string) : string :=
  PyStr.text
    (["";
      indent20 +:+ "Research Context:";
      indent20 +:+ research_json;
      indent20;
      indent20 +:+ "Ethics Questions:";
      indent20 +:+ questions_json] ++ process_instructions).

(** One entry of the questionnaire [_format_questions] returns. *)
Record formatted_question : Type := FormattedQuestion {
  fq_id : json;
  fq_question : json;
  fq_options : list string;
  fq_is_core : bool;
  fq_requires_document : json
}.

(** What [process_research_context] returns: the questionnaire with status
    COMPLETED, the ERROR of [_format_questions] with the exception it caught
    in its message, or the ERROR of an unavailable service. *)
Inductive questions_result : Type :=
| Questions (mandatory field_specific : list formatted_question)
| FormattingError (e : exn)
| ContextUnavailable.

(** [f'core_{i}'] and [f'field_{i}'] *)
Definition numbered (stem : string) (i : nat) : string :=
  stem +:+ NilZero.string_of_uint (Nat.to_uint i).

(** One item of the first comprehension. *)
Definition format_mandatory (i : nat) (q : json) : result formatted_question :=
  match q with
  | JDict d =>
      let id := PyVal.get d "id" (JStr (numbered "core_" i)) in
      match PyVal.lookup "question" d with
      | Some question =>
          OK {| fq_id := id; fq_question := question;
                fq_options := ["YES"; "NO"]; fq_is_core := true;
                fq_requires_document := PyVal.get d "requires_document" (JBool false) |}
      | None => Raise KeyError
      end
  | _ => Raise AttributeError
  end.

(** One item of the second comprehension, [None] when the filter drops it. *)
Definition format_field_specific (i : nat) (q : json)
    : result (option formatted_question) :=
  match q with
  | JDict d =>
      if PyVal.truthy (PyVal.get d "relevant" (JBool true))
      then
        let id := PyVal.get d "id" (JStr (numbered "field_" i)) in
        match PyVal.lookup "question" d with
        | Some question =>
            OK (Some {| fq_id := id; fq_question := question;
                        fq_options := ["YES"; "NO"; "N/A"]; fq_is_core := false;
                        fq_requires_document :=
                          PyVal.get d "requires_document" (JBool false) |})
        | None => Raise KeyError
        end
      else OK None
  | _ => Raise AttributeError
  end.

(** A comprehension over [enumerate(l)], from index [i]. *)
Fixpoint comprehend {A : Type} (item : nat -> json -> result (option A))
    (i : nat) (l : list json) : result (list A) :=
  match l with
  | [] => mret []
  | q :: rest =>
      formatted ← item i q;
      others ← comprehend item (S i) rest;
      mret (match formatted with
            | Some x => x :: others
            | None => others
            end)
  end.

(** The body of [_format_questions] on the parsed analysis. *)
Definition format_analysis (analysis : json) : result (list formatted_question
                                                       * list formatted_question) :=
  match analysis with
  | JDict d =>
      mandatory ← PyVal.iterate (PyVal.get d "mandatory" (JList []));
      formatted_mandatory ←
        comprehend (fun i q => x ← format_mandatory i q; mret (Some x)) 0 mandatory;
      field_specific ← PyVal.iterate (PyVal.get d "field_specific" (JList []));
      formatted_field_specific ← comprehend format_field_specific 0 field_specific;
      mret (formatted_mandatory, formatted_field_specific)
  | _ => Raise AttributeError
  end.

(** The messages of [validate_checklist]. *)
Definition validate_system_prompt : string :=
  PyStr.text
    ["You are an ethics review assistant validating research ethics applications. ";
     indent20 +:+ "Your role is to ensure all mandatory components are properly addressed and documented."].

Definition validate_instructions : list string :=
    [indent20;
     indent20 +:+ "Provide a structured analysis including:";
     indent20 +:+ "1. Completeness of responses";
     indent20 +:+ "2. Required documentation status";
     indent20 +:+ "3. Potential issues or concerns";
     indent20 +:+ "4. Recommendations for improvement";
     indent20;
     indent20 +:+ "Focus on:";
     indent20 +:+ "- Mandatory components (Part A)";
     indent20 +:+ "- Required documentation";
     indent20 +:+ "- Consistency of responses";
     indent20 +:+ "- Compliance with ethics guidelines";
     indent20].

Definition validate_user_prompt (responses_text documents_text : string) : string :=
  PyStr.text
    (["";
      indent20 +:+ "Review these ethics checklist responses and documents:";
      indent20;
      indent20 +:+ "Responses:";
      indent20 +:+ responses_text;
      indent20;
      indent20 +:+ "Documents Submitted:";
      indent20 +:+ documents_text] ++ validate_instructions).

(** The messages of [DocumentProcessorAgent.generate_review_report]. *)
Definition report_system_prompt : string :=
  PyStr.text
    ["You are an ethics review report generator. Create a comprehensive, ";
     indent20 +:+ "well-formatted report based on the document reviews provided."].

Definition report_instructions : list string :=
    [indent20;
     indent20 +:+ "Generate a comprehensive ethics review report that includes:";
     indent20 +:+ "1. An executive summary of the overall review status";
     indent20 +:+ "2. Detailed analysis of each document";
     indent20 +:+ "3. Identification of any missing elements or issues";
     indent20 +:+ "4. Specific recommendations for improvement";
     indent20 +:+ "5. Next steps for the researcher";
     indent20;
     indent20 +:+ "Format the report in a professional, well-structured manner.";
     indent20].

Definition report_user_prompt (reviews_json : string) : string :=
  PyStr.text
    (["";
      indent20 +:+ "Document Reviews:";
      indent20 +:+ reviews_json] ++ report_instructions).

(** What [generate_review_report] of the agent returns: an ERROR with its
    message, or status COMPLETED around the value of the engine and the
    reading of the clock. *)
Inductive report_reply : Type :=
| ReportError (message : string)
| ReportCompleted (report : completion) (generated_at : string).

Section Agents.

Variable json_loads : string -> option json.
Variable py_str : json -> string.

(** The uploaded file, and what the two document libraries read from it:
    the page texts of a PDF and the paragraphs of a Word file, [None] when
    the library raises. *)
Variable bytes : Type.
Variable pdf_pages : bytes -> option (list string).
Variable word_paragraphs : bytes -> option (list string).

(** [content.decode('utf-8', errors='ignore')], [None] when it raises. *)
Variable decode_utf8 : bytes -> option string.

(** [str(context)] for the dictionary of the research context. *)
Variable dict_str : gmap string string -> string.

(** [str(documents.keys())] for the names of the uploaded documents. *)
Variable keys_str : list string -> string.

(** [json.dumps(value, indent=2)] *)
Variable json_dumps : json -> string.

(** The paragraphs of the checklist file, [None] when it cannot be read. *)
Variable checklist_paragraphs : option (list string).

Definition _extract_pdf_text (content : bytes) : string :=
  match pdf_pages content with
  | Some pages => fold_left (fun text page => text +:+ (page +:+ PyStr.LF)) pages ""
  | None => "[PDF text extraction error]"
  end.

Definition _extract_word_text (content : bytes) : string :=
  match word_paragraphs content with
  | Some paragraphs => PyStr.join PyStr.LF paragraphs
  | None => "[Word document text extraction error]"
  end.

(** The [ValueError] of the last branch is caught in the function itself. *)
Definition _extract_document_text (content : bytes) (filename : string) : string :=
  if endswith ".pdf" (PyStr.lower filename) then _extract_pdf_text content
  else if endswith ".doc" (PyStr.lower filename)
          || endswith ".docx" (PyStr.lower filename)
  then _extract_word_text content
  else "[Error extracting text from " +:+ filename +:+ "]".

(** [DocumentProcessorAgent.review_document] *)
Definition review_document (now : string) (content : bytes)
    (filename question : string) : agent_reply :=
  let document_text := _extract_document_text content filename in
  let document_type := _determine_document_type question filename in
  let messages :=
    [msg "system" review_system_prompt;
     msg "user" (review_user_prompt question filename document_type
                   (document_preview document_text))] in
  let result := get_completion json_loads py_str now messages in
  if negb (completion_truthy result) || completion_is result service_error
  then Reply (ErrorObject "ERROR" "Document review unavailable due to AI service error.")
  else match result with
       | Text s =>
           match json_loads s with
           | Some v => Loaded v
           | None => Reply (ErrorObject "ERROR" "Unable to parse AI response for document review.")
           end
       | _ => Reply result
       end.

(** [BaseAgent.analyze_research_context] *)
Definition analyze_research_context (now : string) (context : gmap string string)
    (custom_prompt : option string) : completion :=
  let user_content :=
    match custom_prompt with
    | Some p => if PyStr.is_empty p then ethics_review_prompt (dict_str context) else p
    | None => ethics_review_prompt (dict_str context)
    end in
  let messages := [msg "system" ethics_review_system; msg "user" user_content] in
  let result := get_completion json_loads py_str now messages in
  if negb (completion_truthy result) || completion_is result service_error
  then ErrorObject "ERROR" "Unable to analyze research context due to AI service error."
  else result.

(** [BaseAgent.get_research_context_feedback] *)
Definition get_research_context_feedback (now : string)
    (context : gmap string string) (field_name : string) : completion :=
  let field_desc := describe field_descriptions field_name in
  let field_value := default "" (context !! field_name) in
  if PyStr.is_empty field_value
  then ErrorObject "ERROR" ("Please provide information about your " +:+ field_desc +:+ ".")
  else
    let messages :=
      [msg "system" (context_feedback_system field_desc);
       msg "user" (context_feedback_prompt field_desc field_value)] in
    let result := get_completion json_loads py_str now messages in
    if negb (completion_truthy result) || completion_is result service_error
    then ErrorObject "ERROR" ("Unable to generate feedback for " +:+ field_desc
                              +:+ " due to AI service error.")
    else result.

(** The lines [BaseAgent.get_question_feedback] writes about the document. *)
Definition document_lines (document : option (document_info bytes)) : string :=
  match document with
  | Some d =>
      if document_truthy document
      then
        (PyStr.LF +:+ "Document provided: " +:+ default "Unknown" (doc_name d) +:+ PyStr.LF)
        +:+ match doc_content d with
            | Some content =>
                match decode_utf8 content with
                | Some text =>
                    "Document content preview: " +:+ PyStr.slice text 0 1000 +:+ PyStr.LF
                | None => "Document content could not be extracted." +:+ PyStr.LF
                end
            | None => ""
            end
        +:+ match doc_review d with
            | Some review =>
                ("Document review status: "
                 +:+ default "Unknown" (review_status review) +:+ PyStr.LF)
                +:+ ("Document analysis: "
                     +:+ default "Not available" (review_analysis review) +:+ PyStr.LF)
                +:+ listed "Missing elements:" (review_missing_elements review)
                +:+ listed "Recommendations:" (review_recommendations review)
            | None => ""
            end
      else ""
  | None => ""
  end.

(** [BaseAgent.get_question_feedback] *)
Definition get_question_feedback (now : string) (question response : string)
    (document : option (document_info bytes)) (prompt : option string) : completion :=
  let '(system_content, user_content) :=
    if str_truthy prompt
    then (custom_prompt_system, default "" prompt)
    else (question_feedback_system,
          question_feedback_head question response
          +:+ document_lines document +:+ question_feedback_closing) in
  let messages := [msg "system" system_content; msg "user" user_content] in
  let result := get_completion json_loads py_str now messages in
  if negb (completion_truthy result) || completion_is result service_error
  then ErrorObject "ERROR" "Unable to generate question feedback due to AI service error."
  else result.

(** The text [get_question_feedback] of [app.py] reads from the document. *)
Definition attached_text (d : document_info bytes) (content : bytes) : string :=
  let name := PyStr.lower (default "" (doc_name d)) in
  let doc_content :=
    if endswith ".pdf" name
    then option_map
           (fun pages =>
              fold_left (fun text page => text +:+ (page +:+ PyStr.LF)) pages "")
           (pdf_pages content)
    else if endswith ".doc" name || endswith ".docx" name
    then option_map (PyStr.join PyStr.LF) (word_paragraphs content)
    else decode_utf8 content in
  match doc_content with
  | Some doc_content => document_preview doc_content
  | None => "Document content could not be extracted"
  end.

(** The lines about the document in the prompt of [app.py]. *)
Definition attachment_lines (document : option (document_info bytes)) : string :=
  match document with
  | Some d =>
      match doc_content d with
      | Some content =>
          (PyStr.LF +:+ "Document Name: " +:+ default "Unknown" (doc_name d) +:+ PyStr.LF)
          +:+ ("Document Type: " +:+ default "Unknown" (doc_type d) +:+ PyStr.LF)
          +:+ ("Document Content Preview:" +:+ PyStr.LF
               +:+ attached_text d content +:+ PyStr.LF)
          +:+ match doc_review d with
              | Some review =>
                  (PyStr.LF +:+ "Document Review Status: "
                   +:+ default "Unknown" (review_status review) +:+ PyStr.LF)
                  +:+ ("Document Analysis: "
                       +:+ default "Not available" (review_analysis review) +:+ PyStr.LF)
              | None => ""
              end
      | None => ""
      end
  | None => ""
  end.

Definition feedback_prompt (question_text response_answer : string)
    (document : option (document_info bytes)) : string :=
  ("Question: " +:+ question_text +:+ PyStr.LF
   +:+ "Response: " +:+ response_answer +:+ PyStr.LF)
  +:+ attachment_lines document
  +:+ (PyStr.LF +:+ "Please provide specific, detailed feedback on this ethics question response.")
  +:+ (if document_truthy document
       then with_document_sentence else without_document_sentence)
  +:+ (PyStr.LF +:+ unique_feedback_sentence).

(** [get_question_feedback] of [app.py]: an ERROR dictionary of the agent
    becomes a sentence, every other result is passed on. *)
Definition app_get_question_feedback (now : string)
    (question_text response_answer : string)
    (document : option (document_info bytes)) : completion :=
  let prompt := feedback_prompt question_text response_answer document in
  let feedback_result :=
    get_question_feedback now question_text response_answer document (Some prompt) in
  match feedback_result with
  | ErrorObject status message =>
      if String.eqb status "ERROR"
      then Text ("Unable to generate feedback: " +:+ message)
      else feedback_result
  | Review v =>
      if String.eqb (status v) "ERROR"
      then Text ("Unable to generate feedback: " +:+ "AI service error")
      else feedback_result
  | Report status _ _ =>
      if String.eqb status "ERROR"
      then Text ("Unable to generate feedback: " +:+ "AI service error")
      else feedback_result
  | Text _ => feedback_result
  end.

(** [DocumentProcessorAgent.load_ethics_checklist] *)
Definition load_ethics_checklist : list string :=
  match checklist_paragraphs with
  | Some paragraphs => List.filter _is_question (map PyStr.strip paragraphs)
  | None => []
  end.

(** [DocumentProcessorAgent._format_questions]: a string is parsed, and a
    [JSONDecodeError] is a [ValueError]; the dictionaries of the engine
    have neither of the two keys. *)
Definition _format_questions (ai_analysis : completion) : questions_result :=
  match ai_analysis with
  | Text s =>
      match json_loads s with
      | Some analysis =>
          match format_analysis analysis with
          | OK (mandatory, field_specific) => Questions mandatory field_specific
          | Raise e => FormattingError e
          end
      | None => FormattingError ValueError
      end
  | _ => Questions [] []
  end.

(** [DocumentProcessorAgent.process_research_context] *)
Definition process_research_context (now : string) (research_data : json)
    : questions_result :=
  let questions := load_ethics_checklist in
  let messages :=
    [msg "system" process_system_prompt;
     msg "user" (process_user_prompt (json_dumps research_data)
                   (json_dumps (JList (map JStr questions))))] in
  let analysis := get_completion json_loads py_str now messages in
  if negb (completion_truthy analysis) || completion_is analysis service_error
  then ContextUnavailable
  else _format_questions analysis.

(** [BaseAgent.validate_checklist]; [documents] holds the names of the
    uploaded documents. *)
Definition documents_text (documents : option (list string)) : string :=
  match documents with
  | Some (name :: names) => keys_str (name :: names)
  | _ => "No documents uploaded"
  end.

Definition validate_checklist (now : string) (responses : gmap string string)
    (documents : option (list string)) : completion :=
  let messages :=
    [msg "system" validate_system_prompt;
     msg "user" (validate_user_prompt (dict_str responses) (documents_text documents))] in
  let result := get_completion json_loads py_str now messages in
  if negb (completion_truthy result) || completion_is result service_error
  then ErrorObject "ERROR" "Unable to validate checklist due to AI service error."
  else result.

(** [DocumentProcessorAgent.generate_review_report]; [now] is the clock
    the engine reads, [generated_at] the later reading of the agent. *)
Definition generate_review_report (now generated_at : string) (reviews : json)
    : report_reply :=
  if negb (PyVal.truthy reviews)
  then ReportError "No reviews available to generate report."
  else
    let messages :=
      [msg "system" report_system_prompt;
       msg "user" (report_user_prompt (json_dumps reviews))] in
    let report_content := get_completion json_loads py_str now messages in
    if negb (completion_truthy report_content)
       || completion_is report_content service_error
    then ReportError "Report generation unavailable due to AI service error."
    else ReportCompleted report_content generated_at.

End Agents.
(** * Statements

    The vocabulary of the properties below and the concrete inputs they are
    evaluated on. *)

(** The labels the actual-type inference can answer. *)
Definition document_types : list string :=
  ["Consent Form"; "Research Protocol"; "Ethics Committee Application Form";
   "CV/Resume"; "Survey/Questionnaire"; "Supporting Document"].

(** The outcome of rounding a non-negative mantissa. *)
Inductive rounded (s : bool) (bound magnitude : Z) : spec_float -> Prop :=
| rounded_zero : rounded s bound magnitude (S754_zero s)
| rounded_finite (m : positive) (e : Z) :
    e <= bound -> Zdigits2 (Z.pos m) + e <= magnitude ->
    rounded s bound magnitude (S754_finite s m e)
| rounded_infinity : 971 < bound -> rounded s bound magnitude (S754_infinity s).

(** The score of a returned verdict. *)
Definition compliance_score_of (r : result verdict) : option Z :=
  match r with
  | OK v => Some (compliance_score v)
  | Raise _ => None
  end.

(** The status of a verdict follows its score with the two thresholds. *)
Definition thresholds (approve analyze : Z) (v : verdict) : Prop :=
  (status v = "APPROVED" <-> approve <= compliance_score v)
  /\ (status v = "ANALYZING" <-> analyze <= compliance_score v < approve)
  /\ (status v = "NEEDS_REVISION" <-> compliance_score v < analyze).

(** What a typed scorer returns for its table: it always returns, the score
    is the floor of the percentage of present categories, and the status and
    the missing elements are read off the same walk. *)
Definition typed_result (key_elements : keyword_table)
    (scorer : string -> result verdict) : Prop :=
  forall doc_content : string,
  exists v : verdict,
    scorer doc_content = OK v
    /\ compliance_score v
       = 100 * list_len (present_of key_elements doc_content) / list_len key_elements
    /\ status v = typed_status (compliance_score v)
    /\ missing_elements v = map human (missing_of key_elements doc_content).

(** The typed scorers with their tables. *)
Definition typed_scorers : list (keyword_table * (string -> result verdict)) :=
  [ (consent_key_elements, _analyze_consent_form);
    (protocol_key_elements, _analyze_research_protocol);
    (ethics_application_key_elements, _analyze_ethics_application_form);
    (cv_key_elements, _analyze_cv);
    (survey_key_elements, _analyze_survey) ].

(** The score as the specification words it: [round(100 * present / total)],
    the nearest integer, a tie going to the even neighbour as Python's
    [round] does. *)
Definition spec_round_score (present total : Z) : Z :=
  let q := 100 * present / total in
  let r := 100 * present mod total in
  if 2 * r <? total then q
  else if total <? 2 * r then q + 1
  else if Z.even q then q else q + 1.

(** An ethics application that covers every category but the declarations. *)
Definition eight_of_nine : string :=
  "researcher project method participant ethic risk data consent".

(** The missing elements of the verdict of the gate. *)
Definition gate_missing_elements : list string :=
  ["Appropriate document type"; "Content relevant to the question"].

(** A consent form uploaded for a consent question. *)
Definition consent_question : string := "Please upload your Informed Consent Form".
Definition consent_document : string :=
  "Taking part is voluntary; you may withdraw your consent at any time.".

(** Two documents that do not answer a request for a CV. *)
Definition cv_question : string := "Please upload your CV".
Definition shopping_list : string := "my shopping list".
Definition consent_notes : string := "consent voluntary".

(** A message whose role is not ["user"], or that has no role at all. *)
Definition no_user_role (m : gmap string string) : Prop :=
  m !! "role" <> Some "user".

(** The messages of the two error objects. *)
Definition no_user_message_text : string :=
  "No user message found in the conversation.".

Definition service_unavailable_text : string :=
  "AI service unavailable. Please try again later.".

(** A response with its generation timestamp erased. *)
Definition forget_timestamp (c : completion) : completion :=
  match c with
  | Report status report _ => Report status report ""
  | _ => c
  end.

Definition forget_result (r : result completion) : result completion :=
  match r with
  | OK c => OK (forget_timestamp c)
  | Raise e => Raise e
  end.

(** Stand-ins for the library where a closed instance is needed: a
    [json.loads] that rejects every text and a [str] that prints nothing.  The
    instances below never reach either. *)
Definition loads_rejects : string -> option json := fun _ => None.
Definition str_blank : json -> string := fun _ => "".

(** A conversation without a user message. *)
Definition system_only : list (gmap string string) :=
  [ msg "system" "You are a document review assistant.";
    msg "assistant" "How can I help?" ].

(** A report request without and with a system message. *)
Definition report_request : list (gmap string string) :=
  [ msg "user" "Please generate a review report" ].

Definition report_request_with_system : list (gmap string string) :=
  [ msg "system" "You are a research ethics expert.";
    msg "user" "Please generate a review report for my documents." ].

(** The prompt of a checklist answer with an attached document, as the form
    layer builds it: no "Ethics Question:" marker. *)
Definition feedback_prompt_with_document : string :=
  PyStr.text
    [ "Question: Does your research involve vulnerable populations?";
      "Response: YES";
      "";
      "Document Name: protocol.docx";
      "Document Type: Research Protocol";
      "Document Content Preview:";
      "This protocol outlines the procedure for working with vulnerable populations.";
      "";
      "Please provide specific, detailed feedback on this ethics question response." ].

(** ** Vocabulary of the further properties *)

(** A question for which [_generate_question_feedback] answers with a
    structured object: it mentions "vulnerable" and "document" and neither
    "human participants" nor "personal data". *)
Definition structured_feedback_question (question : string) : bool :=
  negb (PyStr.contains "human participants" (PyStr.lower question))
  && negb (PyStr.contains "personal data" (PyStr.lower question))
  && PyStr.contains "vulnerable" (PyStr.lower question)
  && PyStr.contains "document" (PyStr.lower question).

(** A message that has the two keys the entry point may read. *)
Definition well_formed_message (m : gmap string string) : Prop :=
  is_Some (m !! "role") /\ is_Some (m !! "content").

(** Values a [for] loop accepts, and values the report composer can list:
    the falsy ones, which it skips, and the iterable ones. *)
Definition iterable (v : json) : bool :=
  match v with
  | JList _ | JStr _ | JDict _ => true
  | _ => false
  end.

Definition listable (v : json) : bool := negb (PyVal.truthy v) || iterable v.

Definition review_listable (review : json) : bool :=
  match review with
  | JDict review =>
      listable (PyVal.get review "missing_elements" (JList []))
      && listable (PyVal.get review "recommendations" (JList []))
  | _ => true
  end.

Definition reviews_listable (entries : list (string * json)) : bool :=
  forallb (fun entry => review_listable (snd entry)) entries.

(** A [json.loads] that finds one review whose missing elements are a count
    instead of a list. *)
Definition loads_count_review : string -> option json :=
  fun _ => Some (JDict [("doc1", JDict [("status", JStr "APPROVED");
                                        ("missing_elements", JInt 2)])]).

Definition count_review_request : string :=
  "Please generate a review report: {doc1: {status: APPROVED, missing_elements: 2}}".

(** Earlier turns of a conversation. *)
Definition earlier_turns : list (gmap string string) :=
  [ msg "system" "You are a review report generator.";
    msg "user" "Please generate a review report";
    msg "assistant" "Done." ].

(** What every verdict of a document review satisfies, whichever scorer
    produced it. *)
Definition verdict_invariant (v : verdict) : Prop :=
  0 <= compliance_score v <= 100
  /\ In (status v) ["APPROVED"; "ANALYZING"; "NEEDS_REVISION"]
  /\ (status v = "APPROVED" -> 80 <= compliance_score v)
  /\ (compliance_score v < 60 -> status v = "NEEDS_REVISION").

(** What every response of the engine satisfies. *)
Definition response_contract (now : string) (c : completion) : Prop :=
  match c with
  | Text s => s <> ""
  | Review v => verdict_invariant v
  | ErrorObject status message =>
      status = "ERROR"
      /\ (message = no_user_message_text \/ message = service_unavailable_text)
  | Report status report generated_at => status = "COMPLETED" /\ generated_at = now
  end.

(** The gate's float comparison [matches / count > 0.3] against the integer
    comparison [10 * matches > 3 * count], for one pair and for every pair
    up to a number of question words. *)
Definition gate_agrees (count matches : nat) : bool :=
  match PyFloat.truediv (Z.of_nat matches) (Z.of_nat count) with
  | OK ratio =>
      Bool.eqb (PyFloat.gt ratio PyFloat.lit_0_3)
               (3 * Z.of_nat count <? 10 * Z.of_nat matches)
  | Raise _ => false
  end.

Definition gate_table (bound : nat) : bool :=
  forallb (fun count => forallb (gate_agrees count) (seq 0 (S count))) (seq 1 bound).

(** A request for a CV answered by a document that repeats three of the ten
    significant words of the question. *)
Definition ten_word_question : string :=
  "alpha bravo charlie delta echoes foxtrot golfing hotel india juliet".
Definition three_of_ten : string := "alpha bravo charlie".


(** ** Vocabulary of the properties of the agents *)


(** One line break of a prompt template and the indentation that follows. *)
Definition margin : string := PyStr.LF +:+ indent20.

(** What follows "Please analyze" in the user message of [review_document]. *)
Definition review_closing : string :=
  " this document and provide:" +:+ PyStr.LF +:+ PyStr.text (tl review_instructions).

(** The user message of [review_document] cut at the markers the engine
    searches for. *)
Definition review_pieces (question filename document_type preview : string) : string :=
  margin +:+ "Ethics Question:" +:+ " " +:+ question +:+ margin +:+ margin
  +:+ "Document Name:" +:+ " " +:+ filename +:+ margin
  +:+ "Document Type:" +:+ " " +:+ document_type +:+ margin +:+ margin
  +:+ "Document Content Preview:" +:+ margin +:+ preview +:+ margin +:+ margin
  +:+ "Please analyze" +:+ review_closing.

(** [s] has none of the [markers]. *)
Definition free_of (markers : list string) (s : string) : bool :=
  forallb (fun marker => negb (PyStr.contains marker s)) markers.

(** A text of white space only. *)
Fixpoint blank (w : string) : bool :=
  match w with
  | EmptyString => true
  | String c w' => PyStr.is_space c && blank w'
  end.

(** The labels [_determine_document_type] chooses from. *)
Definition document_type_labels : list string :=
  ["Consent Form"; "Research Protocol"; "Survey/Questionnaire";
   "Approval Letter"; "CV/Resume"; "Supporting Document"].

(** Sample inputs: a PDF of two pages, a Word reader that raises, a decoder,
    a research context and a question. *)
Definition sample_pages : unit -> option (list string) :=
  fun _ => Some ["Participant Information and Consent Form";
                 "Participation is voluntary and you may withdraw at any time."].

Definition no_paragraphs : unit -> option (list string) := fun _ => None.

Definition decode_sample : unit -> option string := fun _ => Some "Interview guide".

Definition sample_question : string := "Have you attached the participant consent form?".

Definition sample_context : gmap string string :=
  {[ "title" := "Sleep and study";
     "context" := "A survey of sleep habits among students." ]}.

Definition sample_dict_str : gmap string string -> string :=
  fun _ => "{'title': 'Sleep and study'}".

Definition human_participants_question : string :=
  "Does your research involve human participants?".

Definition sample_document : document_info unit :=
  {| doc_name := Some "guide.txt"; doc_type := Some "Interview Guide";
     doc_content := Some tt; doc_review := None; doc_other_keys := false |}.

(** [agree p t]: nothing in [t] rules out that an occurrence of [p] starts
    at the head of [t] followed by more text. *)
Fixpoint agree (p t : string) : bool :=
  match p, t with
  | EmptyString, _ => true
  | String _ _, EmptyString => true
  | String c p', String d t' => Ascii.eqb c d && agree p' t'
  end.

(** No occurrence of [p] starts inside [a], whatever follows [a]. *)
Fixpoint skip_ok (p a : string) : bool :=
  match a with
  | EmptyString => true
  | String _ a' => negb (agree p a) && skip_ok p a'
  end.

(** [c] does not occur in [p]. *)
Fixpoint outside (c : ascii) (p : string) : bool :=
  match p with
  | EmptyString => true
  | String d p' => negb (Ascii.eqb d c) && outside c p'
  end.

Definition head_outside (p a : string) : bool :=
  match a with
  | EmptyString => false
  | String c _ => outside c p
  end.

Definition context_feedback_closing : string :=
  PyStr.text
    [indent20;
     indent20 +:+ "Provide specific feedback on:";
     indent20 +:+ "1. Clarity and completeness";
     indent20 +:+ "2. Ethical considerations";
     indent20 +:+ "3. Potential issues or concerns";
     indent20 +:+ "4. Suggestions for improvement";
     indent20;
     indent20 +:+ "Keep your feedback concise, constructive, and focused on helping the researcher improve their proposal.";
     indent20].

Definition context_feedback_pieces (field_desc field_value : string) : string :=
  margin +:+ "Review this " +:+ field_desc +:+ " for a research proposal:"
  +:+ margin +:+ margin +:+ field_value +:+ PyStr.LF +:+ context_feedback_closing.

Definition plain_fields : list string :=
  ["title"; "field"; "description"; "methodology"; "participants"; "timeline"].

Definition ethics_review_closing : string :=
  PyStr.text
    [indent4;
     indent4 +:+ "Provide a structured analysis including:";
     indent4 +:+ "1. Ethical considerations";
     indent4 +:+ "2. Potential risks";
     indent4 +:+ "3. Recommended safeguards";
     indent4 +:+ "4. Compliance requirements";
     indent4].

Definition ethics_review_pieces (context : string) : string :=
  (PyStr.LF +:+ indent4
   +:+ "Analyze the following research context from an ethics perspective:"
   +:+ PyStr.LF +:+ indent4)
  +:+ context +:+ PyStr.LF +:+ ethics_review_closing.

(** The feedback texts reserved for the answer YES. *)
Definition affirmative (c : completion) : bool :=
  completion_is c human_participants_yes || completion_is c personal_data_yes.

(** The last sentence of the closing instructions and what surrounds it. *)
Definition closing_sentence : string :=
  "address the ethical requirements implied by the question.".

Definition closing_lead : string :=
  PyStr.text
    ["";
     indent16 +:+ "Please provide specific feedback on this ethics question response.";
     indent16 +:+ "If a document is attached, evaluate if it adequately addresses the requirements.";
     indent16;
     indent16 +:+ "Structure your feedback as follows:";
     indent16 +:+ "1. Assessment of the response";
     indent16 +:+ "2. Ethical considerations";
     indent16 +:+ "3. Potential issues or concerns";
     indent16 +:+ "4. Specific recommendations";
     indent16;
     indent16 +:+ "Be detailed and specific in your analysis, focusing on how the response and document (if provided)"].

Definition closing_trail : string := PyStr.LF +:+ indent16.

(** A text that neither starts nor ends with white space and is not empty. *)
Definition solid (k : string) : bool :=
  match k with
  | EmptyString => false
  | String c _ => negb (PyStr.is_space c) && String.eqb (PyStr.rstrip k) k
  end.

(** The prompt of [app.py] for a document without content, cut at the
    marker of the response and at its last sentence. *)
Definition plain_feedback_pieces (question_text response_answer sentence : string)
    : string :=
  ("Question:" +:+ " " +:+ question_text +:+ PyStr.LF)
  +:+ "Response:"
  +:+ (" " +:+ response_answer +:+ PyStr.LF +:+ PyStr.LF
       +:+ "Please provide specific, detailed feedback on this ethics question response."
       +:+ sentence +:+ PyStr.LF)
  +:+ unique_feedback_sentence +:+ EmptyString.

Definition question_feedback_pieces (question response lines : string) : string :=
  ("Question:" +:+ " " +:+ question +:+ PyStr.LF +:+ indent16)
  +:+ "Response:"
  +:+ (" " +:+ response +:+ PyStr.LF +:+ indent16 +:+ lines
       +:+ closing_lead +:+ PyStr.LF +:+ indent16)
  +:+ closing_sentence +:+ closing_trail.


(** The user message of [validate_checklist] cut around its two fields. *)
Definition validate_closing : string := PyStr.text validate_instructions.

Definition validate_pieces (responses_text documents_text : string) : string :=
  margin +:+ "Review these ethics checklist responses and documents:"
  +:+ margin +:+ margin +:+ "Responses:" +:+ margin +:+ responses_text
  +:+ margin +:+ margin +:+ "Documents Submitted:" +:+ margin +:+ documents_text
  +:+ PyStr.LF +:+ validate_closing.

(** The user message of [process_research_context] cut around its two fields. *)
Definition process_closing : string := PyStr.text process_instructions.

Definition process_pieces (research_json questions_json : string) : string :=
  (margin +:+ "Research Context:" +:+ margin)
  +:+ research_json +:+ margin +:+ margin +:+ "Ethics Questions:" +:+ margin
  +:+ questions_json +:+ PyStr.LF +:+ process_closing.

(** The question text of an entry of the analysis, and whether the filter of
    the field-specific questions keeps the entry. *)
Definition entry_question (q : json) : option json :=
  match q with
  | JDict d => PyVal.lookup "question" d
  | _ => None
  end.

Definition entry_relevant (q : json) : bool :=
  match q with
  | JDict d => PyVal.truthy (PyVal.get d "relevant" (JBool true))
  | _ => false
  end.

(** Sample inputs: a checklist, its responses, and an analysis with one
    mandatory question and two field-specific ones, the second marked as
    not relevant. *)
Definition sample_responses : gmap string string := {[ "A1" := "YES" ]}.

Definition sample_keys_str : list string -> string := fun _ => "dict_keys(['A1'])".

Definition sample_analysis : list (string * json) :=
  [("mandatory", JList [JDict [("question", JStr "Does the study involve people?")]]);
   ("field_specific",
    JList [JDict [("id", JStr "f1"); ("question", JStr "Is tissue collected?")];
           JDict [("question", JStr "Are animals used?"); ("relevant", JBool false)]])].

Definition broken_analysis : list (string * json) :=
  [("mandatory", JList [JDict [("question", JStr "Does the study involve people?")];
                        JDict [("id", JStr "m2")]])].


(** The value the agents test the result of the engine for. *)
Definition error_value (c : completion) : bool :=
  negb (completion_truthy c) || completion_is c service_error.

(** The user message of the agent's [generate_review_report] around the
    serialised reviews. *)
Definition report_closing : string := PyStr.text report_instructions.

Definition report_pieces (reviews_json : string) : string :=
  (margin +:+ "Document Reviews:" +:+ margin)
  +:+ reviews_json +:+ PyStr.LF +:+ report_closing.

(** Sample reviews with a serialiser and a parser that agree on them, and
    reviews the composer cannot list. *)
Definition sample_reviews : json :=
  JDict [("consent.pdf", JDict [("status", JStr "APPROVED")])].

Definition sample_dumps : json -> string :=
  fun _ => "{consent.pdf: {status: APPROVED}}".

Definition sample_loads : string -> option json := fun _ => Some sample_reviews.
(** * Properties *)

(** ** The scenarios of the specification *)

(** A consent form that mentions every category. *)
Example consent_form_complete :
  exists v : verdict,
    _analyze_consent_form
      "purpose, procedures, risks, benefits, confidentiality, voluntary, withdraw, contact"
    = OK v
    /\ status v = "APPROVED" /\ compliance_score v = 100 /\ missing_elements v = [].
Proof. eexists. split; [vm_compute; reflexivity|]. by repeat split. Qed.

(** A shopping list uploaded for a consent question. *)
Example shopping_list_rejected :
  _determine_expected_document_type consent_question = "Consent Form"
  /\ _determine_actual_document_type "random_notes.txt" shopping_list
     = "Supporting Document"
  /\ _generate_document_review shopping_list consent_question "random_notes.txt"
     = OK (not_relevant_verdict "Consent Form" "Supporting Document").
Proof. repeat split; vm_compute; reflexivity. Qed.

(** The human-participants question answered YES. *)
Example human_participants_feedback :
  _generate_question_feedback "Does your research involve human participants?" "YES"
  = Text human_participants_yes
  /\ PyStr.contains "informed consent" human_participants_yes = true
  /\ PyStr.contains "privacy" human_participants_yes = true
  /\ PyStr.contains "Vulnerable populations" human_participants_yes = true.
Proof. repeat split; vm_compute; reflexivity. Qed.

(** ** Substring search *)

Section Substring.

Lemma prefix_append (p r : string) : String.prefix p (p +:+ r) = true.
Proof.
  induction p as [|c p IH]; simpl.
  - by destruct r.
  - rewrite IH. by destruct (ascii_dec c c).
Qed.

Lemma prefix_inv (p s : string) :
  String.prefix p s = true -> exists r, s = p +:+ r.
Proof.
  revert s. induction p as [|c p IH]; intros s H.
  - by exists s.
  - destruct s as [|c' s]; simpl in H; [done|].
    destruct (ascii_dec c c') as [->|]; [|done].
    destruct (IH _ H) as [r ->]. by exists r.
Qed.

Lemma append_assoc (a b c : string) : (a +:+ b) +:+ c = a +:+ (b +:+ c).
Proof.
  induction a as [|x a IH]; [done|].
  change (String x ((a +:+ b) +:+ c) = String x (a +:+ (b +:+ c))).
  by rewrite IH.
Qed.

Lemma contains_unfold (p s : string) :
  PyStr.contains p s =
  String.prefix p s
  || match s with
     | EmptyString => false
     | String _ s' => PyStr.contains p s'
     end.
Proof. by destruct s. Qed.

Lemma contains_prefix (p s : string) :
  String.prefix p s = true -> PyStr.contains p s = true.
Proof. intros H. by rewrite contains_unfold, H. Qed.

(** [contains p s] holds exactly when [s] splits around an occurrence of [p]. *)
Lemma contains_intro (l p r : string) : PyStr.contains p (l +:+ p +:+ r) = true.
Proof.
  induction l as [|c l IH].
  - change (PyStr.contains p (p +:+ r) = true).
    apply contains_prefix, prefix_append.
  - change (PyStr.contains p (String c (l +:+ p +:+ r)) = true).
    rewrite contains_unfold, IH. apply orb_true_r.
Qed.

Lemma contains_inv (p s : string) :
  PyStr.contains p s = true -> exists l r, s = l +:+ p +:+ r.
Proof.
  induction s as [|c s IH]; rewrite contains_unfold; intros H.
  - rewrite orb_false_r in H. destruct (prefix_inv _ _ H) as [r ->].
    by exists EmptyString, r.
  - apply orb_true_iff in H as [H|H].
    + destruct (prefix_inv _ _ H) as [r ->]. by exists EmptyString, r.
    + destruct (IH H) as (l & r & ->). by exists (String c l), r.
Qed.

(** An occurrence of [a ++ b ++ c] is an occurrence of [b]. *)
Lemma contains_inner (a b c s : string) :
  PyStr.contains (a +:+ b +:+ c) s = true -> PyStr.contains b s = true.
Proof.
  intros H. destruct (contains_inv _ _ H) as (l & r & ->).
  replace (l +:+ (a +:+ b +:+ c) +:+ r) with ((l +:+ a) +:+ b +:+ (c +:+ r)).
  - apply contains_intro.
  - by rewrite !append_assoc.
Qed.

(** A question that mentions "study protocol" mentions "protocol". *)
Lemma study_protocol_is_protocol (s : string) :
  PyStr.contains "study protocol" s = true -> PyStr.contains "protocol" s = true.
Proof. apply (contains_inner "study " "protocol" ""). Qed.

End Substring.

(** ** Document types *)

Lemma expected_type_not_study_protocol (question : string) :
  _determine_expected_document_type question <> "Study Protocol".
Proof.
  unfold _determine_expected_document_type.
  set (q := PyStr.lower question).
  destruct (PyStr.contains "consent" q || _); [done|].
  destruct (PyStr.contains "protocol" q) eqn:Hprotocol; [done|]. simpl.
  destruct (PyStr.contains "research protocol" q); [done|].
  destruct (_ || _ || _); [done|].
  destruct (_ || _ || _); [done|].
  destruct (_ || _); [done|].
  destruct (PyStr.contains "study protocol" q) eqn:Hstudy; [|done].
  apply study_protocol_is_protocol in Hstudy. congruence.
Qed.

Lemma actual_type_cases (doc_name doc_content : string) :
  In (_determine_actual_document_type doc_name doc_content) document_types.
Proof.
  unfold _determine_actual_document_type, document_types.
  repeat match goal with
         | |- context [if ?b then _ else _] => destruct b
         end; simpl; tauto.
Qed.

Lemma actual_type_not_study_protocol (doc_name doc_content : string) :
  _determine_actual_document_type doc_name doc_content <> "Study Protocol".
Proof.
  intros H. pose proof (actual_type_cases doc_name doc_content) as Hin.
  rewrite H in Hin. simpl in Hin. intuition discriminate.
Qed.

(** C10. The expected-type inference never answers "Study Protocol", because
    the "protocol" rule fires first on every question that mentions "study
    protocol"; the actual-type inference never answers it either; so the
    ["Study Protocol"] disjunct of the dispatch in [_generate_document_review]
    is never the one that holds. *)
Theorem study_protocol_unreachable :
  (forall question : string,
      _determine_expected_document_type question <> "Study Protocol")
  /\ (forall doc_name doc_content : string,
         _determine_actual_document_type doc_name doc_content <> "Study Protocol")
  /\ (forall doc_name doc_content : string,
         String.eqb (_determine_actual_document_type doc_name doc_content)
                    "Study Protocol" = false).
Proof.
  split; [exact expected_type_not_study_protocol|].
  split; [exact actual_type_not_study_protocol|].
  intros doc_name doc_content. apply String.eqb_neq.
  apply actual_type_not_study_protocol.
Qed.

(** ** Rounding to binary64

    What is needed of [SpecFloat] to see that the percentage of a part of a
    whole never leaves the finite floats: rounding a non-negative mantissa
    keeps the exponent and the magnitude (digits plus exponent) bounded. *)

Section BinaryRounding.

Lemma fexp_eq (e : Z) : fexp PyFloat.prec PyFloat.emax e = Z.max (e - 53) (-1074).
Proof. reflexivity. Qed.

Lemma digits2_size (p : positive) : digits2_pos p = Pos.size p.
Proof. induction p; simpl; congruence. Qed.

Lemma digits_nonneg (z : Z) : 0 <= Zdigits2 z.
Proof. destruct z; simpl; lia. Qed.

(** A non-negative integer is below two to the number of its digits. *)
Lemma digits_gt (z : Z) : 0 <= z -> z < 2 ^ Zdigits2 z.
Proof.
  destruct z as [|p|p]; simpl; [lia| |lia]. intros _.
  rewrite digits2_size. pose proof (Pos.size_gt p) as H.
  apply Pos2Z.pos_lt_pos in H. by rewrite Pos2Z.inj_pow in H.
Qed.

(** Conversely the number of digits is the least such exponent. *)
Lemma digits_le (z k : Z) : 0 <= k -> 0 <= z < 2 ^ k -> Zdigits2 z <= k.
Proof.
  intros Hk [Hz Hlt]. destruct z as [|p|p]; simpl; [lia| |lia].
  rewrite digits2_size. pose proof (Pos.size_le p) as H.
  apply Pos2Z.pos_le_pos in H. rewrite Pos2Z.inj_pow in H.
  change (Z.pos p~0) with (2 * Z.pos p) in H.
  destruct (Z.le_gt_cases (Z.pos (Pos.size p)) k) as [|Hgt]; [done|].
  assert (2 ^ (k + 1) <= 2 ^ Z.pos (Pos.size p)) by (apply Z.pow_le_mono_r; lia).
  rewrite Z.pow_add_r in * by lia. lia.
Qed.


Lemma shr_1_m (r : shr_record) :
  0 <= shr_m r -> shr_m (shr_1 r) = shr_m r / 2.
Proof.
  destruct r as [m rb sb]; simpl. intros Hm.
  destruct m as [|[p|p|]|p]; simpl; try lia; try reflexivity.
  - apply Z.div_unique with (r := 1); lia.
  - apply Z.div_unique with (r := 0); lia.
Qed.

Lemma iter_shr_1_m (n : positive) (r : shr_record) :
  0 <= shr_m r -> shr_m (SpecFloat.iter_pos shr_1 n r) = shr_m r / 2 ^ Z.pos n.
Proof.
  revert r. induction n as [n IH|n IH|]; intros r Hr; cbn [SpecFloat.iter_pos].
  - assert (0 <= shr_m (shr_1 r)) as H1.
    { rewrite shr_1_m by done. apply Z.div_pos; lia. }
    assert (0 <= shr_m (SpecFloat.iter_pos shr_1 n (shr_1 r))) as H2.
    { rewrite IH by done. apply Z.div_pos; lia. }
    rewrite IH, IH, shr_1_m by done.
    rewrite !Z.div_div by lia. f_equal.
    replace (Z.pos n~1) with (1 + Z.pos n + Z.pos n) by lia.
    rewrite !Z.pow_add_r by lia. lia.
  - assert (0 <= shr_m (SpecFloat.iter_pos shr_1 n r)) as H2.
    { rewrite IH by done. apply Z.div_pos; lia. }
    rewrite IH, IH by done.
    rewrite !Z.div_div by lia. f_equal.
    replace (Z.pos n~0) with (Z.pos n + Z.pos n) by lia.
    rewrite !Z.pow_add_r by lia. lia.
  - rewrite shr_1_m by done. done.
Qed.

Lemma shr_record_of_loc_m (m : Z) (l : location) : shr_m (shr_record_of_loc m l) = m.
Proof. by destruct l as [|[]]. Qed.

(** Dropping [n] low bits drops [n] digits. *)
Lemma digits_div_pow (m n : Z) :
  0 <= m -> 0 < n -> Zdigits2 (m / 2 ^ n) + n <= Z.max (Zdigits2 m) n.
Proof.
  intros Hm Hn. pose proof (digits_gt m Hm) as Hlt.
  pose proof (digits_nonneg m) as Hd.
  destruct (Z.le_gt_cases (Zdigits2 m) n) as [Hle|Hgt].
  - rewrite Z.div_small; [simpl; lia|]. split; [done|].
    eapply Z.lt_le_trans; [exact Hlt|]. apply Z.pow_le_mono_r; lia.
  - assert (Zdigits2 (m / 2 ^ n) <= Zdigits2 m - n); [|lia].
    apply digits_le; [lia|]. split; [apply Z.div_pos; lia|].
    apply Z.div_lt_upper_bound; [lia|].
    rewrite <- Z.pow_add_r by lia. by replace (n + (Zdigits2 m - n)) with (Zdigits2 m) by lia.
Qed.

(** The first step of rounding: the mantissa stays non-negative, the
    exponent becomes the larger of [e] and the canonical one, and the
    magnitude, digits plus exponent, does not grow. *)
Lemma shr_fexp_spec (m e : Z) (l : location) :
  0 <= m ->
  exists r e',
    shr_fexp PyFloat.prec PyFloat.emax m e l = (r, e')
    /\ 0 <= shr_m r
    /\ e' = Z.max e (fexp PyFloat.prec PyFloat.emax (Zdigits2 m + e))
    /\ Zdigits2 (shr_m r) + e' <= Z.max (Zdigits2 m + e) e'.
Proof.
  intros Hm. unfold shr_fexp, shr.
  destruct (fexp PyFloat.prec PyFloat.emax (Zdigits2 m + e) - e) as [|n|n] eqn:Hn.
  - eexists _, _. split; [done|]. rewrite shr_record_of_loc_m. lia.
  - eexists _, _. split; [done|].
    rewrite iter_shr_1_m by (rewrite shr_record_of_loc_m; done).
    rewrite shr_record_of_loc_m.
    split; [apply Z.div_pos; lia|]. split; [lia|].
    pose proof (digits_div_pow m (Z.pos n) Hm ltac:(lia)). lia.
  - eexists _, _. split; [done|]. rewrite shr_record_of_loc_m. lia.
Qed.

Lemma round_nearest_even_spec (m : Z) (l : location) :
  0 <= m ->
  0 <= round_nearest_even m l
  /\ Zdigits2 (round_nearest_even m l) <= Zdigits2 m + 1.
Proof.
  intros Hm. pose proof (digits_gt m Hm) as Hlt. pose proof (digits_nonneg m) as Hd.
  assert (0 <= m + 1 /\ Zdigits2 (m + 1) <= Zdigits2 m + 1) as Hsucc.
  { split; [lia|]. apply digits_le; [lia|]. rewrite Z.pow_add_r by lia. lia. }
  unfold round_nearest_even. destruct l as [|[]]; try destruct (Z.even m); try lia.
Qed.

Lemma binary_round_aux_spec (s : bool) (m e : Z) (l : location) :
  0 <= m ->
  rounded s (Z.max (Z.max e (Zdigits2 m + e - 52)) (-1074))
            (Z.max (Z.max e (Zdigits2 m + e)) (-1074) + 1)
          (binary_round_aux PyFloat.prec PyFloat.emax s m e l).
Proof.
  intros Hm. unfold binary_round_aux.
  destruct (shr_fexp_spec m e l Hm) as (r1 & e1 & -> & Hr1 & He1 & Hd1).
  destruct (round_nearest_even_spec (shr_m r1) (loc_of_shr_record r1) Hr1)
    as [Hr1' Hd1'].
  destruct (shr_fexp_spec _ e1 loc_Exact Hr1') as (r2 & e2 & -> & Hr2 & He2 & Hd2).
  rewrite fexp_eq in He1, He2.
  destruct (shr_m r2) as [|m2|m2] eqn:Hm2; [constructor| |lia].
  change (PyFloat.emax - PyFloat.prec) with 971.
  destruct (Z.leb_spec e2 971); constructor; simpl in *; lia.
Qed.


Lemma digits_mul (a b : Z) :
  0 <= a -> 0 <= b -> Zdigits2 (a * b) <= Zdigits2 a + Zdigits2 b.
Proof.
  intros Ha Hb. pose proof (digits_gt a Ha). pose proof (digits_gt b Hb).
  pose proof (digits_nonneg a). pose proof (digits_nonneg b).
  apply digits_le; [lia|]. rewrite Z.pow_add_r by lia. nia.
Qed.

(** The quotient of a positive integer by one not smaller, before rounding:
    a non-negative mantissa of magnitude at most one. *)
Lemma div_core_spec (a b : positive) :
  Z.pos a <= Z.pos b ->
  exists q e l,
    SFdiv_core_binary PyFloat.prec PyFloat.emax (Z.pos a) 0 (Z.pos b) 0 = (q, e, l)
    /\ 0 <= q /\ e <= 0 /\ Zdigits2 q + e <= 1.
Proof.
  intros Hab. unfold SFdiv_core_binary.
  set (e := Z.min _ _). assert (e <= 0) as He by (subst e; lia).
  set (m := match 0 - 0 - e with Z.pos _ => _ | _ => _ end).
  assert (0 <= m <= Z.pos b * 2 ^ (- e)) as Hm.
  { subst m. destruct (0 - 0 - e) as [|s|s] eqn:Hs; [| |lia].
    - replace (- e) with 0 by lia. lia.
    - rewrite Z.shiftl_mul_pow2 by lia. replace (- e) with (Z.pos s) by lia.
      assert (0 < 2 ^ Z.pos s) by lia. nia. }
  pose proof (Z_div_mod m (Z.pos b) ltac:(lia)) as Hdiv.
  destruct (Z.div_eucl m (Z.pos b)) as [q r]. destruct Hdiv as [Hq Hr].
  exists q, e, (new_location (Z.pos b) r). split; [done|].
  assert (0 < 2 ^ (- e)) as Hpow by (apply Z.pow_pos_nonneg; lia).
  assert (0 <= q <= 2 ^ (- e)) as Hbound by nia.
  split; [lia|]. split; [done|].
  assert (Zdigits2 q <= - e + 1); [|lia].
  apply digits_le; [lia|]. rewrite Z.pow_add_r by lia. lia.
Qed.


(** [part / whole] for [0 <= part <= whole]: a finite float of magnitude at
    most two, or zero. *)
Lemma truediv_part_of_whole (part whole : Z) :
  0 <= part <= whole -> 0 < whole ->
  exists x, PyFloat.truediv part whole = OK x /\ rounded false 0 2 x.
Proof.
  intros Hpart Hwhole. unfold PyFloat.truediv.
  destruct (Z.eqb_spec whole 0) as [|_]; [lia|].
  destruct whole as [|b|b]; [lia| |lia].
  destruct part as [|a|a]; [| |lia].
  - exists (S754_zero false). split; [done | constructor].
  - cbn [PyFloat.exact SFdiv xorb].
    destruct (div_core_spec a b ltac:(lia)) as (q & e & l & -> & Hq & He & Hd).
    pose proof (binary_round_aux_spec false q e l Hq) as Hr.
    inversion Hr as [Hx|m' e' He' Hm' Hx|Hinf Hx].
    + exists (S754_zero false). split; [done | constructor].
    + exists (S754_finite false m' e'). split; [done|]. constructor; lia.
    + lia.
Qed.

(** [int((part / whole) * 100)] for [0 <= part <= whole]: it returns, and
    the result is not negative. *)
Lemma percent_returns (part whole : Z) :
  0 <= part <= whole -> 0 < whole ->
  exists z, percent part whole = OK z /\ 0 <= z.
Proof.
  intros Hpart Hwhole. unfold percent.
  destruct (truediv_part_of_whole part whole Hpart Hwhole) as (x & -> & Hx).
  cbn [mbind result_bind].
  change (PyFloat.of_int 100) with (S754_finite false 7036874417766400 (-46)).
  inversion Hx as [Hz|m e He Hm Hz|Hinf Hz]; [exists 0; split; [reflexivity | lia] | | lia].
  unfold PyFloat.mul. cbn [SFmul xorb].
  assert (0 <= Z.pos (m * 7036874417766400)) as Hpos by lia.
  pose proof (binary_round_aux_spec false _ (e + -46) loc_Exact Hpos) as Hr.
  pose proof (digits_mul (Z.pos m) 7036874417766400 ltac:(lia) ltac:(lia)) as Hd.
  change (Zdigits2 7036874417766400) with 53 in Hd.
  rewrite Pos2Z.inj_mul in Hr |- *.
  set (y := binary_round_aux _ _ _ _ _ _) in *. clearbody y.
  destruct Hr as [|m' e' He' Hm'|Hinf']; [exists 0; split; [reflexivity | lia] | | lia].
  eexists. split; [reflexivity|]. by apply Z.shiftl_nonneg.
Qed.

End BinaryRounding.

(** ** The percentage *)

(** On the table sizes of the typed scorers the float computation
    [int((part / whole) * 100)] is the integer quotient of [100 * part] by
    [whole]. *)
Lemma percent_floor (k n : nat) :
  (k <= n)%nat -> (1 <= n <= 9)%nat ->
  percent (Z.of_nat k) (Z.of_nat n) = OK (100 * Z.of_nat k / Z.of_nat n).
Proof.
  intros Hk Hn.
  do 10 (destruct n as [|n];
         [ try lia;
           do 10 (destruct k as [|k]; [ try lia; vm_compute; reflexivity |]); lia
         |]).
  lia.
Qed.

Lemma present_of_length (key_elements : keyword_table) (doc_content : string) :
  (length (present_of key_elements doc_content) <= length key_elements)%nat.
Proof. unfold present_of. rewrite length_map. apply filter_length_le. Qed.

Lemma percent_present (key_elements : keyword_table) (doc_content : string) :
  (1 <= length key_elements <= 9)%nat ->
  percent (list_len (present_of key_elements doc_content)) (list_len key_elements)
  = OK (100 * list_len (present_of key_elements doc_content) / list_len key_elements).
Proof. intros H. apply percent_floor; [apply present_of_length | done]. Qed.

Lemma floor_percent_range (key_elements : keyword_table) (doc_content : string) :
  (1 <= length key_elements)%nat ->
  0 <= 100 * list_len (present_of key_elements doc_content) / list_len key_elements <= 100.
Proof.
  intros H. pose proof (present_of_length key_elements doc_content) as Hle.
  unfold list_len. split.
  - apply Z.div_pos; lia.
  - apply Z.div_le_upper_bound; lia.
Qed.

(** ** Status thresholds *)

Lemma typed_status_thresholds (a : string) (e r : list string) (score : Z) :
  thresholds 90 70 (Verdict (typed_status score) a e r score).
Proof.
  unfold thresholds, typed_status; simpl.
  destruct (Z.leb_spec 90 score), (Z.leb_spec 70 score);
    repeat split; intros; try lia; try discriminate; reflexivity.
Qed.

Lemma generic_status_thresholds (a : string) (e r : list string) (score : Z) :
  thresholds 80 60 (Verdict (generic_status score) a e r score).
Proof.
  unfold thresholds, generic_status; simpl.
  destruct (Z.leb_spec 80 score), (Z.leb_spec 60 score);
    repeat split; intros; try lia; try discriminate; reflexivity.
Qed.

Ltac typed_scorer key_elements :=
  let doc := fresh "doc_content" in
  intros doc;
  match goal with
  | |- exists v, ?scorer _ = _ /\ _ => unfold scorer
  end;
  rewrite (percent_present key_elements doc) by (vm_compute; lia);
  eexists; split; [reflexivity|]; simpl; auto.

Lemma consent_form_result : typed_result consent_key_elements _analyze_consent_form.
Proof. typed_scorer consent_key_elements. Qed.

Lemma research_protocol_result :
  typed_result protocol_key_elements _analyze_research_protocol.
Proof. typed_scorer protocol_key_elements. Qed.

Lemma ethics_application_result :
  typed_result ethics_application_key_elements _analyze_ethics_application_form.
Proof. typed_scorer ethics_application_key_elements. Qed.

Lemma cv_result : typed_result cv_key_elements _analyze_cv.
Proof. typed_scorer cv_key_elements. Qed.

Lemma survey_result : typed_result survey_key_elements _analyze_survey.
Proof. typed_scorer survey_key_elements. Qed.

Lemma typed_scorers_result :
  Forall (fun entry => typed_result (fst entry) (snd entry)) typed_scorers.
Proof.
  repeat constructor; simpl.
  - apply consent_form_result.
  - apply research_protocol_result.
  - apply ethics_application_result.
  - apply cv_result.
  - apply survey_result.
Qed.

Lemma typed_scorers_tables :
  Forall (fun entry => (1 <= length (fst entry) <= 9)%nat) typed_scorers.
Proof. repeat constructor; simpl; lia. Qed.

Lemma bind_OK {A B : Type} (m : result A) (k : A -> result B) (b : B) :
  (x ← m; k x) = OK b -> exists a, m = OK a /\ k a = OK b.
Proof. destruct m as [a|e]; simpl; [eauto | discriminate]. Qed.

Lemma generic_result (doc_content question doc_type : string) (v : verdict) :
  _analyze_generic_document doc_content question doc_type = OK v ->
  status v = generic_status (compliance_score v)
  /\ missing_elements v
     = (if compliance_score v <? 60 then ["Specific addressing of the question"] else []).
Proof.
  unfold _analyze_generic_document. intros H.
  apply bind_OK in H as (score & _ & H).
  injection H as <-. by simpl.
Qed.

Lemma keyword_matches_bounds (question_keywords : list string) (doc_content : string) :
  0 <= keyword_matches question_keywords doc_content <= list_len question_keywords.
Proof.
  unfold keyword_matches, list_len. split; [lia|].
  apply inj_le, filter_length_le.
Qed.

Lemma list_len_nonempty {A : Type} (l : list A) : nonempty l = true -> 0 < list_len l.
Proof. destruct l; [done|]. unfold list_len. simpl. lia. Qed.

(** The generic scorer always returns. *)
Lemma generic_returns (doc_content question doc_type : string) :
  exists v : verdict,
    _analyze_generic_document doc_content question doc_type = OK v
    /\ 0 <= compliance_score v.
Proof.
  unfold _analyze_generic_document.
  set (question_keywords := significant_words generic_stop_words question).
  destruct (nonempty question_keywords) eqn:Hwords.
  - destruct (percent_returns _ _ (keyword_matches_bounds question_keywords doc_content)
                (list_len_nonempty _ Hwords)) as (score & -> & Hscore).
    eexists. split; [reflexivity | exact Hscore].
  - eexists. split; [reflexivity | simpl; lia].
Qed.

(** C1. Every typed scorer returns a verdict whose score lies in [0, 100] and
    whose status is APPROVED exactly from 90, ANALYZING exactly from 70 up to
    90, NEEDS_REVISION exactly below 70; the generic scorer returns a verdict
    of the same shape with the thresholds 80 and 60. *)
Theorem score_range_and_status_thresholds :
  Forall (fun entry =>
            forall doc_content : string,
            exists v : verdict,
              snd entry doc_content = OK v
              /\ 0 <= compliance_score v <= 100
              /\ thresholds 90 70 v)
         typed_scorers
  /\ (forall doc_content question doc_type : string,
      exists v : verdict,
        _analyze_generic_document doc_content question doc_type = OK v
        /\ thresholds 80 60 v).
Proof.
  split.
  - pose proof typed_scorers_result as Hres.
    pose proof typed_scorers_tables as Htab.
    rewrite Forall_forall in *. intros entry Hin doc_content.
    destruct (Hres entry Hin doc_content) as (v & Hv & Hscore & Hstatus & _).
    exists v. split; [done|]. split.
    + rewrite Hscore. apply floor_percent_range. apply (Htab entry Hin).
    + destruct v as [st an mi re sc]; simpl in *. subst st.
      apply typed_status_thresholds.
  - intros doc_content question doc_type.
    destruct (generic_returns doc_content question doc_type) as (v & Hv & _).
    exists v. split; [done|].
    apply generic_result in Hv as [Hstatus _].
    destruct v as [st an mi re sc]; simpl in *. subst st.
    apply generic_status_thresholds.
Qed.

(** Two of five question words matched: score 40. *)
Example generic_two_of_five :
  compliance_score_of
    (_analyze_generic_document "alpha gamma" "alpha bravo charlie delta gamma"
                               "Supporting Document") = Some 40.
Proof. vm_compute. reflexivity. Qed.

(** The percentage is computed in floating point and truncated: 29 parts of
    100 give 28, since [29 / 100 * 100] is just below 29 in binary64. *)
Example percent_29_of_100 : percent 29 100 = OK 28.
Proof. vm_compute. reflexivity. Qed.

(** ** Rounding *)

(** Eight of nine categories: the specification's formula gives 89, the
    scorer returns 88. *)
Lemma round_score_counterexample :
  list_len (present_of ethics_application_key_elements eight_of_nine) = 8
  /\ list_len ethics_application_key_elements = 9
  /\ spec_round_score 8 9 = 89
  /\ exists v : verdict,
       _analyze_ethics_application_form eight_of_nine = OK v
       /\ compliance_score v = 88
       /\ compliance_score v <> spec_round_score 8 9.
Proof.
  repeat split; try (vm_compute; reflexivity).
  eexists. split; [vm_compute; reflexivity|]. split; [reflexivity|].
  vm_compute. discriminate.
Qed.

(** C5, amended. Every typed scorer returns the percentage of present
    categories rounded down: [compliance_score = floor(100 * present / total)]. *)
Theorem typed_score_is_floor :
  Forall (fun entry =>
            forall doc_content : string,
            exists v : verdict,
              snd entry doc_content = OK v
              /\ compliance_score v
                 = 100 * list_len (present_of (fst entry) doc_content)
                   / list_len (fst entry))
         typed_scorers.
Proof.
  pose proof typed_scorers_result as Hres.
  rewrite Forall_forall in *. intros entry Hin doc_content.
  destruct (Hres entry Hin doc_content) as (v & Hv & Hscore & _).
  by exists v.
Qed.

(** ** The relevance gate *)

Lemma relevant_when_types_equal (doc_type doc_content question : string) :
  _is_document_relevant doc_type doc_type doc_content question = OK true.
Proof. unfold _is_document_relevant. by rewrite String.eqb_refl. Qed.

(** The missing elements of a typed scorer are names of its table. *)
Lemma typed_missing_in_table (key_elements : keyword_table) (doc_content x : string) :
  In x (map human (missing_of key_elements doc_content)) ->
  In x (map human (map fst key_elements)).
Proof.
  unfold missing_of. rewrite !in_map_iff.
  intros (name & <- & Hname). exists name. split; [done|].
  apply in_map_iff in Hname as (entry & <- & Hentry).
  apply filter_In in Hentry as [Hentry _]. by apply in_map.
Qed.

Lemma typed_missing_not_gate (key_elements : keyword_table)
    (scorer : string -> result verdict) (doc_content : string) (v : verdict) :
  typed_result key_elements scorer ->
  ~ In "Appropriate document type" (map human (map fst key_elements)) ->
  scorer doc_content = OK v ->
  missing_elements v <> gate_missing_elements.
Proof.
  intros Hres Hnot Hv Heq.
  destruct (Hres doc_content) as (v' & Hv' & _ & _ & Hmissing).
  rewrite Hv in Hv'. injection Hv' as <-.
  apply Hnot, (typed_missing_in_table _ doc_content).
  rewrite <- Hmissing, Heq. by left.
Qed.

Lemma analyze_by_type_not_gate (doc_type doc_content question : string) (v : verdict) :
  analyze_by_type doc_type doc_content question = OK v ->
  missing_elements v <> gate_missing_elements.
Proof.
  unfold analyze_by_type.
  destruct (String.eqb doc_type "Consent Form").
  { apply (typed_missing_not_gate _ _ _ _ consent_form_result).
    vm_compute. intuition discriminate. }
  destruct (_ || _).
  { apply (typed_missing_not_gate _ _ _ _ research_protocol_result).
    vm_compute. intuition discriminate. }
  destruct (String.eqb doc_type "Ethics Committee Application Form").
  { apply (typed_missing_not_gate _ _ _ _ ethics_application_result).
    vm_compute. intuition discriminate. }
  destruct (String.eqb doc_type "CV/Resume").
  { apply (typed_missing_not_gate _ _ _ _ cv_result).
    vm_compute. intuition discriminate. }
  destruct (String.eqb doc_type "Survey/Questionnaire").
  { apply (typed_missing_not_gate _ _ _ _ survey_result).
    vm_compute. intuition discriminate. }
  intros H Heq. apply generic_result in H as [_ Hmissing].
  rewrite Heq in Hmissing. by destruct (_ <? 60).
Qed.

(** The gate, the dispatch and the review always return. *)
Lemma gate_returns (expected_type actual_type doc_content question : string) :
  exists relevant : bool,
    _is_document_relevant expected_type actual_type doc_content question = OK relevant.
Proof.
  unfold _is_document_relevant.
  destruct (String.eqb expected_type actual_type); [by exists true|].
  set (question_keywords := significant_words relevance_stop_words question).
  destruct (nonempty question_keywords) eqn:Hwords.
  - destruct (truediv_part_of_whole _ _
                (keyword_matches_bounds question_keywords doc_content)
                (list_len_nonempty _ Hwords)) as (x & -> & _).
    eexists. reflexivity.
  - eexists. reflexivity.
Qed.

Lemma analyze_by_type_returns (doc_type doc_content question : string) :
  exists v : verdict, analyze_by_type doc_type doc_content question = OK v.
Proof.
  unfold analyze_by_type.
  destruct (String.eqb doc_type "Consent Form").
  { destruct (consent_form_result doc_content) as (v & Hv & _). by exists v. }
  destruct (_ || _).
  { destruct (research_protocol_result doc_content) as (v & Hv & _). by exists v. }
  destruct (String.eqb doc_type "Ethics Committee Application Form").
  { destruct (ethics_application_result doc_content) as (v & Hv & _). by exists v. }
  destruct (String.eqb doc_type "CV/Resume").
  { destruct (cv_result doc_content) as (v & Hv & _). by exists v. }
  destruct (String.eqb doc_type "Survey/Questionnaire").
  { destruct (survey_result doc_content) as (v & Hv & _). by exists v. }
  destruct (generic_returns doc_content question doc_type) as (v & Hv & _).
  by exists v.
Qed.

Lemma document_review_returns (doc_content question doc_name : string) :
  exists v : verdict, _generate_document_review doc_content question doc_name = OK v.
Proof.
  unfold _generate_document_review.
  destruct (gate_returns (_determine_expected_document_type question)
              (_determine_actual_document_type doc_name doc_content)
              doc_content question) as [relevant ->].
  cbn [mbind result_bind]. destruct relevant; cbn [negb].
  - apply analyze_by_type_returns.
  - eexists. reflexivity.
Qed.

(** C2. When the expected and the actual document type are equal the gate
    answers true for every content and question; the review of a document
    whose inferred types agree is therefore the verdict of the scorer of its
    type, never the fixed verdict of the gate. *)
Theorem equal_types_pass_gate
    (expected_type actual_type doc_content question : string) :
  expected_type = actual_type ->
  _is_document_relevant expected_type actual_type doc_content question = OK true
  /\ forall doc_name : string,
       expected_type = _determine_expected_document_type question ->
       actual_type = _determine_actual_document_type doc_name doc_content ->
       exists v : verdict,
         _generate_document_review doc_content question doc_name = OK v
         /\ analyze_by_type actual_type doc_content question = OK v
         /\ forall e a : string, v <> not_relevant_verdict e a.
Proof.
  intros ->. split; [apply relevant_when_types_equal|].
  intros doc_name Hexpected Hactual.
  assert (_generate_document_review doc_content question doc_name
          = analyze_by_type actual_type doc_content question) as Hreview.
  { unfold _generate_document_review.
    rewrite <- Hexpected, <- Hactual, relevant_when_types_equal. done. }
  destruct (analyze_by_type_returns actual_type doc_content question) as [v Hv].
  exists v. rewrite Hreview. split; [done|]. split; [done|].
  intros e a ->. by apply analyze_by_type_not_gate in Hv.
Qed.

(** An instance: a consent form uploaded for a consent question. *)
Lemma equal_types_pass_gate_witness :
  _determine_expected_document_type consent_question
  = _determine_actual_document_type "consent_form.docx" consent_document
  /\ _is_document_relevant "Consent Form" "Consent Form" consent_document consent_question
     = OK true
  /\ exists v : verdict,
       _generate_document_review consent_document consent_question "consent_form.docx"
       = OK v
       /\ analyze_by_type "Consent Form" consent_document consent_question = OK v
       /\ forall e a : string, v <> not_relevant_verdict e a.
Proof.
  split; [vm_compute; reflexivity|].
  destruct (equal_types_pass_gate "Consent Form" "Consent Form"
              consent_document consent_question eq_refl) as [Hgate Hreview].
  split; [exact Hgate|].
  apply (Hreview "consent_form.docx"); vm_compute; reflexivity.
Defined.

(** ** The verdict of the gate *)

(** Two documents rejected for the same question and file name: the analysis
    names the type inferred from the content, so the verdicts differ. *)
Lemma gate_verdict_depends_on_content :
  _is_document_relevant
    (_determine_expected_document_type cv_question)
    (_determine_actual_document_type "notes.txt" shopping_list)
    shopping_list cv_question = OK false
  /\ _is_document_relevant
       (_determine_expected_document_type cv_question)
       (_determine_actual_document_type "notes.txt" consent_notes)
       consent_notes cv_question = OK false
  /\ exists v v' : verdict,
       _generate_document_review shopping_list cv_question "notes.txt" = OK v
       /\ _generate_document_review consent_notes cv_question "notes.txt" = OK v'
       /\ analysis v <> analysis v'.
Proof.
  split; [vm_compute; reflexivity|]. split; [vm_compute; reflexivity|].
  eexists. eexists. split; [vm_compute; reflexivity|].
  split; [vm_compute; reflexivity|]. simpl. discriminate.
Qed.

(** C3, amended. A document that fails the gate gets NEEDS_REVISION, score
    20, the two fixed missing elements and two recommendations; these fields
    do not depend on the content, the recommendations being determined by the
    question; the analysis depends on the content only through the document
    type inferred from it. *)
Theorem gate_verdict_fixed (doc_content doc_content' question doc_name : string) :
  _is_document_relevant
    (_determine_expected_document_type question)
    (_determine_actual_document_type doc_name doc_content)
    doc_content question = OK false ->
  _is_document_relevant
    (_determine_expected_document_type question)
    (_determine_actual_document_type doc_name doc_content')
    doc_content' question = OK false ->
  exists v v' : verdict,
    _generate_document_review doc_content question doc_name = OK v
    /\ _generate_document_review doc_content' question doc_name = OK v'
    /\ status v = "NEEDS_REVISION"
    /\ compliance_score v = 20
    /\ missing_elements v
       = ["Appropriate document type"; "Content relevant to the question"]
    /\ length (recommendations v) = 2%nat
    /\ status v' = status v
    /\ compliance_score v' = compliance_score v
    /\ missing_elements v' = missing_elements v
    /\ recommendations v' = recommendations v
    /\ (_determine_actual_document_type doc_name doc_content
        = _determine_actual_document_type doc_name doc_content' ->
        analysis v' = analysis v).
Proof.
  intros H H'.
  exists (not_relevant_verdict (_determine_expected_document_type question)
            (_determine_actual_document_type doc_name doc_content)).
  exists (not_relevant_verdict (_determine_expected_document_type question)
            (_determine_actual_document_type doc_name doc_content')).
  unfold _generate_document_review. rewrite H, H'. simpl.
  repeat split. by intros ->.
Qed.

Lemma gate_verdict_fixed_witness :
  exists v v' : verdict,
    _generate_document_review shopping_list cv_question "notes.txt" = OK v
    /\ _generate_document_review consent_notes cv_question "notes.txt" = OK v'
    /\ status v = "NEEDS_REVISION"
    /\ compliance_score v = 20
    /\ recommendations v' = recommendations v.
Proof.
  destruct (gate_verdict_fixed shopping_list consent_notes cv_question "notes.txt")
    as (v & v' & Hv & Hv' & Hstatus & Hscore & _ & _ & _ & _ & _ & Hrec & _);
    [vm_compute; reflexivity | vm_compute; reflexivity |].
  exists v, v'. repeat split; assumption.
Defined.

(** ** The report composer *)

(** C8. For the empty mapping the composer returns status COMPLETED and a
    report made of the preamble, the placeholder sentence that no document
    reviews are available, and the next steps; the report has no
    per-document subsection. *)
Theorem empty_reviews_report (py_str : json -> string) (now : string) :
  exists report : string,
    _generate_review_report py_str now (JDict []) = OK (Report "COMPLETED" report now)
    /\ report = report_preamble +:+ report_placeholder +:+ report_next_steps
    /\ PyStr.contains "No document reviews are available." report = true
    /\ PyStr.contains "### Document ID:" report = false.
Proof.
  eexists. split; [reflexivity|]. split; [reflexivity|].
  split; vm_compute; reflexivity.
Qed.

(** ** The entry point *)

Section EntryPoint.

Variable json_loads : string -> option json.
Variable py_str : json -> string.

Abbreviation engine := (get_completion json_loads py_str).

(** *** Input without a user message *)

Lemma getitem_OK (m : gmap string string) (key value : string) :
  getitem m key = OK value -> m !! key = Some value.
Proof. unfold getitem. destruct (m !! key); congruence. Qed.

Lemma scan_keeps_user (messages : list (gmap string string))
    (last_user_message system_message : option string) :
  Forall no_user_role messages ->
  (exists system_message',
      scan_messages messages last_user_message system_message
      = OK (last_user_message, system_message'))
  \/ (exists e, scan_messages messages last_user_message system_message = Raise e).
Proof.
  intros H. revert system_message.
  induction H as [|m messages Hm _ IH]; intros system_message.
  - left. by exists system_message.
  - cbn [scan_messages].
    destruct (getitem m "role") as [role|e] eqn:Hrole; cbn [mbind result_bind].
    2: { right. by exists e. }
    apply getitem_OK in Hrole.
    destruct (String.eqb_spec role "user") as [->|_]; [done|].
    destruct (String.eqb role "system"); [|apply IH].
    destruct (getitem m "content") as [content|e]; cbn [mbind result_bind];
      [apply IH|].
    right. by exists e.
Qed.

(** C9. A message list without a user-role message makes the engine return
    an object with status ERROR and a non-empty message; the call returns,
    whatever the other messages are, since every exception of an attempt is
    caught by the retry loop. *)
Theorem no_user_message_error (now : string) (messages : list (gmap string string)) :
  Forall no_user_role messages ->
  exists text : string,
    engine now messages = ErrorObject "ERROR" text
    /\ (text = no_user_message_text \/ text = service_unavailable_text)
    /\ text <> "".
Proof.
  intros H. unfold get_completion, attempt.
  destruct (scan_keeps_user messages None None H) as [[s ->]|[e ->]]; simpl.
  - exists no_user_message_text. split; [done|]. split; [by left | done].
  - exists service_unavailable_text. split; [done|]. split; [by right | done].
Qed.

(** *** The clock *)

Lemma report_forget (now now' : string) (reviews : json) :
  forget_result (_generate_review_report py_str now reviews)
  = forget_result (_generate_review_report py_str now' reviews).
Proof.
  unfold _generate_review_report.
  destruct (if PyVal.truthy reviews then _ else _); reflexivity.
Qed.

Lemma attempt_forget (now now' : string) (messages : list (gmap string string)) :
  forget_result (attempt json_loads py_str now messages)
  = forget_result (attempt json_loads py_str now' messages).
Proof.
  unfold attempt.
  destruct (scan_messages messages None None) as [[user system]|e]; [|done].
  cbn [mbind result_bind].
  destruct user as [[|c m]|]; [done| |done].
  destruct (PyStr.contains "Document Content Preview:" _); [done|].
  destruct (PyStr.contains "research context" _); [done|].
  destruct (_ && _); [done|].
  destruct (is_report_request _ _); [apply report_forget | done].
Qed.

Lemma retry_forget (n : nat) (body : result completion) :
  forget_timestamp (retry n body) = retry n (forget_result body).
Proof. induction n as [|n IH]; [done|]. destruct body; simpl; [done | apply IH]. Qed.

(** C6, amended. Two calls with the same messages return the same response
    except for the generation timestamp of a report, which is the clock
    reading of the call; nothing else is carried from one call to the next. *)
Theorem same_input_same_output_up_to_timestamp
    (now now' : string) (messages : list (gmap string string)) :
  forget_timestamp (engine now messages) = forget_timestamp (engine now' messages).
Proof. unfold get_completion. by rewrite !retry_forget, (attempt_forget now now'). Qed.

End EntryPoint.

Lemma no_user_message_error_witness :
  Forall no_user_role system_only
  /\ exists text : string,
       get_completion loads_rejects str_blank "2026-11-03 10:00:00" system_only
       = ErrorObject "ERROR" text
       /\ (text = no_user_message_text \/ text = service_unavailable_text)
       /\ text <> "".
Proof.
  assert (Forall no_user_role system_only) as H.
  { repeat constructor; vm_compute; discriminate. }
  split; [exact H|].
  exact (no_user_message_error loads_rejects str_blank "2026-11-03 10:00:00"
           system_only H).
Defined.

(** The same report request at two clock readings: whatever [json.loads] and
    [str] do, the two responses differ. *)
Lemma same_input_different_output :
  ~ exists (json_loads : string -> option json) (py_str : json -> string),
      get_completion json_loads py_str "2026-11-03 10:00:00" report_request
      = get_completion json_loads py_str "2026-11-03 10:00:01" report_request.
Proof. intros (json_loads & py_str & H). vm_compute in H. discriminate. Qed.

(** *** The report marker *)

(** C7. With a system message that lacks the marker, a user message that
    asks to generate a review report gets the fallback text: the report
    branch is not taken. *)
Theorem report_marker_in_user_text_ignored
    (json_loads : string -> option json) (py_str : json -> string) (now : string) :
  is_report_request (Some "You are a research ethics expert.")
    "Please generate a review report for my documents." = false
  /\ get_completion json_loads py_str now report_request_with_system
     = Text fallback_text
  /\ exists report : string,
       get_completion json_loads py_str now
         [ msg "user" "Please generate a review report for my documents." ]
       = Report "COMPLETED" report now.
Proof.
  split; [vm_compute; reflexivity|]. split; [vm_compute; reflexivity|].
  eexists. vm_compute. reflexivity.
Qed.

(** *** The document-content marker *)

(** C4. A user message with the document-content marker and without the
    ethics-question marker is handled by the document-review path: the
    question is cut from index 15 of the message, no document type is
    expected for it, and the attached protocol fails the relevance gate. *)
Theorem document_marker_alone_is_reviewed
    (json_loads : string -> option json) (py_str : json -> string) (now : string) :
  PyStr.contains "Document Content Preview:" feedback_prompt_with_document = true
  /\ PyStr.contains "Ethics Question:" feedback_prompt_with_document = false
  /\ review_question feedback_prompt_with_document
     = PyStr.text
         [ "your research involve vulnerable populations?"; "Response: YES" ]
  /\ review_doc_name feedback_prompt_with_document = "protocol.docx"
  /\ get_completion json_loads py_str now [ msg "user" feedback_prompt_with_document ]
     = Review (not_relevant_verdict "Supporting Document" "Research Protocol").
Proof. repeat split; vm_compute; reflexivity. Qed.

(** * Further properties *)

(** ** The categories of a typed scorer *)

Lemma present_missing_partition (key_elements : keyword_table) (doc_content : string) :
  Permutation (present_of key_elements doc_content ++ missing_of key_elements doc_content)
              (map fst key_elements).
Proof.
  unfold present_of, missing_of.
  induction key_elements as [|entry key_elements IH]; [done|].
  cbn [List.filter map]. destruct (any_keyword doc_content (snd entry)); cbn [negb map app].
  - by apply perm_skip.
  - rewrite <- Permutation_middle. by apply perm_skip.
Qed.

Lemma present_missing_length (key_elements : keyword_table) (doc_content : string) :
  (length (present_of key_elements doc_content)
   + length (missing_of key_elements doc_content) = length key_elements)%nat.
Proof.
  rewrite <- length_app, (Permutation_length (present_missing_partition _ _)).
  apply length_map.
Qed.

Lemma typed_scorers_names :
  Forall (fun entry => NoDup (map human (map fst (fst entry)))
                       /\ (6 <= length (fst entry) <= 9)%nat)
         typed_scorers.
Proof.
  unfold typed_scorers.
  repeat (apply List.Forall_cons;
          [ split; [apply (bool_decide_unpack _); vm_compute; exact I | cbn; lia] |]).
  apply List.Forall_nil.
Qed.

(** X1. A typed scorer drops no category: the categories it found and the
    missing elements it reports are, together, the categories of its table,
    each exactly once. *)
Theorem typed_categories_partition :
  Forall (fun entry =>
            forall doc_content : string,
            exists v : verdict,
              snd entry doc_content = OK v
              /\ Permutation
                   (map human (present_of (fst entry) doc_content) ++ missing_elements v)
                   (map human (map fst (fst entry)))
              /\ NoDup (map human (map fst (fst entry))))
         typed_scorers.
Proof.
  pose proof typed_scorers_result as Hres. pose proof typed_scorers_names as Hnames.
  rewrite Forall_forall in *. intros entry Hin doc_content.
  destruct (Hres entry Hin doc_content) as (v & Hv & _ & _ & Hmissing).
  exists v. split; [done|]. split; [|apply (Hnames entry Hin)].
  rewrite Hmissing, <- map_app. apply Permutation_map, present_missing_partition.
Qed.

Lemma approval_needs_all (k n : nat) :
  (k <= n)%nat -> (6 <= n <= 9)%nat ->
  (90 <= 100 * Z.of_nat k / Z.of_nat n <-> k = n)
  /\ (100 * Z.of_nat k / Z.of_nat n = 100 <-> k = n).
Proof.
  intros Hk Hn.
  do 10 (destruct n as [|n];
         [ try lia;
           do 10 (destruct k as [|k]; [ try lia; vm_compute; split; split; intros H;
                                        first [lia | discriminate | done | by destruct H] |]);
           lia
         |]).
  lia.
Qed.

(** X2. A typed scorer approves a document exactly when no category is
    missing, which is exactly when the score is 100: with six to nine
    categories, one missing category already puts the score below 90. *)
Theorem approved_iff_nothing_missing :
  Forall (fun entry =>
            forall doc_content : string,
            exists v : verdict,
              snd entry doc_content = OK v
              /\ (status v = "APPROVED" <-> missing_elements v = [])
              /\ (missing_elements v = [] <-> compliance_score v = 100))
         typed_scorers.
Proof.
  pose proof typed_scorers_result as Hres. pose proof typed_scorers_names as Hnames.
  rewrite Forall_forall in *. intros entry Hin doc_content.
  destruct (Hres entry Hin doc_content) as (v & Hv & Hscore & Hstatus & Hmissing).
  destruct (Hnames entry Hin) as [_ Hsize].
  pose proof (present_missing_length (fst entry) doc_content) as Hlen.
  pose proof (present_of_length (fst entry) doc_content) as Hle.
  destruct (approval_needs_all _ _ Hle Hsize) as [Happroved Hfull].
  fold (list_len (present_of (fst entry) doc_content)) in Happroved, Hfull.
  fold (list_len (fst entry)) in Happroved, Hfull.
  rewrite <- Hscore in Happroved, Hfull.
  assert (missing_elements v = [] <->
          length (present_of (fst entry) doc_content) = length (fst entry)) as Hnone.
  { rewrite Hmissing. split.
    - intros H. apply (f_equal (@length _)) in H. rewrite length_map in H.
      simpl in H. lia.
    - intros H. destruct (missing_of (fst entry) doc_content); [done | simpl in Hlen; lia]. }
  exists v. split; [done|]. split.
  - rewrite Hnone, <- Happroved.
    destruct v as [st an mi re sc]; simpl in *. subst st.
    apply (typed_status_thresholds an mi re sc).
  - by rewrite Hnone, Hfull.
Qed.

(** ** Recommendations *)

Lemma filter_step {A : Type} (f : A -> bool) (x : A) (l : list A) :
  List.filter f (x :: l) = if f x then x :: List.filter f l else List.filter f l.
Proof. reflexivity. Qed.

(** One case split per category of the table, the rest of the walk folded. *)
Ltac split_categories :=
  repeat (rewrite filter_step; cbn [snd];
          match goal with
          | |- context [negb (?found ?keywords)] => destruct (found keywords)
          end;
          cbn [negb]).

Lemma cv_advice_length (doc_content : string) :
  length (recommend_missing cv_advice (missing_of cv_key_elements doc_content))
  = length (missing_of cv_key_elements doc_content).
Proof.
  unfold missing_of. generalize (any_keyword doc_content). intros found.
  unfold cv_key_elements. split_categories; vm_compute; reflexivity.
Qed.

Lemma survey_advice_length (doc_content : string) :
  length (recommend_missing survey_advice (missing_of survey_key_elements doc_content))
  = length (missing_of survey_key_elements doc_content).
Proof.
  unfold missing_of. generalize (any_keyword doc_content). intros found.
  unfold survey_key_elements. split_categories; vm_compute; reflexivity.
Qed.

Ltac recommendation_count key_elements :=
  let doc := fresh "doc_content" in
  intros doc;
  match goal with
  | |- exists v, ?scorer _ = _ /\ _ => unfold scorer
  end;
  rewrite (percent_present key_elements doc) by (vm_compute; lia);
  eexists; split; [reflexivity|]; cbn [recommendations missing_elements];
  rewrite ?length_map; auto using cv_advice_length, survey_advice_length.

(** X3. Every typed scorer gives exactly one recommendation per missing
    element. *)
Theorem one_recommendation_per_missing_element :
  Forall (fun entry =>
            forall doc_content : string,
            exists v : verdict,
              snd entry doc_content = OK v
              /\ length (recommendations v) = length (missing_elements v))
         typed_scorers.
Proof.
  unfold typed_scorers.
  repeat (apply List.Forall_cons; [cbn [fst snd] |]); [ | | | | | apply List.Forall_nil].
  - recommendation_count consent_key_elements.
  - recommendation_count protocol_key_elements.
  - recommendation_count ethics_application_key_elements.
  - recommendation_count cv_key_elements.
  - recommendation_count survey_key_elements.
Qed.

(** ** Adding text to a document *)

Lemma lower_app (a b : string) : PyStr.lower (a +:+ b) = PyStr.lower a +:+ PyStr.lower b.
Proof.
  induction a as [|c a IH]; [done|].
  change (String (PyStr.lower_char c) (PyStr.lower (a +:+ b))
          = String (PyStr.lower_char c) (PyStr.lower a +:+ PyStr.lower b)).
  by rewrite IH.
Qed.

Lemma contains_embedded (p before s after : string) :
  PyStr.contains p s = true -> PyStr.contains p (before +:+ s +:+ after) = true.
Proof.
  intros H. destruct (contains_inv _ _ H) as (l & r & ->).
  replace (before +:+ (l +:+ p +:+ r) +:+ after)
    with ((before +:+ l) +:+ p +:+ (r +:+ after)) by (by rewrite !append_assoc).
  apply contains_intro.
Qed.

Lemma any_keyword_embedded (before doc_content after : string) (keywords : list string) :
  any_keyword doc_content keywords = true ->
  any_keyword (before +:+ doc_content +:+ after) keywords = true.
Proof.
  unfold any_keyword. rewrite !existsb_exists. intros (keyword & Hin & H).
  exists keyword. split; [done|]. rewrite !lower_app. by apply contains_embedded.
Qed.

Lemma filter_length_mono {A : Type} (f g : A -> bool) (l : list A) :
  (forall x, f x = true -> g x = true) ->
  (length (List.filter f l) <= length (List.filter g l))%nat.
Proof.
  intros Hfg. induction l as [|x l IH]; [done|]. cbn [List.filter].
  destruct (f x) eqn:Hf.
  - rewrite (Hfg x Hf). simpl. lia.
  - destruct (g x); simpl; lia.
Qed.

Lemma present_embedded (key_elements : keyword_table) (before doc_content after : string) :
  (length (present_of key_elements doc_content)
   <= length (present_of key_elements (before +:+ doc_content +:+ after)))%nat.
Proof.
  unfold present_of. rewrite !length_map. apply filter_length_mono.
  intros entry. apply any_keyword_embedded.
Qed.

Lemma missing_embedded (key_elements : keyword_table) (before doc_content after x : string) :
  In x (map human (missing_of key_elements (before +:+ doc_content +:+ after))) ->
  In x (map human (missing_of key_elements doc_content)).
Proof.
  unfold missing_of. rewrite !in_map_iff. intros (name & <- & Hname).
  exists name. split; [done|].
  apply in_map_iff in Hname as (entry & <- & Hentry). apply in_map.
  apply filter_In in Hentry as [Hentry Hmissing]. apply filter_In. split; [done|].
  destruct (any_keyword doc_content (snd entry)) eqn:Hfound; [|done].
  by rewrite (any_keyword_embedded before _ after _ Hfound) in Hmissing.
Qed.

(** X4. Text added before or after a document never lowers the score of a
    typed scorer and never adds a missing element. *)
Theorem added_text_never_lowers_score :
  Forall (fun entry =>
            forall before doc_content after : string,
            exists v v' : verdict,
              snd entry doc_content = OK v
              /\ snd entry (before +:+ doc_content +:+ after) = OK v'
              /\ compliance_score v <= compliance_score v'
              /\ forall x, In x (missing_elements v') -> In x (missing_elements v))
         typed_scorers.
Proof.
  pose proof typed_scorers_result as Hres. pose proof typed_scorers_names as Hnames.
  rewrite Forall_forall in *. intros entry Hin before doc_content after.
  destruct (Hres entry Hin doc_content) as (v & Hv & Hscore & _ & Hmissing).
  destruct (Hres entry Hin (before +:+ doc_content +:+ after))
    as (v' & Hv' & Hscore' & _ & Hmissing').
  destruct (Hnames entry Hin) as [_ Hsize].
  exists v, v'. split; [done|]. split; [done|]. split.
  - rewrite Hscore, Hscore'. unfold list_len.
    pose proof (present_embedded (fst entry) before doc_content after).
    unfold keyword_table in *. apply Z.div_le_mono; lia.
  - rewrite Hmissing, Hmissing'. apply missing_embedded.
Qed.

(** ** Document types, again *)

(** X5. When the file name decides the document type, the content plays no
    part: the actual type is the one of the name alone. *)
Theorem file_name_decides_type (doc_name doc_content : string) :
  _determine_actual_document_type doc_name "" <> "Supporting Document" ->
  _determine_actual_document_type doc_name doc_content
  = _determine_actual_document_type doc_name "".
Proof.
  unfold _determine_actual_document_type. intros H.
  destruct (PyStr.contains "consent" (PyStr.lower doc_name)); [done|].
  destruct (PyStr.contains "protocol" (PyStr.lower doc_name)); [done|].
  destruct (PyStr.contains "ethics" (PyStr.lower doc_name) && _); [done|].
  destruct (PyStr.contains "cv" (PyStr.lower doc_name) || _ || _); [done|].
  destruct (PyStr.contains "survey" (PyStr.lower doc_name) || _); [done|].
  exfalso. apply H. vm_compute. reflexivity.
Qed.

Lemma file_name_decides_type_witness :
  _determine_actual_document_type "Ethics_Committee_Form.pdf" "Curriculum vitae: education, skills"
  = _determine_actual_document_type "Ethics_Committee_Form.pdf" "".
Proof.
  apply file_name_decides_type. vm_compute. discriminate.
Defined.

(** ** The generic scorer without question words *)

(** X6. A question without a significant word (an empty question, or only
    short and stop words) gives the generic scorer nothing to match: whatever
    the document says, the score is the default 50, which is below the
    threshold of 60, so the verdict is NEEDS_REVISION with the question
    reported as not addressed. *)
Theorem generic_default_needs_revision (doc_content question doc_type : string) :
  significant_words generic_stop_words question = [] ->
  exists v : verdict,
    _analyze_generic_document doc_content question doc_type = OK v
    /\ compliance_score v = 50
    /\ status v = "NEEDS_REVISION"
    /\ missing_elements v = ["Specific addressing of the question"].
Proof.
  intros H. unfold _analyze_generic_document. rewrite H. cbn [nonempty].
  eexists. split; [reflexivity|]. by repeat split.
Qed.

Lemma generic_default_needs_revision_witness :
  exists v : verdict,
    _analyze_generic_document "An ethics statement that covers everything."
      "How does your CV do?" "Supporting Document" = OK v
    /\ compliance_score v = 50
    /\ status v = "NEEDS_REVISION"
    /\ missing_elements v = ["Specific addressing of the question"].
Proof.
  apply generic_default_needs_revision. vm_compute. reflexivity.
Defined.

(** ** The shape of question feedback *)

Lemma generic_feedback_not_empty (question response : string) :
  generic_feedback question response <> "".
Proof. intros H. apply (f_equal String.length) in H. cbv in H. discriminate. Qed.

(** X7. Question feedback is a structured object, with status ANALYZING and
    score 80, exactly for the questions that mention "vulnerable" and
    "document" and neither "human participants" nor "personal data"; for
    every other question it is a non-empty text. *)
Theorem question_feedback_shape (question response : string) :
  if structured_feedback_question question
  then exists v : verdict,
         _generate_question_feedback question response = Review v
         /\ status v = "ANALYZING" /\ compliance_score v = 80
  else exists s : string,
         _generate_question_feedback question response = Text s /\ s <> "".
Proof.
  unfold structured_feedback_question, _generate_question_feedback.
  destruct (PyStr.contains "human participants" _); cbn [negb andb].
  { destruct (String.eqb _ "YES"); eexists; (split; [reflexivity|]);
      vm_compute; discriminate. }
  destruct (PyStr.contains "personal data" _); cbn [negb andb].
  { destruct (String.eqb _ "YES"); eexists; (split; [reflexivity|]);
      vm_compute; discriminate. }
  destruct (PyStr.contains "vulnerable" _), (PyStr.contains "document" _);
    cbn [andb]; eexists; (split; [reflexivity|]);
    first [by split | apply generic_feedback_not_empty].
Qed.

(** ** Earlier messages *)

Lemma scan_messages_app (earlier later : list (gmap string string))
    (last_user_message system_message : option string) :
  scan_messages (earlier ++ later) last_user_message system_message
  = (found ← scan_messages earlier last_user_message system_message;
     scan_messages later (fst found) (snd found)).
Proof.
  revert last_user_message system_message.
  induction earlier as [|m earlier IH]; intros last_user_message system_message.
  - reflexivity.
  - cbn [app scan_messages].
    destruct (getitem m "role") as [role|e]; cbn [mbind result_bind]; [|done].
    destruct (String.eqb role "user").
    { destruct (getitem m "content"); cbn [mbind result_bind]; [apply IH | done]. }
    destruct (String.eqb role "system"); [|apply IH].
    destruct (getitem m "content"); cbn [mbind result_bind]; [apply IH | done].
Qed.

Lemma scan_messages_well_formed (messages : list (gmap string string))
    (last_user_message system_message : option string) :
  Forall well_formed_message messages ->
  exists found, scan_messages messages last_user_message system_message = OK found.
Proof.
  intros H. revert last_user_message system_message.
  induction H as [|m messages [[role Hrole] [content Hcontent]] _ IH];
    intros last_user_message system_message.
  - by eexists.
  - cbn [scan_messages]. unfold getitem. rewrite Hrole, Hcontent.
    cbn [mbind result_bind].
    destruct (String.eqb role "user"); [apply IH|].
    destruct (String.eqb role "system"); apply IH.
Qed.

Lemma msg_role (role content : string) : msg role content !! "role" = Some role.
Proof. unfold msg. apply lookup_insert_eq. Qed.

Lemma msg_content (role content : string) : msg role content !! "content" = Some content.
Proof. unfold msg. rewrite lookup_insert_ne by done. apply lookup_singleton_eq. Qed.

Lemma scan_system_then_user (system_content user_content : string)
    (last_user_message system_message : option string) :
  scan_messages [msg "system" system_content; msg "user" user_content]
                last_user_message system_message
  = OK (Some user_content, Some system_content).
Proof.
  cbn [scan_messages]. unfold getitem. rewrite !msg_role, !msg_content. reflexivity.
Qed.

(** X8. Only the last user message and the last system message count: the
    messages that precede a system message and a user message, whatever
    their roles, do not change the response. *)
Theorem earlier_messages_ignored
    (json_loads : string -> option json) (py_str : json -> string) (now : string)
    (earlier : list (gmap string string)) (system_content user_content : string) :
  Forall well_formed_message earlier ->
  get_completion json_loads py_str now
    (earlier ++ [msg "system" system_content; msg "user" user_content])
  = get_completion json_loads py_str now
      [msg "system" system_content; msg "user" user_content].
Proof.
  intros H. unfold get_completion, attempt. rewrite scan_messages_app.
  destruct (scan_messages_well_formed earlier None None H) as [found ->].
  cbn [mbind result_bind]. by rewrite !scan_system_then_user.
Qed.

Lemma earlier_messages_ignored_witness :
  Forall well_formed_message earlier_turns
  /\ get_completion loads_rejects str_blank "2026-11-03 10:00:00"
       (earlier_turns ++ [msg "system" "You are an assistant."; msg "user" "Hello"])
     = Text fallback_text.
Proof.
  assert (Forall well_formed_message earlier_turns) as H.
  { repeat constructor; vm_compute; eauto. }
  split; [exact H|].
  rewrite (earlier_messages_ignored loads_rejects str_blank "2026-11-03 10:00:00"
             earlier_turns "You are an assistant." "Hello" H).
  vm_compute. reflexivity.
Defined.

(** ** Reviews the composer cannot list *)

Lemma iterate_listable (v : json) :
  PyVal.truthy v = true ->
  if iterable v then exists elements, PyVal.iterate v = OK elements
  else PyVal.iterate v = Raise TypeError.
Proof. destruct v; cbn; eauto. Qed.

Lemma review_section_listable (py_str : json -> string) (doc_id : string) (review : json) :
  if review_listable review
  then exists section, review_section py_str doc_id review = OK section
  else review_section py_str doc_id review = Raise TypeError.
Proof.
  destruct review as [| | | | | |review]; cbn [review_listable review_section];
    try (by eexists).
  unfold listable.
  set (missing := PyVal.get review "missing_elements" (JList [])).
  set (recs := PyVal.get review "recommendations" (JList [])).
  destruct (PyVal.truthy missing) eqn:Hmissing; cbn [negb orb].
  - pose proof (iterate_listable missing Hmissing) as Hiter.
    destruct (iterable missing); cbn [andb].
    + destruct Hiter as [elements ->]. cbn [mbind result_bind mret result_ret].
      destruct (PyVal.truthy recs) eqn:Hrecs; cbn [negb orb].
      * pose proof (iterate_listable recs Hrecs) as Hiter'.
        destruct (iterable recs).
        -- destruct Hiter' as [elements' ->]. by eexists.
        -- by rewrite Hiter'.
      * by eexists.
    + by rewrite Hiter.
  - cbn [mbind result_bind mret result_ret].
    destruct (PyVal.truthy recs) eqn:Hrecs; cbn [negb orb].
    + pose proof (iterate_listable recs Hrecs) as Hiter'.
      destruct (iterable recs).
      * destruct Hiter' as [elements' ->]. by eexists.
      * by rewrite Hiter'.
    + by eexists.
Qed.

Lemma review_sections_listable (py_str : json -> string)
    (entries : list (string * json)) (report : string) :
  if reviews_listable entries
  then exists report', review_sections py_str entries report = OK report'
  else review_sections py_str entries report = Raise TypeError.
Proof.
  revert report. induction entries as [|[doc_id review] entries IH]; intros report.
  - by eexists.
  - cbn [reviews_listable forallb review_sections snd].
    pose proof (review_section_listable py_str doc_id review) as Hsection.
    destruct (review_listable review); cbn [andb].
    + destruct Hsection as [section ->]. cbn [mbind result_bind]. apply IH.
    + by rewrite Hsection.
Qed.

(** X9. The report composer fails exactly on a review it cannot list: it
    returns a COMPLETED report stamped with the clock when, in every review
    that is a dictionary, the missing elements and the recommendations are
    each empty or iterable, and it raises a TypeError otherwise. *)
Theorem report_fails_on_unlistable_review
    (py_str : json -> string) (now : string) (entries : list (string * json)) :
  if reviews_listable entries
  then exists report : string,
         _generate_review_report py_str now (JDict entries)
         = OK (Report "COMPLETED" report now)
  else _generate_review_report py_str now (JDict entries) = Raise TypeError.
Proof.
  unfold _generate_review_report.
  destruct entries as [|entry entries]; [by eexists|].
  cbn [PyVal.truthy nonempty PyVal.items mbind result_bind].
  pose proof (review_sections_listable py_str (entry :: entries) report_preamble) as H.
  destruct (reviews_listable (entry :: entries)).
  - destruct H as [report ->]. by eexists.
  - by rewrite H.
Qed.

(** X10. The retry loop can be exhausted: a report request whose parsed
    reviews hold one review that cannot be listed makes every attempt raise,
    and the engine answers that the service is unavailable. *)
Theorem unlistable_review_exhausts_retries
    (json_loads : string -> option json) (py_str : json -> string) (now : string)
    (system_content user_content : string) (entries : list (string * json)) :
  user_content <> "" ->
  PyStr.contains "Document Content Preview:" user_content = false ->
  PyStr.contains "research context" (PyStr.lower user_content) = false ->
  PyStr.contains "Question:" user_content && PyStr.contains "Response:" user_content
  = false ->
  is_report_request (Some system_content) user_content = true ->
  extract_reviews json_loads user_content = JDict entries ->
  reviews_listable entries = false ->
  get_completion json_loads py_str now
    [msg "system" system_content; msg "user" user_content]
  = ErrorObject "ERROR" "AI service unavailable. Please try again later.".
Proof.
  intros Hne Hdoc Hcontext Hfeedback Hreport Hreviews Hbad.
  unfold get_completion, attempt. rewrite scan_system_then_user.
  cbn [mbind result_bind].
  destruct user_content as [|c user_content]; [done|].
  rewrite Hdoc, Hcontext, Hfeedback, Hreport, Hreviews.
  pose proof (report_sections_fail := review_sections_listable py_str entries).
  unfold _generate_review_report.
  destruct entries as [|entry entries]; [done|].
  cbn [PyVal.truthy nonempty PyVal.items mbind result_bind].
  specialize (report_sections_fail report_preamble). rewrite Hbad in report_sections_fail.
  rewrite report_sections_fail. reflexivity.
Qed.

Lemma unlistable_review_exhausts_retries_witness :
  get_completion loads_count_review str_blank "2026-11-03 10:00:00"
    [msg "system" "You are a review report generator."; msg "user" count_review_request]
  = ErrorObject "ERROR" "AI service unavailable. Please try again later.".
Proof.
  apply (unlistable_review_exhausts_retries _ _ _ _ _
           [("doc1", JDict [("status", JStr "APPROVED"); ("missing_elements", JInt 2)])]);
    try (vm_compute; reflexivity).
  discriminate.
Defined.

(** ** The percentage never exceeds 100 *)

Section RoundingBelowABound.

Lemma shr_1_exact (m : Z) :
  0 <= m -> (2 | m) ->
  shr_1 (Build_shr_record m false false) = Build_shr_record (m / 2) false false.
Proof.
  intros Hm [k Hk]. destruct m as [|[p|p|]|p]; cbn [shr_1 orb]; try lia; try reflexivity.
  f_equal. apply Z.div_unique with (r := 0); lia.
Qed.

Lemma divide_quotient (a b m : Z) : 0 < a -> (a * b | m) -> (a | m) /\ (b | m / a).
Proof.
  intros Ha [k Hk]. split.
  - exists (k * b). lia.
  - exists k. subst m. replace (k * (a * b)) with (k * b * a) by lia.
    by rewrite Z.div_mul by lia.
Qed.

Lemma iter_shr_1_exact (n : positive) (m : Z) :
  0 <= m -> (2 ^ Z.pos n | m) ->
  SpecFloat.iter_pos shr_1 n (Build_shr_record m false false)
  = Build_shr_record (m / 2 ^ Z.pos n) false false.
Proof.
  revert m. induction n as [n IH|n IH|]; intros m Hm Hdiv; cbn [SpecFloat.iter_pos].
  - replace (Z.pos n~1) with (1 + Z.pos n + Z.pos n) in * by lia.
    rewrite !Z.pow_add_r in * by lia. change (2 ^ 1) with 2 in *.
    rewrite <- Z.mul_assoc in Hdiv.
    destruct (divide_quotient 2 _ m ltac:(lia) Hdiv) as [H2 Hrest].
    destruct (divide_quotient (2 ^ Z.pos n) _ _ ltac:(lia) Hrest) as [Hn Hn'].
    assert (0 <= m / 2) as Hhalf by (apply Z.div_pos; lia).
    assert (0 <= m / 2 / 2 ^ Z.pos n) as Hrest' by (apply Z.div_pos; lia).
    rewrite shr_1_exact, IH, IH by done.
    rewrite !Z.div_div by lia. do 2 f_equal. lia.
  - replace (Z.pos n~0) with (Z.pos n + Z.pos n) in * by lia.
    rewrite !Z.pow_add_r in * by lia.
    destruct (divide_quotient (2 ^ Z.pos n) _ _ ltac:(lia) Hdiv) as [Hn Hn'].
    assert (0 <= m / 2 ^ Z.pos n) as Hrest by (apply Z.div_pos; lia).
    rewrite IH, IH by done.
    rewrite !Z.div_div by lia. do 2 f_equal.
  - by apply shr_1_exact.
Qed.

(** The first step of rounding, with the mantissa it leaves: [n] low bits
    are dropped, and nothing is lost when they were all zero. *)
Lemma shr_fexp_value (m e : Z) (l : location) :
  0 <= m ->
  exists r n,
    shr_fexp PyFloat.prec PyFloat.emax m e l = (r, e + n)
    /\ 0 <= n
    /\ e + n = Z.max e (fexp PyFloat.prec PyFloat.emax (Zdigits2 m + e))
    /\ shr_m r = m / 2 ^ n
    /\ (l = loc_Exact -> (2 ^ n | m) -> loc_of_shr_record r = loc_Exact).
Proof.
  intros Hm. unfold shr_fexp, shr.
  destruct (fexp PyFloat.prec PyFloat.emax (Zdigits2 m + e) - e) as [|n|n] eqn:Hn.
  - exists (shr_record_of_loc m l), 0. rewrite Z.add_0_r, shr_record_of_loc_m, Z.div_1_r.
    repeat split; try lia. by intros ->.
  - exists (SpecFloat.iter_pos shr_1 n (shr_record_of_loc m l)), (Z.pos n).
    split; [done|]. split; [lia|]. split; [lia|]. split.
    + rewrite iter_shr_1_m by (by rewrite shr_record_of_loc_m).
      by rewrite shr_record_of_loc_m.
    + intros -> Hdiv. cbn [shr_record_of_loc]. by rewrite iter_shr_1_exact.
  - exists (shr_record_of_loc m l), 0. rewrite Z.add_0_r, shr_record_of_loc_m, Z.div_1_r.
    repeat split; try lia. by intros ->.
Qed.

Lemma round_nearest_even_le (m : Z) (l : location) :
  round_nearest_even m l <= m + 1 /\ (l = loc_Exact -> round_nearest_even m l = m).
Proof.
  unfold round_nearest_even. split; [|by intros ->].
  destruct l as [|[]]; try destruct (Z.even m); lia.
Qed.

(** Rounding does not cross an integer bound [T] that the unrounded value
    does not exceed: a finite result with a non-positive exponent [e'] has a
    mantissa of at most [T * 2^(-e')]. *)
Lemma binary_round_aux_le (s : bool) (m e : Z) (l : location) (T : Z) :
  0 <= m -> e <= 0 -> 0 <= T ->
  m <= T * 2 ^ (- e) ->
  (m = T * 2 ^ (- e) -> l = loc_Exact) ->
  match binary_round_aux PyFloat.prec PyFloat.emax s m e l with
  | S754_finite _ m' e' => e' <= 0 -> Z.pos m' <= T * 2 ^ (- e')
  | _ => True
  end.
Proof.
  intros Hm He HT Hle Hexact. unfold binary_round_aux.
  destruct (shr_fexp_value m e l Hm) as (r1 & n1 & -> & Hn1 & _ & Hm1 & Hloc1).
  set (m1 := round_nearest_even (shr_m r1) (loc_of_shr_record r1)).
  assert (0 <= shr_m r1) as Hr1 by (rewrite Hm1; apply Z.div_pos; lia).
  assert (0 <= m1) as Hm1' by (apply round_nearest_even_spec; done).
  destruct (shr_fexp_value m1 (e + n1) loc_Exact Hm1')
    as (r2 & n2 & -> & Hn2 & _ & Hm2 & _).
  destruct (shr_m r2) as [|m2|m2] eqn:Hr2; [done| |done].
  destruct (Z.leb_spec (e + n1 + n2) (PyFloat.emax - PyFloat.prec)); [|done].
  intros He2.
  assert (0 < 2 ^ n1) by (apply Z.pow_pos_nonneg; lia).
  assert (0 < 2 ^ n2) by (apply Z.pow_pos_nonneg; lia).
  assert (2 ^ (- e) = 2 ^ (- (e + n1)) * 2 ^ n1) as Hsplit1.
  { rewrite <- Z.pow_add_r by lia. f_equal. lia. }
  assert (2 ^ (- (e + n1)) = 2 ^ (- (e + n1 + n2)) * 2 ^ n2) as Hsplit2.
  { rewrite <- Z.pow_add_r by lia. f_equal. lia. }
  assert (m1 <= T * 2 ^ (- (e + n1))) as Hbound1.
  { assert (shr_m r1 <= T * 2 ^ (- (e + n1))) as Hfloor.
    { rewrite Hm1. apply Z.div_le_upper_bound; [lia|]. rewrite Hsplit1 in Hle. lia. }
    destruct (round_nearest_even_le (shr_m r1) (loc_of_shr_record r1)) as [Hup Hsame].
    destruct (Z.eq_dec (shr_m r1) (T * 2 ^ (- (e + n1)))) as [Heq|Hne]; [|fold m1 in Hup; lia].
    assert (m = T * 2 ^ (- e)) as Hm_eq.
    { pose proof (Z.mul_div_le m (2 ^ n1) ltac:(lia)) as Hfl.
      rewrite <- Hm1, Heq in Hfl. rewrite Hsplit1 in Hle |- *. lia. }
    assert (2 ^ n1 | m) as Hdiv.
    { exists (T * 2 ^ (- (e + n1))). rewrite Hm_eq, Hsplit1. lia. }
    unfold m1. rewrite Hsame by (apply Hloc1; [by apply Hexact | done]). lia. }
  rewrite Hm2. apply Z.div_le_upper_bound; [lia|].
  rewrite Hsplit2 in Hbound1. lia.
Qed.

Lemma new_location_exact (b : Z) : new_location b 0 = loc_Exact.
Proof. unfold new_location. by destruct (Z.even b). Qed.

(** The quotient of a positive integer by one not smaller, before rounding:
    its value is at most one, and exactly one only without a remainder. *)
Lemma div_core_value (a b : positive) :
  Z.pos a <= Z.pos b ->
  exists q e l,
    SFdiv_core_binary PyFloat.prec PyFloat.emax (Z.pos a) 0 (Z.pos b) 0 = (q, e, l)
    /\ 0 <= q /\ e <= 0 /\ Zdigits2 q + e <= 1
    /\ q <= 1 * 2 ^ (- e)
    /\ (q = 1 * 2 ^ (- e) -> l = loc_Exact).
Proof.
  intros Hab. unfold SFdiv_core_binary.
  set (e := Z.min _ _). assert (e <= 0) as He by (subst e; lia).
  set (m := match 0 - 0 - e with Z.pos _ => _ | _ => _ end).
  assert (m = Z.pos a * 2 ^ (- e)) as Hm.
  { subst m. destruct (0 - 0 - e) as [|s|s] eqn:Hs; [| |lia].
    - replace (- e) with 0 by lia. lia.
    - rewrite Z.shiftl_mul_pow2 by lia. by replace (- e) with (Z.pos s) by lia. }
  pose proof (Z_div_mod m (Z.pos b) ltac:(lia)) as Hdiv.
  destruct (Z.div_eucl m (Z.pos b)) as [q r]. destruct Hdiv as [Hq Hr].
  exists q, e, (new_location (Z.pos b) r). split; [done|].
  assert (0 < 2 ^ (- e)) as Hpow by (apply Z.pow_pos_nonneg; lia).
  assert (0 <= q <= 2 ^ (- e)) as Hbound by nia.
  split; [lia|]. split; [done|]. split.
  - assert (Zdigits2 q <= - e + 1); [|lia].
    apply digits_le; [lia|]. rewrite Z.pow_add_r by lia. lia.
  - split; [lia|]. intros Hfull.
    assert (r = 0) as -> by nia. apply new_location_exact.
Qed.

(** [part / whole] for [0 <= part <= whole] is at most one. *)
Lemma truediv_at_most_one (part whole : Z) :
  0 <= part <= whole -> 0 < whole ->
  exists x,
    PyFloat.truediv part whole = OK x
    /\ match x with
       | S754_zero _ => True
       | S754_finite s m e =>
           s = false /\ e <= 0 /\ Zdigits2 (Z.pos m) + e <= 2 /\ Z.pos m <= 2 ^ (- e)
       | _ => False
       end.
Proof.
  intros Hpart Hwhole. unfold PyFloat.truediv.
  destruct (Z.eqb_spec whole 0) as [|_]; [lia|].
  destruct whole as [|b|b]; [lia| |lia].
  destruct part as [|a|a]; [by exists (S754_zero false)| |lia].
  cbn [PyFloat.exact SFdiv xorb].
  destruct (div_core_value a b ltac:(lia))
    as (q & e & l & -> & Hq & He & Hd & Hle & Hexact).
  pose proof (binary_round_aux_spec false q e l Hq) as Hr.
  pose proof (binary_round_aux_le false q e l 1 Hq He ltac:(lia) Hle Hexact) as Hv.
  set (x := binary_round_aux _ _ _ _ _ _) in *. clearbody x.
  destruct Hr as [|m' e' He' Hm'|Hinf]; [by eexists | | lia].
  eexists. split; [reflexivity|]. repeat split; [lia | lia |].
  specialize (Hv ltac:(lia)). lia.
Qed.

(** [int((part / whole) * 100)] for [0 <= part <= whole] lies in [0, 100]. *)
Lemma percent_range (part whole : Z) :
  0 <= part <= whole -> 0 < whole ->
  exists z, percent part whole = OK z /\ 0 <= z <= 100.
Proof.
  intros Hpart Hwhole. unfold percent.
  destruct (truediv_at_most_one part whole Hpart Hwhole) as (x & -> & Hx).
  cbn [mbind result_bind].
  change (PyFloat.of_int 100) with (S754_finite false 7036874417766400 (-46)).
  destruct x as [s| |  |s m e]; [exists 0; split; [by destruct s | lia] | done | done |].
  destruct Hx as (-> & He & Hd & Hle).
  unfold PyFloat.mul. cbn [SFmul xorb].
  assert (0 <= Z.pos (m * 7036874417766400)) as Hpos by lia.
  pose proof (binary_round_aux_spec false _ (e + -46) loc_Exact Hpos) as Hr.
  pose proof (digits_mul (Z.pos m) 7036874417766400 ltac:(lia) ltac:(lia)) as Hdm.
  change (Zdigits2 7036874417766400) with 53 in Hdm.
  assert (0 < 2 ^ (- e)) as Hpow by (apply Z.pow_pos_nonneg; lia).
  assert (2 ^ (- (e + -46)) = 2 ^ (- e) * 2 ^ 46) as Hsplit.
  { rewrite <- Z.pow_add_r by lia. f_equal. lia. }
  pose proof (binary_round_aux_le false (Z.pos (m * 7036874417766400)) (e + -46)
                loc_Exact 100 Hpos ltac:(lia) ltac:(lia)) as Hv.
  rewrite Pos2Z.inj_mul in Hr, Hv |- *.
  specialize (Hv ltac:(rewrite Hsplit; change (2 ^ 46) with 70368744177664; nia)
                 ltac:(done)).
  set (y := binary_round_aux _ _ _ _ _ _) in *. clearbody y.
  destruct Hr as [|m' e' He' Hm'|Hinf']; [exists 0; split; [reflexivity | lia] | | lia].
  assert (e' <= 0) as He0 by lia. specialize (Hv He0).
  eexists. split; [reflexivity|]. cbn beta iota.
  split; [by apply Z.shiftl_nonneg|].
  rewrite Z.shiftl_div_pow2 by done.
  apply Z.div_le_upper_bound; [apply Z.pow_pos_nonneg; lia | lia].
Qed.

End RoundingBelowABound.

(** ** Every verdict of a document review *)

Lemma generic_range (doc_content question doc_type : string) :
  exists v : verdict,
    _analyze_generic_document doc_content question doc_type = OK v
    /\ 0 <= compliance_score v <= 100.
Proof.
  unfold _analyze_generic_document.
  set (question_keywords := significant_words generic_stop_words question).
  destruct (nonempty question_keywords) eqn:Hwords.
  - destruct (percent_range _ _ (keyword_matches_bounds question_keywords doc_content)
                (list_len_nonempty _ Hwords)) as (score & -> & Hscore).
    eexists. split; [reflexivity | exact Hscore].
  - eexists. split; [reflexivity | simpl; lia].
Qed.

Lemma typed_status_invariant (a : string) (e r : list string) (score : Z) :
  0 <= score <= 100 -> verdict_invariant (Verdict (typed_status score) a e r score).
Proof.
  intros Hscore. unfold verdict_invariant, typed_status. cbn [status compliance_score].
  split; [done|].
  destruct (Z.leb_spec 90 score), (Z.leb_spec 70 score); cbn [In];
    repeat split; intros; try lia; try discriminate; tauto.
Qed.

Lemma generic_status_invariant (a : string) (e r : list string) (score : Z) :
  0 <= score <= 100 -> verdict_invariant (Verdict (generic_status score) a e r score).
Proof.
  intros Hscore. unfold verdict_invariant, generic_status. cbn [status compliance_score].
  split; [done|].
  destruct (Z.leb_spec 80 score), (Z.leb_spec 60 score); cbn [In];
    repeat split; intros; try lia; try discriminate; tauto.
Qed.

Lemma typed_verdict_invariant (key_elements : keyword_table)
    (scorer : string -> result verdict) (doc_content : string) :
  typed_result key_elements scorer -> (1 <= length key_elements)%nat ->
  exists v, scorer doc_content = OK v /\ verdict_invariant v.
Proof.
  intros Hres Hsize. destruct (Hres doc_content) as (v & Hv & Hscore & Hstatus & _).
  exists v. split; [done|].
  pose proof (floor_percent_range key_elements doc_content Hsize) as Hrange.
  rewrite <- Hscore in Hrange.
  destruct v as [st an mi re sc]; cbn [status compliance_score] in *. subst st.
  by apply typed_status_invariant.
Qed.

Lemma analyze_by_type_invariant (doc_type doc_content question : string) :
  exists v, analyze_by_type doc_type doc_content question = OK v /\ verdict_invariant v.
Proof.
  unfold analyze_by_type.
  destruct (String.eqb doc_type "Consent Form").
  { apply (typed_verdict_invariant _ _ _ consent_form_result). cbn; lia. }
  destruct (_ || _).
  { apply (typed_verdict_invariant _ _ _ research_protocol_result). cbn; lia. }
  destruct (String.eqb doc_type "Ethics Committee Application Form").
  { apply (typed_verdict_invariant _ _ _ ethics_application_result). cbn; lia. }
  destruct (String.eqb doc_type "CV/Resume").
  { apply (typed_verdict_invariant _ _ _ cv_result). cbn; lia. }
  destruct (String.eqb doc_type "Survey/Questionnaire").
  { apply (typed_verdict_invariant _ _ _ survey_result). cbn; lia. }
  destruct (generic_range doc_content question doc_type) as (v & Hv & Hrange).
  exists v. split; [done|].
  destruct (generic_result _ _ _ _ Hv) as [Hstatus _].
  destruct v as [st an mi re sc]; cbn [status compliance_score] in *. subst st.
  by apply generic_status_invariant.
Qed.

Lemma not_relevant_verdict_invariant (expected_type actual_type : string) :
  verdict_invariant (not_relevant_verdict expected_type actual_type).
Proof.
  unfold verdict_invariant. cbn [status compliance_score not_relevant_verdict In].
  repeat split; intros; try lia; try discriminate; tauto.
Qed.

Lemma document_review_invariant (doc_content question doc_name : string) :
  exists v : verdict,
    _generate_document_review doc_content question doc_name = OK v
    /\ verdict_invariant v.
Proof.
  unfold _generate_document_review.
  destruct (gate_returns (_determine_expected_document_type question)
              (_determine_actual_document_type doc_name doc_content)
              doc_content question) as [relevant ->].
  cbn [mbind result_bind]. destruct relevant; cbn [negb].
  - apply analyze_by_type_invariant.
  - eexists. split; [reflexivity|]. apply not_relevant_verdict_invariant.
Qed.

(** X11. A document review always returns a verdict, whatever the document,
    the question and the file name: its score lies in [0, 100], its status is
    one of APPROVED, ANALYZING and NEEDS_REVISION, it is APPROVED only from
    a score of 80 and it is NEEDS_REVISION whenever the score is below 60.
    This covers the five typed scorers, the generic scorer and the verdict of
    the relevance gate. *)
Theorem document_review_verdict_invariant (doc_content question doc_name : string) :
  exists v : verdict,
    _generate_document_review doc_content question doc_name = OK v
    /\ 0 <= compliance_score v <= 100
    /\ In (status v) ["APPROVED"; "ANALYZING"; "NEEDS_REVISION"]
    /\ (status v = "APPROVED" -> 80 <= compliance_score v)
    /\ (compliance_score v < 60 -> status v = "NEEDS_REVISION").
Proof.
  unfold _generate_document_review.
  destruct (gate_returns (_determine_expected_document_type question)
              (_determine_actual_document_type doc_name doc_content)
              doc_content question) as [relevant ->].
  cbn [mbind result_bind]. destruct relevant; cbn [negb].
  - apply analyze_by_type_invariant.
  - eexists. split; [reflexivity|]. apply not_relevant_verdict_invariant.
Qed.

(** ** Every response of the engine *)

Lemma question_feedback_contract (now question response : string) :
  response_contract now (_generate_question_feedback question response).
Proof.
  unfold _generate_question_feedback.
  destruct (PyStr.contains "human participants" _).
  { destruct (String.eqb _ "YES"); vm_compute; discriminate. }
  destruct (PyStr.contains "personal data" _).
  { destruct (String.eqb _ "YES"); vm_compute; discriminate. }
  destruct (_ && _).
  - unfold response_contract, verdict_invariant. cbn [status compliance_score In].
    repeat split; intros; try lia; try discriminate; tauto.
  - apply generic_feedback_not_empty.
Qed.

Lemma review_report_contract (py_str : json -> string) (now : string) (reviews : json) :
  match _generate_review_report py_str now reviews with
  | OK c => response_contract now c
  | Raise _ => True
  end.
Proof.
  unfold _generate_review_report.
  destruct (if PyVal.truthy reviews then _ else _); cbn [mbind result_bind]; done.
Qed.

Lemma attempt_contract (json_loads : string -> option json) (py_str : json -> string)
    (now : string) (messages : list (gmap string string)) :
  match attempt json_loads py_str now messages with
  | OK c => response_contract now c
  | Raise _ => True
  end.
Proof.
  unfold attempt.
  destruct (scan_messages messages None None) as [[user system]|e]; [|done].
  cbn [mbind result_bind].
  destruct user as [[|c m]|]; [by split; [|left] | | by split; [|left]].
  destruct (PyStr.contains "Document Content Preview:" _).
  { destruct (document_review_invariant (review_doc_content (String c m))
                (review_question (String c m)) (review_doc_name (String c m)))
      as (v & -> & Hv). exact Hv. }
  destruct (PyStr.contains "research context" _).
  { vm_compute. discriminate. }
  destruct (_ && _); [apply question_feedback_contract|].
  destruct (is_report_request _ _); [apply review_report_contract|].
  vm_compute. discriminate.
Qed.

(** X12. The output contract of the engine: whatever the messages, the
    parser and the clock, [get_completion] returns a non-empty text, or a
    verdict with a score in [0, 100] and one of the three review statuses, or
    an ERROR object with one of its two messages, or a COMPLETED report
    stamped with the clock. *)
Theorem engine_output_contract
    (json_loads : string -> option json) (py_str : json -> string)
    (now : string) (messages : list (gmap string string)) :
  match get_completion json_loads py_str now messages with
  | Text s => s <> ""
  | Review v =>
      0 <= compliance_score v <= 100
      /\ In (status v) ["APPROVED"; "ANALYZING"; "NEEDS_REVISION"]
  | ErrorObject status message =>
      status = "ERROR"
      /\ (message = "No user message found in the conversation."
          \/ message = "AI service unavailable. Please try again later.")
  | Report status report generated_at => status = "COMPLETED" /\ generated_at = now
  end.
Proof.
  unfold get_completion. pose proof (attempt_contract json_loads py_str now messages) as H.
  destruct (attempt json_loads py_str now messages) as [c|e]; cbn [retry max_retries].
  - destruct c as [s|v|st m|st r t]; cbn [response_contract] in H; try done.
    destruct H as (Hscore & Hstatus & _). by split.
  - split; [done | by right].
Qed.

(** ** The threshold of the relevance gate *)

Lemma gate_table_100 : gate_table 100 = true.
Proof. vm_compute. reflexivity. Qed.

Lemma gate_table_sound (bound count matches : nat) :
  gate_table bound = true ->
  (1 <= count <= bound)%nat -> (matches <= count)%nat ->
  gate_agrees count matches = true.
Proof.
  unfold gate_table. intros H Hcount Hmatches.
  rewrite forallb_forall in H. specialize (H count ltac:(apply in_seq; lia)).
  rewrite forallb_forall in H. apply H, in_seq. lia.
Qed.

(** X13. The relevance gate for differing types, on questions of up to a
    hundred significant words: the document passes exactly when more than
    three tenths of the words occur in it, [10 * matches > 3 * count]; a
    question without significant words, and a document that matches exactly
    30 percent, are rejected. *)
Theorem gate_passes_above_three_tenths
    (expected_type actual_type doc_content question : string) :
  expected_type <> actual_type ->
  (length (significant_words relevance_stop_words question) <= 100)%nat ->
  _is_document_relevant expected_type actual_type doc_content question
  = OK (3 * list_len (significant_words relevance_stop_words question)
        <? 10 * keyword_matches (significant_words relevance_stop_words question)
                                doc_content).
Proof.
  intros Htypes Hwords. unfold _is_document_relevant.
  apply String.eqb_neq in Htypes. rewrite Htypes.
  remember (significant_words relevance_stop_words question) as question_keywords.
  destruct (nonempty question_keywords) eqn:Hnonempty.
  - pose proof (list_len_nonempty _ Hnonempty) as Hpositive. unfold list_len in Hpositive.
    pose proof (gate_table_sound 100 (length question_keywords)
                  (length (List.filter
                             (fun keyword =>
                                PyStr.contains keyword (PyStr.lower doc_content))
                             question_keywords))
                  gate_table_100 ltac:(lia) (filter_length_le _ _)) as H.
    unfold gate_agrees in H. fold (list_len question_keywords) in H.
    fold (keyword_matches question_keywords doc_content) in H.
    destruct (PyFloat.truediv _ _) as [ratio|e]; [|done].
    cbn [mbind result_bind mret result_ret]. f_equal. by apply eqb_prop.
  - destruct question_keywords; [reflexivity | done].
Qed.

Lemma gate_passes_above_three_tenths_witness :
  _is_document_relevant "CV/Resume" "Supporting Document" three_of_ten ten_word_question
  = OK false.
Proof.
  rewrite (gate_passes_above_three_tenths "CV/Resume" "Supporting Document"
             three_of_ten ten_word_question).
  - vm_compute. reflexivity.
  - discriminate.
  - vm_compute. lia.
Defined.

(** * Properties of the agents *)

(** ** Searching a text made of pieces *)

Lemma len_append (a b : string) : PyStr.len (a +:+ b) = PyStr.len a + PyStr.len b.
Proof.
  unfold PyStr.len. induction a as [|c a IH]; [done|].
  change (Z.of_nat (S (String.length (a +:+ b)))
          = Z.of_nat (S (String.length a)) + Z.of_nat (String.length b)). lia.
Qed.

Lemma len_cons (c : ascii) (a : string) : PyStr.len (String c a) = 1 + PyStr.len a.
Proof. unfold PyStr.len. simpl String.length. lia. Qed.

Lemma len_nonneg (a : string) : 0 <= PyStr.len a.
Proof. unfold PyStr.len. lia. Qed.

Lemma prefix_cons (c d : ascii) (p s : string) :
  String.prefix (String c p) (String d s) = Ascii.eqb c d && String.prefix p s.
Proof.
  simpl. destruct (ascii_dec c d) as [->|Hne].
  - by rewrite Ascii.eqb_refl.
  - by apply Ascii.eqb_neq in Hne as ->.
Qed.

Lemma prefix_here (p a s : string) :
  String.prefix p a = true -> String.prefix p (a +:+ s) = true.
Proof.
  intros H. destruct (prefix_inv _ _ H) as [r ->].
  rewrite append_assoc. apply prefix_append.
Qed.

Lemma prefix_agree (p a s : string) :
  String.prefix p (a +:+ s) = true -> agree p a = true.
Proof.
  revert a. induction p as [|c p IH]; intros a H; [by destruct a|].
  destruct a as [|d a]; [done|].
  change (String.prefix (String c p) (String d (a +:+ s)) = true) in H.
  rewrite prefix_cons in H. apply andb_true_iff in H as [Hc H].
  simpl. rewrite Hc. by apply IH.
Qed.

Lemma find_from_skip (p a s : string) (i : Z) :
  skip_ok p a = true ->
  PyStr.find_from p (a +:+ s) i = PyStr.find_from p s (i + PyStr.len a).
Proof.
  revert i. induction a as [|d a IH]; intros i H.
  - change (EmptyString +:+ s) with s. change (PyStr.len EmptyString) with 0.
    by rewrite Z.add_0_r.
  - simpl in H. apply andb_true_iff in H as [Hd H].
    change (String d a +:+ s) with (String d (a +:+ s)).
    cbn [PyStr.find_from].
    destruct (String.prefix p (String d (a +:+ s))) eqn:Hp.
    + apply (prefix_agree p (String d a) s) in Hp. by rewrite Hp in Hd.
    + rewrite IH by done. rewrite len_cons. by rewrite Z.add_assoc.
Qed.

Lemma find_from_here (p a s : string) (i : Z) :
  String.prefix p a = true -> PyStr.find_from p (a +:+ s) i = i.
Proof.
  intros H. apply (prefix_here p a s) in H.
  destruct (a +:+ s); cbn [PyStr.find_from]; by rewrite H.
Qed.

Lemma prefix_field (p v s : string) (c : ascii) :
  outside c p = true ->
  String.prefix p (v +:+ String c s) = true -> String.prefix p v = true.
Proof.
  revert v. induction p as [|d p IH]; intros v Hc H; [by destruct v|].
  simpl in Hc. apply andb_true_iff in Hc as [Hd Hc].
  destruct v as [|e v].
  - change (String.prefix (String d p) (String c s) = true) in H.
    rewrite prefix_cons in H. apply andb_true_iff in H as [H _].
    by rewrite H in Hd.
  - change (String.prefix (String d p) (String e (v +:+ String c s)) = true) in H.
    rewrite prefix_cons in H |- *. apply andb_true_iff in H as [-> H].
    by apply IH.
Qed.

(** A field free of [p], followed by a character that is not in [p]. *)
Lemma find_from_field (p v s : string) (c : ascii) (i : Z) :
  PyStr.contains p v = false -> outside c p = true ->
  PyStr.find_from p (v +:+ String c s) i
  = PyStr.find_from p (String c s) (i + PyStr.len v).
Proof.
  revert i. induction v as [|e v IH]; intros i Hv Hc.
  - change (EmptyString +:+ String c s) with (String c s). change (PyStr.len EmptyString) with 0.
    by rewrite Z.add_0_r.
  - rewrite contains_unfold in Hv. apply orb_false_iff in Hv as [Hp Hv].
    change (String e v +:+ String c s) with (String e (v +:+ String c s)).
    cbn [PyStr.find_from].
    destruct (String.prefix p (String e (v +:+ String c s))) eqn:Hq.
    + apply (prefix_field p (String e v) s c Hc) in Hq. congruence.
    + rewrite IH by done. rewrite len_cons. by rewrite Z.add_assoc.
Qed.

Lemma find_from_absent (p s : string) (i : Z) :
  PyStr.contains p s = false -> PyStr.find_from p s i = -1.
Proof.
  revert i. induction s as [|c s IH]; intros i H;
    rewrite contains_unfold in H; apply orb_false_iff in H as [Hp H];
    cbn [PyStr.find_from]; rewrite Hp; [done|]. by apply IH.
Qed.

Lemma find_from_spec (p s : string) (i : Z) :
  0 <= i ->
  if PyStr.contains p s then i <= PyStr.find_from p s i
  else PyStr.find_from p s i = -1.
Proof.
  revert i. induction s as [|c s IH]; intros i Hi;
    rewrite contains_unfold; cbn [PyStr.find_from];
    destruct (String.prefix p _) eqn:Hp; cbn [orb]; try lia.
  specialize (IH (i + 1)). destruct (PyStr.contains p s); lia.
Qed.

Lemma find_from_found (p s : string) (i : Z) :
  0 <= i -> 0 <= PyStr.find_from p s i -> PyStr.contains p s = true.
Proof.
  intros Hi H. pose proof (find_from_spec p s i Hi) as Hs.
  destruct (PyStr.contains p s); [done | lia].
Qed.

Lemma find_from_missing (p s : string) (i : Z) :
  0 <= i -> PyStr.find_from p s i = -1 -> PyStr.contains p s = false.
Proof.
  intros Hi H. pose proof (find_from_spec p s i Hi) as Hs.
  destruct (PyStr.contains p s); [lia | done].
Qed.

(** ** Slices and strips of a text made of pieces *)

Lemma substring_skip (x s : string) (n : nat) :
  String.substring (String.length x) n (x +:+ s) = String.substring 0 n s.
Proof. induction x as [|c x IH]; [done|]. exact IH. Qed.

Lemma substring_take (y z : string) :
  String.substring 0 (String.length y) (y +:+ z) = y.
Proof.
  induction y as [|c y IH]; [by destruct z|].
  change (String c (String.substring 0 (String.length y) (y +:+ z)) = String c y).
  by rewrite IH.
Qed.

Lemma slice_pieces (x y z s : string) (a b : Z) :
  s = x +:+ y +:+ z -> a = PyStr.len x -> b = PyStr.len x + PyStr.len y ->
  PyStr.slice s a b = y.
Proof.
  intros -> -> ->. unfold PyStr.slice, PyStr.clamp_index.
  rewrite !len_append.
  pose proof (len_nonneg x). pose proof (len_nonneg y). pose proof (len_nonneg z).
  destruct (Z.ltb_spec (PyStr.len x) 0); [lia|].
  destruct (Z.ltb_spec (PyStr.len x + PyStr.len y) 0); [lia|].
  rewrite !Z.min_l by lia.
  replace (PyStr.len x + PyStr.len y - PyStr.len x) with (PyStr.len y) by lia.
  unfold PyStr.len. rewrite !Nat2Z.id.
  by rewrite substring_skip, substring_take.
Qed.

Lemma lstrip_blank (w s : string) :
  blank w = true -> PyStr.lstrip (w +:+ s) = PyStr.lstrip s.
Proof.
  induction w as [|c w IH]; intros H; [done|].
  simpl in H. apply andb_true_iff in H as [Hc H].
  change (PyStr.lstrip (String c (w +:+ s)) = PyStr.lstrip s).
  cbn [PyStr.lstrip]. rewrite Hc. by apply IH.
Qed.

Lemma rstrip_blank_only (w : string) : blank w = true -> PyStr.rstrip w = EmptyString.
Proof.
  induction w as [|c w IH]; intros H; [done|].
  simpl in H. apply andb_true_iff in H as [Hc H].
  cbn [PyStr.rstrip]. by rewrite IH, Hc.
Qed.

Lemma rstrip_blank (s w : string) :
  blank w = true -> PyStr.rstrip (s +:+ w) = PyStr.rstrip s.
Proof.
  intros H. induction s as [|c s IH].
  - change (PyStr.rstrip w = EmptyString). by apply rstrip_blank_only.
  - change (PyStr.rstrip (String c (s +:+ w)) = PyStr.rstrip (String c s)).
    cbn [PyStr.rstrip]. by rewrite IH.
Qed.

Lemma lstrip_rstrip_blank (s w : string) :
  blank w = true ->
  PyStr.rstrip (PyStr.lstrip (s +:+ w)) = PyStr.rstrip (PyStr.lstrip s).
Proof.
  intros H. induction s as [|c s IH].
  - change (PyStr.rstrip (PyStr.lstrip w) = EmptyString).
    clear -H. induction w as [|c w IH]; [done|].
    simpl in H. apply andb_true_iff in H as [Hc H].
    cbn [PyStr.lstrip]. rewrite Hc. by apply IH.
  - change (PyStr.rstrip (PyStr.lstrip (String c (s +:+ w)))
            = PyStr.rstrip (PyStr.lstrip (String c s))).
    cbn [PyStr.lstrip]. destruct (PyStr.is_space c); [done|].
    change (PyStr.rstrip (String c s +:+ w) = PyStr.rstrip (String c s)).
    by apply rstrip_blank.
Qed.

(** White space around a field is stripped with the field's own. *)
Lemma strip_padded (w1 s w2 : string) :
  blank w1 = true -> blank w2 = true ->
  PyStr.strip (w1 +:+ s +:+ w2) = PyStr.strip s.
Proof.
  intros H1 H2. unfold PyStr.strip. rewrite lstrip_blank by done.
  by apply lstrip_rstrip_blank.
Qed.

(** ** The user message of [review_document] *)

Lemma find_from_field_then (p v a s : string) (i : Z) :
  PyStr.contains p v = false -> head_outside p a = true ->
  PyStr.find_from p (v +:+ a +:+ s) i = PyStr.find_from p (a +:+ s) (i + PyStr.len v).
Proof.
  intros Hv Ha. destruct a as [|c a]; [done|].
  change (String c a +:+ s) with (String c (a +:+ s)).
  by apply find_from_field.
Qed.

Lemma concat_app (sep : string) (l1 l2 : list string) :
  l1 <> [] -> l2 <> [] ->
  String.concat sep (l1 ++ l2) = String.concat sep l1 +:+ sep +:+ String.concat sep l2.
Proof.
  intros H1 H2. induction l1 as [|x l1 IH]; [done|].
  destruct l1 as [|y l1].
  - destruct l2; [done|]. reflexivity.
  - change (x +:+ sep +:+ String.concat sep ((y :: l1) ++ l2)
            = (x +:+ sep +:+ String.concat sep (y :: l1)) +:+ sep +:+ String.concat sep l2).
    rewrite IH by done. by rewrite !append_assoc.
Qed.

Lemma review_user_prompt_pieces (question filename document_type preview : string) :
  review_user_prompt question filename document_type preview
  = review_pieces question filename document_type preview.
Proof.
  unfold review_user_prompt, review_pieces, PyStr.text, PyStr.join.
  rewrite concat_app by done.
  change (String.concat PyStr.LF review_instructions)
    with (indent20 +:+ "Please analyze" +:+ review_closing).
  cbn [String.concat]. unfold margin.
  change "Ethics Question: " with ("Ethics Question:" +:+ " ").
  change "Document Name: " with ("Document Name:" +:+ " ").
  change "Document Type: " with ("Document Type:" +:+ " ").
  rewrite !append_assoc. reflexivity.
Qed.

Ltac find_step :=
  first
    [ rewrite find_from_here by reflexivity
    | rewrite find_from_skip by reflexivity
    | rewrite find_from_field_then by (first [assumption | reflexivity]) ].

Ltac closed_lens :=
  repeat match goal with
         | |- context [PyStr.len ?a] =>
             tryif is_var a then fail
             else (let v := eval vm_compute in (PyStr.len a) in
                   change (PyStr.len a) with v)
         end.

Ltac found := unfold PyStr.find, review_pieces; repeat find_step; closed_lens; lia.

Ltac cut_at x y :=
  erewrite (slice_pieces x y);
  [ | unfold review_pieces; rewrite !append_assoc; reflexivity
    | rewrite ?len_append; closed_lens; lia
    | rewrite ?len_append; closed_lens; lia ].

Section ReviewPieces.

Variables question filename document_type preview : string.

Hypothesis question_no_name : PyStr.contains "Document Name:" question = false.
Hypothesis question_no_type : PyStr.contains "Document Type:" question = false.
Hypothesis question_no_preview : PyStr.contains "Document Content Preview:" question = false.
Hypothesis question_no_closing : PyStr.contains "Please analyze" question = false.
Hypothesis filename_no_type : PyStr.contains "Document Type:" filename = false.
Hypothesis filename_no_preview : PyStr.contains "Document Content Preview:" filename = false.
Hypothesis filename_no_closing : PyStr.contains "Please analyze" filename = false.
Hypothesis type_no_preview : PyStr.contains "Document Content Preview:" document_type = false.
Hypothesis type_no_closing : PyStr.contains "Please analyze" document_type = false.
Hypothesis preview_no_closing : PyStr.contains "Please analyze" preview = false.

Let m : string := review_pieces question filename document_type preview.

Lemma find_ethics_question : PyStr.find "Ethics Question:" m = 21.
Proof. subst m. found. Qed.

Lemma find_document_name : PyStr.find "Document Name:" m = 80 + PyStr.len question.
Proof. subst m. found. Qed.

Lemma find_document_type :
  PyStr.find "Document Type:" m = 116 + PyStr.len question + PyStr.len filename.
Proof. subst m. found. Qed.

Lemma find_preview_marker :
  PyStr.find "Document Content Preview:" m
  = 173 + PyStr.len question + PyStr.len filename + PyStr.len document_type.
Proof. subst m. found. Qed.

Lemma find_closing :
  PyStr.find "Please analyze" m
  = 261 + PyStr.len question + PyStr.len filename + PyStr.len document_type
    + PyStr.len preview.
Proof. subst m. found. Qed.

Lemma review_question_pieces : review_question m = PyStr.strip question.
Proof.
  unfold review_question. rewrite find_ethics_question, find_document_name.
  closed_lens. pose proof (len_nonneg question).
  destruct (Z.ltb_spec (21 + 16) (80 + PyStr.len question)); [|lia].
  subst m.
  cut_at (margin +:+ "Ethics Question:") (" " +:+ question +:+ margin +:+ margin).
  by apply strip_padded.
Qed.

Lemma review_doc_name_pieces : review_doc_name m = PyStr.strip filename.
Proof.
  unfold review_doc_name. rewrite find_document_name, find_document_type.
  closed_lens. pose proof (len_nonneg question). pose proof (len_nonneg filename).
  destruct (Z.ltb_spec (80 + PyStr.len question + 14)
              (116 + PyStr.len question + PyStr.len filename)); [|lia].
  subst m.
  cut_at (margin +:+ "Ethics Question:" +:+ " " +:+ question +:+ margin +:+ margin
          +:+ "Document Name:")
         (" " +:+ filename +:+ margin).
  by apply strip_padded.
Qed.

Lemma review_marker_pieces : PyStr.contains "Document Content Preview:" m = true.
Proof.
  apply (find_from_found _ _ 0); [done|]. fold (PyStr.find "Document Content Preview:" m).
  rewrite find_preview_marker.
  pose proof (len_nonneg question). pose proof (len_nonneg filename).
  pose proof (len_nonneg document_type). lia.
Qed.

Lemma review_doc_content_pieces : review_doc_content m = PyStr.strip preview.
Proof.
  unfold review_doc_content.
  assert (PyStr.contains "Please analyze" m = true) as ->.
  { apply (find_from_found _ _ 0); [done|]. fold (PyStr.find "Please analyze" m).
    rewrite find_closing.
    pose proof (len_nonneg question). pose proof (len_nonneg filename).
    pose proof (len_nonneg document_type). pose proof (len_nonneg preview). lia. }
  rewrite find_preview_marker, find_closing. closed_lens. subst m.
  cut_at (margin +:+ "Ethics Question:" +:+ " " +:+ question +:+ margin +:+ margin
          +:+ "Document Name:" +:+ " " +:+ filename +:+ margin
          +:+ "Document Type:" +:+ " " +:+ document_type +:+ margin +:+ margin
          +:+ "Document Content Preview:")
         (margin +:+ preview +:+ margin +:+ margin).
  by apply strip_padded.
Qed.

End ReviewPieces.

Lemma review_marker_always (question filename document_type preview : string) :
  PyStr.contains "Document Content Preview:"
    (review_pieces question filename document_type preview) = true.
Proof.
  unfold review_pieces.
  replace (margin +:+ _)
    with ((margin +:+ "Ethics Question:" +:+ " " +:+ question +:+ margin +:+ margin
           +:+ "Document Name:" +:+ " " +:+ filename +:+ margin
           +:+ "Document Type:" +:+ " " +:+ document_type +:+ margin +:+ margin)
          +:+ "Document Content Preview:"
          +:+ (margin +:+ preview +:+ margin +:+ margin
               +:+ "Please analyze" +:+ review_closing))
    by (rewrite !append_assoc; reflexivity).
  apply contains_intro.
Qed.

Lemma document_type_label (question filename : string) :
  In (_determine_document_type question filename) document_type_labels.
Proof.
  unfold _determine_document_type, document_type_labels.
  repeat match goal with
         | |- context [if ?b then _ else _] => destruct b
         end; simpl; tauto.
Qed.

Lemma document_type_plain (question filename : string) :
  PyStr.contains "Document Content Preview:" (_determine_document_type question filename)
  = false
  /\ PyStr.contains "Please analyze" (_determine_document_type question filename) = false.
Proof.
  pose proof (document_type_label question filename) as H.
  unfold document_type_labels in H. simpl in H.
  destruct H as [<-|[<-|[<-|[<-|[<-|[<-|[]]]]]]]; by vm_compute.
Qed.

Lemma retry_OK (c : completion) : retry max_retries (OK c) = c.
Proof. reflexivity. Qed.

Section AgentCalls.

Variable json_loads : string -> option json.
Variable py_str : json -> string.
Variable now : string.

(** The engine on a system message and a user message that has the marker
    of a document review. *)
Lemma attempt_document_branch (system_content m : string) :
  PyStr.contains "Document Content Preview:" m = true ->
  attempt json_loads py_str now [msg "system" system_content; msg "user" m]
  = (v ← _generate_document_review
           (review_doc_content m) (review_question m) (review_doc_name m);
     mret (Review v)).
Proof.
  intros H. unfold attempt. rewrite scan_system_then_user.
  cbn [mbind result_bind]. destruct m as [|c m]; [done|]. by rewrite H.
Qed.

Variable bytes : Type.
Variable pdf_pages : bytes -> option (list string).
Variable word_paragraphs : bytes -> option (list string).

Lemma review_document_engine (content : bytes) (filename question : string)
    (v : verdict) :
  attempt json_loads py_str now
    [msg "system" review_system_prompt;
     msg "user" (review_user_prompt question filename
                   (_determine_document_type question filename)
                   (document_preview
                      (_extract_document_text bytes pdf_pages word_paragraphs
                         content filename)))]
  = OK (Review v) ->
  review_document json_loads py_str bytes pdf_pages word_paragraphs
    now content filename question
  = Reply (Review v).
Proof.
  intros H. unfold review_document, get_completion. by rewrite H.
Qed.

(** X14. [review_document] never answers with an error: whatever the file,
    its name and the question, the result is a verdict of the document
    review, with a score in [0, 100], one of the three review statuses,
    APPROVED only from 80 and NEEDS_REVISION below 60.  A file that cannot
    be read is reviewed too, on the bracketed error line put in its place. *)
Theorem review_document_always_verdict (content : bytes) (filename question : string) :
  exists v : verdict,
    review_document json_loads py_str bytes pdf_pages word_paragraphs
      now content filename question
    = Reply (Review v)
    /\ verdict_invariant v.
Proof.
  set (preview := document_preview
                    (_extract_document_text bytes pdf_pages word_paragraphs
                       content filename)).
  set (m := review_user_prompt question filename
              (_determine_document_type question filename) preview).
  destruct (document_review_invariant
              (review_doc_content m) (review_question m) (review_doc_name m))
    as (v & Hv & Hinv).
  exists v. split; [|done].
  apply review_document_engine. fold preview. fold m.
  rewrite attempt_document_branch.
  - by rewrite Hv.
  - subst m. rewrite review_user_prompt_pieces. apply review_marker_always.
Qed.

(** X15. The user message [review_document] builds is read back by the
    engine: when the question and the file name have none of the later
    markers of the message and the preview does not have "Please analyze",
    the verdict is the one [_generate_document_review] gives for the
    stripped preview, the stripped question and the stripped file name.  The
    document type written into the message plays no part. *)
Theorem review_document_reads_back (content : bytes) (filename question : string) :
  let preview :=
    document_preview
      (_extract_document_text bytes pdf_pages word_paragraphs content filename) in
  free_of ["Document Name:"; "Document Type:"; "Document Content Preview:";
           "Please analyze"] question = true ->
  free_of ["Document Type:"; "Document Content Preview:"; "Please analyze"]
    filename = true ->
  free_of ["Please analyze"] preview = true ->
  exists v : verdict,
    _generate_document_review
      (PyStr.strip preview) (PyStr.strip question) (PyStr.strip filename) = OK v
    /\ review_document json_loads py_str bytes pdf_pages word_paragraphs
         now content filename question
       = Reply (Review v).
Proof.
  intros preview Hq Hf Hp. unfold free_of in Hq, Hf, Hp. cbn [forallb] in Hq, Hf, Hp.
  repeat match goal with
         | H : _ && _ = true |- _ => apply andb_true_iff in H as [? H]
         | H : negb _ = true |- _ => apply negb_true_iff in H
         end.
  destruct (document_type_plain question filename) as [Ht1 Ht2].
  destruct (document_review_returns
              (PyStr.strip preview) (PyStr.strip question) (PyStr.strip filename))
    as [v Hv].
  exists v. split; [done|].
  apply review_document_engine. fold preview.
  rewrite review_user_prompt_pieces.
  rewrite attempt_document_branch by apply review_marker_always.
  rewrite review_doc_content_pieces, review_question_pieces, review_doc_name_pieces
    by done.
  by rewrite Hv.
Qed.

End AgentCalls.

Lemma review_document_reads_back_witness :
  exists v : verdict,
    _generate_document_review
      (PyStr.strip
         (document_preview
            (_extract_document_text unit sample_pages no_paragraphs tt "consent_form.pdf")))
      (PyStr.strip sample_question) (PyStr.strip "consent_form.pdf") = OK v
    /\ review_document loads_rejects str_blank unit sample_pages no_paragraphs
         "2026-11-03 10:00:00" tt "consent_form.pdf" sample_question
       = Reply (Review v).
Proof.
  apply (review_document_reads_back loads_rejects str_blank "2026-11-03 10:00:00"
           unit sample_pages no_paragraphs tt "consent_form.pdf" sample_question);
    vm_compute; reflexivity.
Defined.

(** ** The prompts of [BaseAgent] *)

Lemma lower_append (a b : string) :
  PyStr.lower (a +:+ b) = PyStr.lower a +:+ PyStr.lower b.
Proof.
  induction a as [|c a IH]; [done|].
  change (String (PyStr.lower_char c) (PyStr.lower (a +:+ b))
          = String (PyStr.lower_char c) (PyStr.lower a +:+ PyStr.lower b)).
  by rewrite IH.
Qed.

Lemma contains_here (p a s : string) :
  PyStr.contains p a = true -> PyStr.contains p (a +:+ s) = true.
Proof.
  intros H. destruct (contains_inv _ _ H) as (l & r & ->).
  rewrite !append_assoc. apply contains_intro.
Qed.

Lemma context_feedback_prompt_pieces (field_desc field_value : string) :
  context_feedback_prompt field_desc field_value
  = context_feedback_pieces field_desc field_value.
Proof.
  unfold context_feedback_prompt, context_feedback_pieces, PyStr.text, PyStr.join.
  change (String.concat PyStr.LF (?a :: ?b :: ?c :: ?d :: ?rest))
    with (a +:+ PyStr.LF +:+ b +:+ PyStr.LF +:+ c +:+ PyStr.LF +:+ d
          +:+ PyStr.LF +:+ String.concat PyStr.LF rest).
  fold (PyStr.join PyStr.LF). fold PyStr.text.
  unfold margin. rewrite !append_assoc. reflexivity.
Qed.

Ltac absent :=
  apply (find_from_missing _ _ 0); [done|];
  repeat find_step; by rewrite find_from_absent.

Section ContextFeedback.

Variable json_loads : string -> option json.
Variable py_str : json -> string.
Variable now : string.

Lemma context_feedback_engine (field_desc field_value : string) (c : completion) :
  PyStr.is_empty field_value = false ->
  get_completion json_loads py_str now
    [msg "system" (context_feedback_system field_desc);
     msg "user" (context_feedback_pieces field_desc field_value)] = c ->
  completion_truthy c = true -> completion_is c service_error = false ->
  forall (context : gmap string string) (field_name : string),
    describe field_descriptions field_name = field_desc ->
    context !! field_name = Some field_value ->
    get_research_context_feedback json_loads py_str now context field_name = c.
Proof.
  intros Hv Hc Ht He context field_name Hd Hl.
  unfold get_research_context_feedback. rewrite Hd, Hl. unfold default. cbn [from_option id].
  rewrite Hv, context_feedback_prompt_pieces, Hc, Ht, He. reflexivity.
Qed.

Lemma attempt_context_branch (system_content m : string) :
  PyStr.contains "Document Content Preview:" m = false ->
  PyStr.contains "research context" (PyStr.lower m) = true ->
  attempt json_loads py_str now [msg "system" system_content; msg "user" m]
  = OK (Text research_context_text).
Proof.
  intros H1 H2. unfold attempt. rewrite scan_system_then_user.
  cbn [mbind result_bind]. destruct m as [|c m]; [done|]. by rewrite H1, H2.
Qed.

Lemma attempt_fallback (system_content m : string) :
  PyStr.is_empty m = false ->
  PyStr.contains "Document Content Preview:" m = false ->
  PyStr.contains "research context" (PyStr.lower m) = false ->
  PyStr.contains "Question:" m = false ->
  is_report_request (Some system_content) m = false ->
  attempt json_loads py_str now [msg "system" system_content; msg "user" m]
  = OK (Text fallback_text).
Proof.
  intros H0 H1 H2 H3 H4. unfold attempt. rewrite scan_system_then_user.
  cbn [mbind result_bind]. destruct m as [|c m]; [done|]. by rewrite H1, H2, H3, H4.
Qed.

(** X16. Feedback on the field "context" does not depend on what was
    entered: for every non-empty value without the document-content marker,
    [get_research_context_feedback] returns the fixed research-context
    narrative. *)
Theorem context_field_feedback_fixed (context : gmap string string) (value : string) :
  context !! "context" = Some value ->
  value <> "" ->
  PyStr.contains "Document Content Preview:" value = false ->
  get_research_context_feedback json_loads py_str now context "context"
  = Text research_context_text.
Proof.
  intros Hl Hne Hv.
  apply (context_feedback_engine "research context" value); try done.
  - by destruct value.
  - unfold get_completion. rewrite attempt_context_branch; [done| |].
    + unfold context_feedback_pieces. absent.
    + unfold context_feedback_pieces.
      rewrite <- (append_assoc margin), <- (append_assoc (margin +:+ _)).
      rewrite lower_append. by apply contains_here.
Qed.

(** X17. Feedback on the title, field, description, methodology,
    participants and timeline is the engine's fallback sentence: for every
    non-empty value without the document-content marker, without
    "Question:" and without the words "research context",
    [get_research_context_feedback] returns the same text. *)
Theorem plain_field_feedback_fallback (context : gmap string string)
    (field_name value : string) :
  In field_name plain_fields ->
  context !! field_name = Some value ->
  value <> "" ->
  free_of ["Document Content Preview:"; "Question:"] value = true ->
  PyStr.contains "research context" (PyStr.lower value) = false ->
  get_research_context_feedback json_loads py_str now context field_name
  = Text fallback_text.
Proof.
  intros Hin Hl Hne Hfree Hlow.
  unfold free_of in Hfree. cbn [forallb] in Hfree.
  apply andb_true_iff in Hfree as [Hp Hq]. apply andb_true_iff in Hq as [Hq _].
  apply negb_true_iff in Hp, Hq.
  assert (PyStr.is_empty value = false) as Hv by by destruct value.
  unfold plain_fields in Hin. simpl in Hin.
  destruct Hin as [<-|[<-|[<-|[<-|[<-|[<-|[]]]]]]];
    (eapply context_feedback_engine; [exact Hv| |done|done|reflexivity|exact Hl]);
    unfold get_completion;
    (rewrite attempt_fallback; [done| | | | |]);
    try (unfold context_feedback_pieces; absent);
    try reflexivity.
  all: unfold context_feedback_pieces; rewrite !lower_append; absent.
Qed.

End ContextFeedback.

Lemma plain_field_feedback_fallback_witness :
  get_research_context_feedback loads_rejects str_blank "2026-11-03 10:00:00"
    sample_context "title"
  = Text fallback_text.
Proof.
  apply (plain_field_feedback_fallback loads_rejects str_blank "2026-11-03 10:00:00"
           sample_context "title" "Sleep and study");
    [simpl; tauto | vm_compute; reflexivity | discriminate
     | vm_compute; reflexivity | vm_compute; reflexivity].
Defined.

Lemma context_field_feedback_fixed_witness :
  get_research_context_feedback loads_rejects str_blank "2026-11-03 10:00:00"
    sample_context "context"
  = Text research_context_text.
Proof.
  apply (context_field_feedback_fixed loads_rejects str_blank "2026-11-03 10:00:00"
           sample_context "A survey of sleep habits among students.");
    [vm_compute; reflexivity | discriminate | vm_compute; reflexivity].
Defined.

Lemma ethics_review_prompt_pieces (context : string) :
  ethics_review_prompt context = ethics_review_pieces context.
Proof.
  unfold ethics_review_prompt, ethics_review_pieces, PyStr.text, PyStr.join.
  change (String.concat PyStr.LF (?a :: ?b :: ?c :: ?rest))
    with (a +:+ PyStr.LF +:+ b +:+ PyStr.LF +:+ c
          +:+ PyStr.LF +:+ String.concat PyStr.LF rest).
  fold (PyStr.join PyStr.LF). fold PyStr.text.
  rewrite !append_assoc. reflexivity.
Qed.

Section ResearchContext.

Variable json_loads : string -> option json.
Variable py_str : json -> string.
Variable now : string.
Variable dict_str : gmap string string -> string.

(** X18. [analyze_research_context] with the default prompt returns the
    fixed research-context narrative for every context whose text does not
    have the document-content marker: the template itself carries the words
    the engine looks for. *)
Theorem research_context_analysis_fixed (context : gmap string string)
    (custom_prompt : option string) :
  str_truthy custom_prompt = false ->
  PyStr.contains "Document Content Preview:" (dict_str context) = false ->
  analyze_research_context json_loads py_str dict_str now context custom_prompt
  = Text research_context_text.
Proof.
  intros Hp Hc.
  assert (get_completion json_loads py_str now
            [msg "system" ethics_review_system;
             msg "user" (ethics_review_prompt (dict_str context))]
          = Text research_context_text) as H.
  { unfold get_completion. rewrite ethics_review_prompt_pieces.
    rewrite attempt_context_branch; [done| |].
    - unfold ethics_review_pieces. absent.
    - unfold ethics_review_pieces. rewrite lower_append. by apply contains_here. }
  unfold analyze_research_context.
  destruct custom_prompt as [[|c p]|]; [|done|]; cbn [PyStr.is_empty]; by rewrite H.
Qed.

End ResearchContext.

Lemma research_context_analysis_fixed_witness :
  analyze_research_context loads_rejects str_blank sample_dict_str
    "2026-11-03 10:00:00" sample_context None
  = Text research_context_text.
Proof.
  apply (research_context_analysis_fixed loads_rejects str_blank "2026-11-03 10:00:00"
           sample_dict_str sample_context None);
    vm_compute; reflexivity.
Defined.

(** ** The question feedback built by [BaseAgent] *)

Lemma find_from_bound (p a s : string) (i : Z) :
  i <= PyStr.find_from p (a +:+ p +:+ s) i <= i + PyStr.len a.
Proof.
  revert i. induction a as [|c a IH]; intros i.
  - change (EmptyString +:+ p +:+ s) with (p +:+ s).
    assert (PyStr.find_from p (p +:+ s) i = i) as ->.
    { pose proof (prefix_append p s) as H.
      destruct (p +:+ s); cbn [PyStr.find_from]; by rewrite H. }
    change (PyStr.len EmptyString) with 0. lia.
  - change (String c a +:+ p +:+ s) with (String c (a +:+ p +:+ s)).
    cbn [PyStr.find_from]. rewrite len_cons. pose proof (len_nonneg a).
    destruct (String.prefix p _); [lia|]. specialize (IH (i + 1)). lia.
Qed.

Lemma substring_suffix (x y : string) (n : nat) :
  (n <= String.length x)%nat ->
  String.substring n (String.length x + String.length y - n) (x +:+ y)
  = String.substring n (String.length x - n) x +:+ y.
Proof.
  revert n. induction x as [|c x IH]; intros n Hn.
  - simpl in Hn. assert (n = 0%nat) as -> by lia.
    change (String.substring 0 (String.length y - 0) y = y).
    rewrite Nat.sub_0_r. clear. induction y as [|d y IH]; [done|].
    simpl. by rewrite IH.
  - destruct n as [|n].
    + change (String.substring 0 (S (String.length x) + String.length y - 0)
                (String c (x +:+ y))
              = String.substring 0 (S (String.length x) - 0) (String c x) +:+ y).
      rewrite !Nat.sub_0_r. specialize (IH 0%nat ltac:(lia)).
      rewrite !Nat.sub_0_r in IH.
      change (String c (String.substring 0 (String.length x + String.length y) (x +:+ y))
              = String c (String.substring 0 (String.length x) x +:+ y)).
      by rewrite IH.
    + simpl in Hn. apply (IH n). lia.
Qed.

Lemma length_append (a b : string) :
  String.length (a +:+ b) = (String.length a + String.length b)%nat.
Proof. induction a as [|c a IH]; [done|]. simpl. by rewrite IH. Qed.

(** A slice that runs to the end keeps what follows the part it starts in. *)
Lemma slice_suffix (x y : string) (a : Z) :
  0 <= a <= PyStr.len x ->
  exists z, PyStr.slice (x +:+ y) a (PyStr.len (x +:+ y)) = z +:+ y.
Proof.
  intros Ha. exists (String.substring (Z.to_nat a) (String.length x - Z.to_nat a) x).
  unfold PyStr.slice, PyStr.clamp_index.
  pose proof (len_nonneg y). rewrite len_append.
  destruct (Z.ltb_spec a 0); [lia|].
  destruct (Z.ltb_spec (PyStr.len x + PyStr.len y) 0); [lia|].
  rewrite !Z.min_l by lia. unfold PyStr.len in *.
  replace (Z.to_nat (Z.of_nat (String.length x) + Z.of_nat (String.length y) - a))
    with (String.length x + String.length y - Z.to_nat a)%nat by lia.
  apply substring_suffix. lia.
Qed.

Lemma lstrip_keeps (z k : string) :
  solid k = true -> exists z', PyStr.lstrip (z +:+ k) = z' +:+ k.
Proof.
  intros Hk. induction z as [|d z IH].
  - exists EmptyString. destruct k as [|c k]; [done|].
    simpl in Hk. apply andb_true_iff in Hk as [Hc _]. apply negb_true_iff in Hc.
    change (PyStr.lstrip (String c k) = String c k). cbn [PyStr.lstrip]. by rewrite Hc.
  - change (exists z', PyStr.lstrip (String d (z +:+ k)) = z' +:+ k).
    cbn [PyStr.lstrip]. destruct (PyStr.is_space d); [exact IH|].
    by exists (String d z).
Qed.

Lemma rstrip_keeps (z k : string) :
  solid k = true -> PyStr.rstrip (z +:+ k) = z +:+ k.
Proof.
  intros Hk. destruct k as [|c k]; [done|].
  simpl in Hk. apply andb_true_iff in Hk as [_ Hk]. apply String.eqb_eq in Hk.
  induction z as [|d z IH]; [exact Hk|].
  change (PyStr.rstrip (String d (z +:+ String c k)) = String d (z +:+ String c k)).
  cbn [PyStr.rstrip]. rewrite IH. by destruct z.
Qed.

Lemma strip_keeps (z k w : string) :
  solid k = true -> blank w = true ->
  exists z', PyStr.strip (z +:+ k +:+ w) = z' +:+ k.
Proof.
  intros Hk Hw. unfold PyStr.strip. rewrite <- append_assoc.
  rewrite lstrip_rstrip_blank by done.
  destruct (lstrip_keeps z k Hk) as [z' ->]. exists z'. by apply rstrip_keeps.
Qed.

Lemma append_empty (s : string) : s +:+ EmptyString = s.
Proof.
  induction s as [|c s IH]; [done|].
  change (String c (s +:+ EmptyString) = String c s). by rewrite IH.
Qed.

Lemma upper_append (a b : string) :
  PyStr.upper (a +:+ b) = PyStr.upper a +:+ PyStr.upper b.
Proof.
  induction a as [|c a IH]; [done|].
  change (String (PyStr.upper_char c) (PyStr.upper (a +:+ b))
          = String (PyStr.upper_char c) (PyStr.upper a +:+ PyStr.upper b)).
  by rewrite IH.
Qed.

Lemma eqb_longer (z k t : string) :
  (String.length t < String.length k)%nat -> String.eqb (z +:+ k) t = false.
Proof.
  intros H. apply String.eqb_neq. intros E.
  apply (f_equal String.length) in E. rewrite length_append in E. lia.
Qed.

(** The response the engine reads from a message that ends with a solid
    sentence and has no "Document Name:" is never YES. *)
Lemma response_not_yes (k w before after : string) :
  solid k = true -> solid (PyStr.upper k) = true -> blank w = true ->
  (3 < String.length (PyStr.upper k))%nat ->
  let m := before +:+ "Response:" +:+ after +:+ k +:+ w in
  String.eqb
    (PyStr.strip
       (PyStr.upper
          (PyStr.strip
             (PyStr.slice m (PyStr.find "Response:" m + PyStr.len "Response:")
                (PyStr.len m)))))
    "YES" = false.
Proof.
  intros Hk Hupper Hw Hlen m.
  pose proof (find_from_bound "Response:" before (after +:+ k +:+ w) 0) as Hj.
  destruct (slice_suffix (before +:+ "Response:") (after +:+ k +:+ w)
              (PyStr.find "Response:" m + PyStr.len "Response:")) as [z Hz].
  { rewrite len_append. unfold PyStr.find in *. subst m.
    pose proof (len_nonneg "Response:"). lia. }
  rewrite append_assoc in Hz. fold m in Hz. rewrite Hz.
  rewrite <- (append_assoc z after).
  destruct (strip_keeps (z +:+ after) k w) as [z1 ->]; [done..|].
  rewrite upper_append, <- (append_empty (PyStr.upper k)).
  destruct (strip_keeps (PyStr.upper z1) (PyStr.upper k) EmptyString)
    as [z2 ->]; [done..|].
  by apply eqb_longer.
Qed.

Lemma question_feedback_user_pieces (question response lines : string) :
  question_feedback_head question response +:+ lines +:+ question_feedback_closing
  = question_feedback_pieces question response lines.
Proof.
  unfold question_feedback_head, question_feedback_pieces, PyStr.text, PyStr.join.
  change question_feedback_closing
    with (closing_lead +:+ PyStr.LF +:+ indent16 +:+ closing_sentence +:+ closing_trail).
  cbn [String.concat].
  change "Question: " with ("Question:" +:+ " ").
  change "Response: " with ("Response:" +:+ " ").
  rewrite !append_assoc. reflexivity.
Qed.

Lemma question_feedback_no_name (question response lines : string) :
  PyStr.contains "Document Name:" question = false ->
  PyStr.contains "Document Name:" response = false ->
  PyStr.contains "Document Name:" lines = false ->
  PyStr.contains "Document Name:" (question_feedback_pieces question response lines)
  = false.
Proof.
  intros Hq Hr Hl. unfold question_feedback_pieces. rewrite !append_assoc. absent.
Qed.

Lemma question_feedback_not_affirmative (question response : string) :
  String.eqb (PyStr.strip (PyStr.upper response)) "YES" = false ->
  affirmative (_generate_question_feedback question response) = false.
Proof.
  intros H. unfold _generate_question_feedback. rewrite H.
  destruct (PyStr.contains "human participants" _); [by vm_compute|].
  destruct (PyStr.contains "personal data" _); [by vm_compute|].
  destruct (_ && _); reflexivity.
Qed.

Lemma report_not_affirmative (py_str : json -> string) (now : string) (reviews : json)
    (c : completion) :
  _generate_review_report py_str now reviews = OK c -> affirmative c = false.
Proof.
  unfold _generate_review_report.
  destruct (if PyVal.truthy reviews then _ else _); cbn [mbind result_bind];
    [by intros [= <-] | done].
Qed.

Section QuestionFeedback.

Variable json_loads : string -> option json.
Variable py_str : json -> string.
Variable now : string.

Lemma attempt_not_affirmative (system_content m k w before after : string)
    (c : completion) :
  solid k = true -> solid (PyStr.upper k) = true -> blank w = true ->
  (3 < String.length (PyStr.upper k))%nat ->
  m = before +:+ "Response:" +:+ after +:+ k +:+ w ->
  PyStr.contains "Document Name:" m = false ->
  attempt json_loads py_str now [msg "system" system_content; msg "user" m] = OK c ->
  affirmative c = false.
Proof.
  intros Hk Hupper Hw Hlen Hm Hname. unfold attempt. rewrite scan_system_then_user.
  cbn [mbind result_bind].
  pose proof (response_not_yes k w before after Hk Hupper Hw Hlen) as Hyes.
  cbv zeta in Hyes. rewrite <- Hm in Hyes. clear Hm.
  destruct m as [|c0 m0]; [by intros [= <-]|].
  set (m := String c0 m0) in *.
  destruct (PyStr.contains "Document Content Preview:" m).
  { destruct (_generate_document_review _ _ _); cbn; [by intros [= <-] | done]. }
  destruct (PyStr.contains "research context" _); [intros [= <-]; by vm_compute|].
  destruct (_ && _).
  { rewrite Hname. intros [= <-]. by apply question_feedback_not_affirmative. }
  destruct (is_report_request _ _); [apply report_not_affirmative|].
  intros [= <-]. by vm_compute.
Qed.

Lemma engine_not_affirmative (system_content m k w before after : string) :
  solid k = true -> solid (PyStr.upper k) = true -> blank w = true ->
  (3 < String.length (PyStr.upper k))%nat ->
  m = before +:+ "Response:" +:+ after +:+ k +:+ w ->
  PyStr.contains "Document Name:" m = false ->
  affirmative
    (get_completion json_loads py_str now
       [msg "system" system_content; msg "user" m]) = false.
Proof.
  intros Hk Hupper Hw Hlen Hm Hname. unfold get_completion.
  destruct (attempt json_loads py_str now _) as [c|e] eqn:Hc; [|reflexivity].
  rewrite retry_OK.
  by apply (attempt_not_affirmative system_content m k w before after).
Qed.

Variable bytes : Type.
Variable pdf_pages : bytes -> option (list string).
Variable word_paragraphs : bytes -> option (list string).
Variable decode_utf8 : bytes -> option string.

(** X19. With the prompt [BaseAgent.get_question_feedback] builds itself,
    the feedback texts reserved for the answer YES are never returned: the
    closing instructions follow the response, so the engine never reads it
    as YES.  This holds for every question, response and document whose
    lines do not have "Document Name:". *)
Theorem yes_feedback_unreachable (question response : string)
    (document : option (document_info bytes)) (prompt : option string) :
  str_truthy prompt = false ->
  PyStr.contains "Document Name:" question = false ->
  PyStr.contains "Document Name:" response = false ->
  PyStr.contains "Document Name:" (document_lines bytes decode_utf8 document) = false ->
  affirmative
    (get_question_feedback json_loads py_str bytes decode_utf8
       now question response document prompt)
  = false.
Proof.
  intros Hp Hq Hr Hl. unfold get_question_feedback. rewrite Hp.
  rewrite question_feedback_user_pieces.
  set (m := question_feedback_pieces question response
              (document_lines bytes decode_utf8 document)).
  assert (affirmative
            (get_completion json_loads py_str now
               [msg "system" question_feedback_system; msg "user" m]) = false) as H.
  { eapply (engine_not_affirmative question_feedback_system m
              closing_sentence closing_trail);
      [reflexivity | reflexivity | reflexivity | vm_compute; lia | reflexivity |].
    by apply question_feedback_no_name. }
  destruct (_ || _); [reflexivity | exact H].
Qed.

(** *** The prompt of [app.py] *)

Lemma contains_after (p a s : string) :
  PyStr.contains p s = true -> PyStr.contains p (a +:+ s) = true.
Proof.
  intros H. destruct (contains_inv _ _ H) as (l & r & ->).
  rewrite <- append_assoc. apply contains_intro.
Qed.

Lemma feedback_prompt_plain (question_text response_answer : string)
    (document : option (document_info bytes)) :
  document_has_content document = false ->
  feedback_prompt bytes pdf_pages word_paragraphs decode_utf8
    question_text response_answer document
  = plain_feedback_pieces question_text response_answer
      (if document_truthy document
       then with_document_sentence else without_document_sentence).
Proof.
  intros H. unfold feedback_prompt, plain_feedback_pieces.
  assert (attachment_lines bytes pdf_pages word_paragraphs decode_utf8 document
          = EmptyString) as ->.
  { destruct document as [d|]; [|done]. unfold attachment_lines.
    simpl in H. apply bool_decide_eq_false in H.
    destruct (doc_content d); [|done]. destruct H. eauto. }
  change "Question: " with ("Question:" +:+ " ").
  change "Response: " with ("Response:" +:+ " ").
  rewrite append_empty. rewrite !append_assoc. reflexivity.
Qed.

Lemma plain_feedback_no_name (question_text response_answer sentence : string) :
  In sentence [with_document_sentence; without_document_sentence] ->
  PyStr.contains "Document Name:" question_text = false ->
  PyStr.contains "Document Name:" response_answer = false ->
  PyStr.contains "Document Name:"
    (plain_feedback_pieces question_text response_answer sentence) = false.
Proof.
  intros Hs Hq Hr. unfold plain_feedback_pieces. rewrite !append_assoc.
  destruct Hs as [<-|[<-|[]]]; absent.
Qed.

Lemma app_passes_on (c : completion) :
  affirmative c = false ->
  affirmative
    match c with
    | ErrorObject status message =>
        if String.eqb status "ERROR"
        then Text ("Unable to generate feedback: " +:+ message) else c
    | Review v =>
        if String.eqb (status v) "ERROR"
        then Text ("Unable to generate feedback: " +:+ "AI service error") else c
    | Report status _ _ =>
        if String.eqb status "ERROR"
        then Text ("Unable to generate feedback: " +:+ "AI service error") else c
    | Text _ => c
    end = false.
Proof.
  intros H. destruct c as [s|v|st m|st r t]; [done| | |];
    destruct (String.eqb _ "ERROR"); reflexivity.
Qed.

(** X20. The same for the prompt of [app.py]: when no document content is
    attached, [get_question_feedback] never returns the feedback texts
    reserved for the answer YES, for every question and answer without
    "Document Name:". *)
Theorem app_yes_feedback_unreachable (question_text response_answer : string)
    (document : option (document_info bytes)) :
  document_has_content document = false ->
  PyStr.contains "Document Name:" question_text = false ->
  PyStr.contains "Document Name:" response_answer = false ->
  affirmative
    (app_get_question_feedback json_loads py_str bytes pdf_pages word_paragraphs
       decode_utf8 now question_text response_answer document)
  = false.
Proof.
  intros Hd Hq Hr. unfold app_get_question_feedback. apply app_passes_on.
  unfold get_question_feedback. rewrite feedback_prompt_plain by done.
  set (sentence := if document_truthy document then _ else _).
  assert (In sentence [with_document_sentence; without_document_sentence]) as Hs.
  { subst sentence. destruct (document_truthy document); simpl; tauto. }
  set (m := plain_feedback_pieces question_text response_answer sentence).
  assert (str_truthy (Some m) = true) as -> by reflexivity.
  cbn [default from_option id].
  assert (affirmative
            (get_completion json_loads py_str now
               [msg "system" custom_prompt_system; msg "user" m]) = false) as H.
  { eapply (engine_not_affirmative custom_prompt_system m
              unique_feedback_sentence EmptyString);
      [reflexivity | reflexivity | reflexivity | vm_compute; lia | reflexivity |].
    by apply plain_feedback_no_name. }
  unfold default. cbn [from_option id].
  destruct (_ || _); [reflexivity | exact H].
Qed.

(** X21. With document content attached, [get_question_feedback] of
    [app.py] returns a verdict of the document review instead of feedback
    on the answer, whatever the question, the answer and the document. *)
Theorem app_attached_document_is_reviewed (question_text response_answer : string)
    (document : option (document_info bytes)) :
  document_has_content document = true ->
  exists v : verdict,
    app_get_question_feedback json_loads py_str bytes pdf_pages word_paragraphs
      decode_utf8 now question_text response_answer document
    = Review v
    /\ verdict_invariant v.
Proof.
  intros Hd.
  set (m := feedback_prompt bytes pdf_pages word_paragraphs decode_utf8
              question_text response_answer document).
  assert (PyStr.contains "Document Content Preview:" m = true) as Hm.
  { subst m. unfold feedback_prompt. apply contains_after, contains_here.
    destruct document as [d|]; [|done]. unfold attachment_lines.
    simpl in Hd. apply bool_decide_eq_true in Hd.
    destruct (doc_content d) as [content|]; [|by destruct Hd].
    apply contains_after, contains_after, contains_here, contains_here.
    apply contains_prefix. reflexivity. }
  destruct (document_review_invariant
              (review_doc_content m) (review_question m) (review_doc_name m))
    as (v & Hv & Hinv).
  exists v. split; [|done].
  unfold app_get_question_feedback, get_question_feedback. fold m.
  assert (str_truthy (Some m) = true) as ->.
  { destruct m; [done|reflexivity]. }
  unfold default. cbn [from_option id].
  unfold get_completion. rewrite attempt_document_branch by done.
  rewrite Hv. cbn [mbind result_bind mret result_ret]. rewrite retry_OK.
  cbn [completion_truthy completion_is negb orb].
  destruct Hinv as (_ & Hstatus & _). simpl in Hstatus.
  destruct Hstatus as [<-|[<-|[<-|[]]]]; reflexivity.
Qed.

End QuestionFeedback.

Lemma app_attached_document_is_reviewed_witness :
  exists v : verdict,
    app_get_question_feedback loads_rejects str_blank unit sample_pages no_paragraphs
      decode_sample "2026-11-03 10:00:00" human_participants_question "YES"
      (Some sample_document)
    = Review v
    /\ verdict_invariant v.
Proof.
  apply (app_attached_document_is_reviewed loads_rejects str_blank
           "2026-11-03 10:00:00" unit sample_pages no_paragraphs decode_sample
           human_participants_question "YES" (Some sample_document)).
  vm_compute. reflexivity.
Defined.

Lemma app_yes_feedback_unreachable_witness :
  affirmative
    (app_get_question_feedback loads_rejects str_blank unit sample_pages no_paragraphs
       decode_sample "2026-11-03 10:00:00" human_participants_question "YES" None)
  = false.
Proof.
  apply (app_yes_feedback_unreachable loads_rejects str_blank "2026-11-03 10:00:00"
           unit sample_pages no_paragraphs decode_sample
           human_participants_question "YES" None);
    vm_compute; reflexivity.
Defined.

Lemma yes_feedback_unreachable_witness :
  affirmative
    (get_question_feedback loads_rejects str_blank unit decode_sample
       "2026-11-03 10:00:00" human_participants_question "YES" None None)
  = false.
Proof.
  apply (yes_feedback_unreachable loads_rejects str_blank "2026-11-03 10:00:00"
           unit decode_sample human_participants_question "YES" None None);
    vm_compute; reflexivity.
Defined.


(** * Properties of the checklist functions *)

Lemma validate_user_prompt_pieces (responses_text documents_text : string) :
  validate_user_prompt responses_text documents_text
  = validate_pieces responses_text documents_text.
Proof.
  unfold validate_user_prompt, validate_pieces, PyStr.text, PyStr.join.
  rewrite concat_app by done. fold (PyStr.join PyStr.LF validate_instructions).
  fold (PyStr.text validate_instructions). fold validate_closing.
  cbn [String.concat]. unfold margin. rewrite !append_assoc. reflexivity.
Qed.

Lemma process_user_prompt_pieces (research_json questions_json : string) :
  process_user_prompt research_json questions_json
  = process_pieces research_json questions_json.
Proof.
  unfold process_user_prompt, process_pieces, PyStr.text, PyStr.join.
  rewrite concat_app by done. fold (PyStr.join PyStr.LF process_instructions).
  fold (PyStr.text process_instructions). fold process_closing.
  cbn [String.concat]. unfold margin. rewrite !append_assoc. reflexivity.
Qed.

Section Checklist.

Variable json_loads : string -> option json.
Variable py_str : json -> string.
Variable now : string.
Variable dict_str : gmap string string -> string.
Variable keys_str : list string -> string.
Variable json_dumps : json -> string.
Variable checklist_paragraphs : option (list string).

(** X22. [validate_checklist] answers with the engine's fallback sentence
    whatever the responses and the uploaded documents, as long as their
    texts have neither the document-content marker, nor "Question:", nor
    the words "research context". *)
Theorem validate_checklist_fallback (responses : gmap string string)
    (documents : option (list string)) :
  free_of ["Document Content Preview:"; "Question:"] (dict_str responses) = true ->
  free_of ["Document Content Preview:"; "Question:"]
    (documents_text keys_str documents) = true ->
  PyStr.contains "research context" (PyStr.lower (dict_str responses)) = false ->
  PyStr.contains "research context"
    (PyStr.lower (documents_text keys_str documents)) = false ->
  validate_checklist json_loads py_str dict_str keys_str now responses documents
  = Text fallback_text.
Proof.
  intros Hr Hd Hrl Hdl. unfold free_of in Hr, Hd. cbn [forallb] in Hr, Hd.
  repeat match goal with
         | H : _ && _ = true |- _ => apply andb_true_iff in H as [? H]
         | H : negb _ = true |- _ => apply negb_true_iff in H
         end.
  unfold validate_checklist, get_completion.
  rewrite validate_user_prompt_pieces.
  rewrite attempt_fallback; [done|reflexivity| | | |reflexivity].
  - unfold validate_pieces. absent.
  - unfold validate_pieces. rewrite !lower_append. absent.
  - unfold validate_pieces. absent.
Qed.

Lemma contains_middle (p a v b : string) :
  PyStr.contains p v = true -> PyStr.contains p (a +:+ v +:+ b) = true.
Proof. intros H. by apply contains_after, contains_here. Qed.

Lemma process_marker (research_json questions_json : string) :
  PyStr.contains "Document Content Preview:" (process_pieces research_json questions_json)
  = PyStr.contains "Document Content Preview:" research_json
    || PyStr.contains "Document Content Preview:" questions_json.
Proof.
  destruct (PyStr.contains _ research_json) eqn:Hr.
  { unfold process_pieces. by apply contains_middle. }
  destruct (PyStr.contains _ questions_json) eqn:Hq.
  { unfold process_pieces.
    replace (_ +:+ _)
      with (((margin +:+ "Research Context:" +:+ margin)
             +:+ research_json +:+ margin +:+ margin +:+ "Ethics Questions:" +:+ margin)
            +:+ questions_json +:+ PyStr.LF +:+ process_closing)
      by (rewrite !append_assoc; reflexivity).
    by apply contains_middle. }
  unfold process_pieces. rewrite !append_assoc. absent.
Qed.

(** X23. [process_research_context] does not depend on the research data
    or on the checklist, beyond one test: when their JSON texts carry the
    document-content marker the result is an empty questionnaire with
    status COMPLETED, and otherwise it is what [_format_questions] makes of
    the fixed research-context narrative. *)
Theorem process_research_context_fixed (research_data : json) :
  process_research_context json_loads py_str json_dumps checklist_paragraphs
    now research_data
  = if PyStr.contains "Document Content Preview:" (json_dumps research_data)
       || PyStr.contains "Document Content Preview:"
            (json_dumps (JList (map JStr (load_ethics_checklist checklist_paragraphs))))
    then Questions [] []
    else _format_questions json_loads (Text research_context_text).
Proof.
  unfold process_research_context, get_completion.
  rewrite process_user_prompt_pieces.
  set (m := process_pieces _ _). rewrite <- process_marker. fold m.
  destruct (PyStr.contains "Document Content Preview:" m) eqn:Hm.
  - rewrite attempt_document_branch by done.
    destruct (document_review_returns
                (review_doc_content m) (review_question m) (review_doc_name m))
      as [v ->].
    reflexivity.
  - rewrite attempt_context_branch; [reflexivity | done |].
    subst m. unfold process_pieces. rewrite lower_append. by apply contains_here.
Qed.

End Checklist.

Lemma validate_checklist_fallback_witness :
  validate_checklist loads_rejects str_blank sample_dict_str sample_keys_str
    "2026-11-03 10:00:00" sample_responses (Some ["A1"])
  = Text fallback_text.
Proof.
  apply (validate_checklist_fallback loads_rejects str_blank "2026-11-03 10:00:00"
           sample_dict_str sample_keys_str sample_responses (Some ["A1"]));
    vm_compute; reflexivity.
Defined.

(** ** The questionnaire *)

Lemma comprehend_mandatory (i : nat) (ms : list json) :
  Forall (fun q => is_Some (entry_question q)) ms ->
  exists mandatory : list formatted_question,
    comprehend (fun i q => x ← format_mandatory i q; mret (Some x)) i ms = OK mandatory
    /\ map (fun x => Some (fq_question x)) mandatory = map entry_question ms
    /\ Forall (fun x => fq_is_core x = true /\ fq_options x = ["YES"; "NO"]) mandatory.
Proof.
  revert i. induction ms as [|q ms IH]; intros i H.
  - exists []. by repeat split.
  - apply Forall_cons in H as [[question Hq] H].
    destruct (IH (S i) H) as (others & Hothers & Htexts & Hcore).
    destruct q as [| | | | | |d]; try done. simpl in Hq.
    cbn [comprehend format_mandatory]. rewrite Hq. cbn [mbind result_bind mret result_ret].
    rewrite Hothers. cbn [mbind result_bind mret result_ret].
    eexists. split; [reflexivity|]. split.
    + cbn [map fq_question entry_question]. by rewrite Hq, Htexts.
    + by constructor.
Qed.

Lemma comprehend_field_specific (i : nat) (fs : list json) :
  Forall (fun q => is_Some (entry_question q)) fs ->
  exists field_specific : list formatted_question,
    comprehend format_field_specific i fs = OK field_specific
    /\ map (fun x => Some (fq_question x)) field_specific
       = map entry_question (List.filter entry_relevant fs)
    /\ Forall (fun x => fq_is_core x = false /\ fq_options x = ["YES"; "NO"; "N/A"])
              field_specific.
Proof.
  revert i. induction fs as [|q fs IH]; intros i H.
  - exists []. by repeat split.
  - apply Forall_cons in H as [[question Hq] H].
    destruct (IH (S i) H) as (others & Hothers & Htexts & Hcore).
    destruct q as [| | | | | |d]; try done. simpl in Hq.
    cbn [comprehend format_field_specific List.filter entry_relevant].
    destruct (PyVal.truthy _).
    + rewrite Hq. cbn [mbind result_bind mret result_ret].
      rewrite Hothers. cbn [mbind result_bind mret result_ret].
      eexists. split; [reflexivity|]. split.
      * cbn [map fq_question entry_question]. by rewrite Hq, Htexts.
      * by constructor.
    + cbn [mbind result_bind mret result_ret].
      rewrite Hothers. cbn [mbind result_bind mret result_ret].
      by exists others.
Qed.

(** X24. On an analysis whose entries all have a question text,
    [_format_questions] keeps every mandatory question and exactly the
    field-specific questions that are relevant, in their order and with
    their texts; the mandatory ones are core questions with the options YES
    and NO, the others are not core and have the options YES, NO and N/A. *)
Theorem format_keeps_questions (d : list (string * json)) (ms fs : list json) :
  PyVal.get d "mandatory" (JList []) = JList ms ->
  PyVal.get d "field_specific" (JList []) = JList fs ->
  Forall (fun q => is_Some (entry_question q)) (ms ++ fs) ->
  exists mandatory field_specific : list formatted_question,
    format_analysis (JDict d) = OK (mandatory, field_specific)
    /\ map (fun x => Some (fq_question x)) mandatory = map entry_question ms
    /\ map (fun x => Some (fq_question x)) field_specific
       = map entry_question (List.filter entry_relevant fs)
    /\ Forall (fun x => fq_is_core x = true /\ fq_options x = ["YES"; "NO"]) mandatory
    /\ Forall (fun x => fq_is_core x = false /\ fq_options x = ["YES"; "NO"; "N/A"])
              field_specific.
Proof.
  intros Hm Hf H. apply Forall_app in H as [Hms Hfs].
  destruct (comprehend_mandatory 0 ms Hms) as (mandatory & Hmandatory & ? & ?).
  destruct (comprehend_field_specific 0 fs Hfs) as (field_specific & Hfield & ? & ?).
  exists mandatory, field_specific. split; [|done].
  unfold format_analysis. rewrite Hm, Hf. cbn [PyVal.iterate mbind result_bind].
  rewrite Hmandatory. cbn [mbind result_bind]. by rewrite Hfield.
Qed.

Lemma format_keeps_questions_witness :
  exists mandatory field_specific : list formatted_question,
    format_analysis (JDict sample_analysis) = OK (mandatory, field_specific)
    /\ map (fun x => Some (fq_question x)) mandatory
       = map entry_question [JDict [("question", JStr "Does the study involve people?")]]
    /\ map (fun x => Some (fq_question x)) field_specific
       = map entry_question
           (List.filter entry_relevant
              [JDict [("id", JStr "f1"); ("question", JStr "Is tissue collected?")];
               JDict [("question", JStr "Are animals used?"); ("relevant", JBool false)]])
    /\ Forall (fun x => fq_is_core x = true /\ fq_options x = ["YES"; "NO"]) mandatory
    /\ Forall (fun x => fq_is_core x = false /\ fq_options x = ["YES"; "NO"; "N/A"])
              field_specific.
Proof.
  apply (format_keeps_questions sample_analysis);
    [reflexivity | reflexivity | repeat constructor; vm_compute; eauto].
Defined.

Lemma comprehend_fails {A : Type} (item : nat -> json -> result (option A))
    (i : nat) (l : list json) (q : json) :
  In q l -> (forall j, exists e, item j q = Raise e) ->
  exists e, comprehend item i l = Raise e.
Proof.
  revert i. induction l as [|q' l IH]; intros i Hin Hq; [done|].
  cbn [comprehend]. destruct Hin as [->|Hin].
  - destruct (Hq i) as [e ->]. by exists e.
  - destruct (item i q') as [x|e]; [|by exists e].
    cbn [mbind result_bind]. destruct (IH (S i) Hin Hq) as [e ->]. by exists e.
Qed.

(** X25. The questionnaire is all or nothing: one mandatory entry without
    a question text makes [_format_questions] fail as a whole, whatever the
    other entries are. *)
Theorem format_all_or_nothing (d : list (string * json)) (ms : list json) (q : json) :
  PyVal.get d "mandatory" (JList []) = JList ms ->
  In q ms -> entry_question q = None ->
  exists e : exn, format_analysis (JDict d) = Raise e.
Proof.
  intros Hm Hin Hq. unfold format_analysis. rewrite Hm.
  cbn [PyVal.iterate mbind result_bind].
  destruct (comprehend_fails
              (fun i q => x ← format_mandatory i q; mret (Some x)) 0 ms q Hin)
    as [e ->]; [|by exists e].
  intros j. destruct q as [| | | | | |entry]; try by exists AttributeError.
  simpl in Hq. cbn [format_mandatory]. rewrite Hq. by exists KeyError.
Qed.

Lemma format_all_or_nothing_witness :
  exists e : exn, format_analysis (JDict broken_analysis) = Raise e.
Proof.
  apply (format_all_or_nothing broken_analysis
           [JDict [("question", JStr "Does the study involve people?")];
            JDict [("id", JStr "m2")]]
           (JDict [("id", JStr "m2")]));
    [reflexivity | simpl; tauto | reflexivity].
Defined.


(** * Properties of the report of the agent *)

Lemma question_feedback_no_error_value (question response : string) :
  error_value (_generate_question_feedback question response) = false.
Proof.
  unfold _generate_question_feedback.
  destruct (PyStr.contains "human participants" _).
  { destruct (String.eqb _ "YES"); by vm_compute. }
  destruct (PyStr.contains "personal data" _).
  { destruct (String.eqb _ "YES"); by vm_compute. }
  destruct (_ && _); reflexivity.
Qed.

Lemma report_no_error_value (py_str : json -> string) (now : string) (reviews : json)
    (c : completion) :
  _generate_review_report py_str now reviews = OK c -> error_value c = false.
Proof.
  unfold _generate_review_report.
  destruct (if PyVal.truthy reviews then _ else _); cbn [mbind result_bind];
    [by intros [= <-] | done].
Qed.

Lemma attempt_no_error_value (json_loads : string -> option json)
    (py_str : json -> string) (now : string) (messages : list (gmap string string))
    (c : completion) :
  attempt json_loads py_str now messages = OK c -> error_value c = false.
Proof.
  unfold attempt.
  destruct (scan_messages messages None None) as [[user system]|e]; [|done].
  cbn [mbind result_bind].
  destruct user as [[|c0 m]|]; [by intros [= <-] | | by intros [= <-]].
  destruct (PyStr.contains "Document Content Preview:" _).
  { destruct (_generate_document_review _ _ _); cbn; [by intros [= <-] | done]. }
  destruct (PyStr.contains "research context" _); [intros [= <-]; by vm_compute|].
  destruct (_ && _).
  { intros [= <-]. apply question_feedback_no_error_value. }
  destruct (is_report_request _ _); [apply report_no_error_value|].
  intros [= <-]. by vm_compute.
Qed.

Lemma engine_no_error_value (json_loads : string -> option json)
    (py_str : json -> string) (now : string) (messages : list (gmap string string)) :
  error_value (get_completion json_loads py_str now messages) = false.
Proof.
  unfold get_completion.
  destruct (attempt json_loads py_str now messages) as [c|e] eqn:H; [|reflexivity].
  rewrite retry_OK. by apply (attempt_no_error_value json_loads py_str now messages).
Qed.

(** X26. The engine never returns the value the agents treat as a failed
    call: its result is never empty and never the string "AI service
    encountered an error.", whatever the messages. *)
Theorem engine_never_error_value (json_loads : string -> option json)
    (py_str : json -> string) (now : string) (messages : list (gmap string string)) :
  completion_truthy (get_completion json_loads py_str now messages) = true
  /\ completion_is (get_completion json_loads py_str now messages) service_error = false.
Proof.
  pose proof (engine_no_error_value json_loads py_str now messages) as H.
  unfold error_value in H. apply orb_false_iff in H as [H1 H2].
  by apply negb_false_iff in H1.
Qed.

Lemma report_user_prompt_pieces (reviews_json : string) :
  report_user_prompt reviews_json = report_pieces reviews_json.
Proof.
  unfold report_user_prompt, report_pieces, PyStr.text, PyStr.join.
  rewrite concat_app by done. fold (PyStr.join PyStr.LF report_instructions).
  fold (PyStr.text report_instructions). fold report_closing.
  cbn [String.concat]. unfold margin. rewrite !append_assoc. reflexivity.
Qed.

(** ** The last occurrence *)

Lemma rfind_from_over (p v s : string) (i last : Z) :
  exists last', PyStr.rfind_from p (v +:+ s) i last
                = PyStr.rfind_from p s (i + PyStr.len v) last'.
Proof.
  revert i last. induction v as [|c v IH]; intros i last.
  - exists last. change (PyStr.len EmptyString) with 0. by rewrite Z.add_0_r.
  - change (String c v +:+ s) with (String c (v +:+ s)).
    cbn [PyStr.rfind_from].
    destruct (IH (i + 1) (if String.prefix p (String c (v +:+ s)) then i else last))
      as [last' ->].
    exists last'. rewrite len_cons. by rewrite Z.add_assoc.
Qed.

Lemma rfind_from_absent (p s : string) (i last : Z) :
  PyStr.contains p s = false -> PyStr.rfind_from p s i last = last.
Proof.
  revert i. induction s as [|c s IH]; intros i H;
    rewrite contains_unfold in H; apply orb_false_iff in H as [Hp H];
    cbn [PyStr.rfind_from]; rewrite Hp; [done|]. by apply IH.
Qed.

Lemma rfind_from_last (p s : string) (c : ascii) (i last : Z) :
  String.prefix p (String c s) = true -> PyStr.contains p s = false ->
  PyStr.rfind_from p (String c s) i last = i.
Proof.
  intros Hp Hs. cbn [PyStr.rfind_from]. rewrite Hp. by apply rfind_from_absent.
Qed.

Section AgentReport.

Variable json_loads : string -> option json.
Variable py_str : json -> string.
Variable json_dumps : json -> string.
Variable now generated_at : string.

(** X27. For reviews that are not empty, the agent's
    [generate_review_report] always answers COMPLETED around the value of
    the engine: its test for a failed call never fires, so an ERROR object
    of the engine is passed on under the status COMPLETED as well. *)
Theorem agent_report_always_completed (reviews : json) :
  PyVal.truthy reviews = true ->
  generate_review_report json_loads py_str json_dumps now generated_at reviews
  = ReportCompleted
      (get_completion json_loads py_str now
         [msg "system" report_system_prompt;
          msg "user" (report_user_prompt (json_dumps reviews))])
      generated_at.
Proof.
  intros H. unfold generate_review_report. rewrite H. cbn [negb].
  pose proof (engine_no_error_value json_loads py_str now
                [msg "system" report_system_prompt;
                 msg "user" (report_user_prompt (json_dumps reviews))]) as He.
  unfold error_value in He. by rewrite He.
Qed.

Lemma extract_reviews_pieces (body : string) (reviews : json) :
  json_loads ("{" +:+ body +:+ "}") = Some reviews ->
  extract_reviews json_loads (report_pieces ("{" +:+ body +:+ "}")) = reviews.
Proof.
  intros Hloads. unfold extract_reviews.
  assert (PyStr.find "{" (report_pieces ("{" +:+ body +:+ "}")) = 59) as ->.
  { unfold PyStr.find, report_pieces. rewrite !append_assoc.
    repeat find_step. closed_lens. lia. }
  assert (PyStr.rfind "}" (report_pieces ("{" +:+ body +:+ "}"))
          = 59 + 1 + PyStr.len body) as ->.
  { unfold PyStr.rfind, report_pieces.
    replace (_ +:+ _)
      with (((margin +:+ "Document Reviews:" +:+ margin) +:+ "{" +:+ body)
            +:+ String "}" (PyStr.LF +:+ report_closing))
      by (rewrite !append_assoc; reflexivity).
    destruct (rfind_from_over "}"
                ((margin +:+ "Document Reviews:" +:+ margin) +:+ "{" +:+ body)
                (String "}" (PyStr.LF +:+ report_closing)) 0 (-1)) as [last' ->].
    rewrite rfind_from_last by reflexivity.
    rewrite !len_append. closed_lens. lia. }
  pose proof (len_nonneg body).
  destruct (Z.leb_spec 0 59); [|lia].
  destruct (Z.ltb_spec 59 (59 + 1 + PyStr.len body + 1)); [|lia].
  cbn [andb].
  erewrite (slice_pieces (margin +:+ "Document Reviews:" +:+ margin)
                         ("{" +:+ body +:+ "}"));
    [ by rewrite Hloads
    | unfold report_pieces; rewrite !append_assoc; reflexivity
    | rewrite ?len_append; closed_lens; lia
    | rewrite ?len_append; closed_lens; lia ].
Qed.

(** X28. The reviews travel from the agent to the composer of the engine
    through the message: when the serialised reviews are an object in
    braces that the parser reads back, and have neither the
    document-content marker, nor "Question:", nor the words "research
    context", the agent's report holds the report the engine composes from
    these reviews, and the service-unavailable ERROR object when the
    composer raises. *)
Theorem agent_report_reads_back (reviews : json) (body : string) :
  PyVal.truthy reviews = true ->
  json_dumps reviews = "{" +:+ body +:+ "}" ->
  json_loads (json_dumps reviews) = Some reviews ->
  free_of ["Document Content Preview:"; "Question:"] (json_dumps reviews) = true ->
  PyStr.contains "research context" (PyStr.lower (json_dumps reviews)) = false ->
  generate_review_report json_loads py_str json_dumps now generated_at reviews
  = ReportCompleted
      match _generate_review_report py_str now reviews with
      | OK report => report
      | Raise _ => service_unavailable
      end
      generated_at.
Proof.
  intros Htruthy Hdumps Hloads Hfree Hlower.
  unfold free_of in Hfree. cbn [forallb] in Hfree.
  apply andb_true_iff in Hfree as [Hm Hq]. apply andb_true_iff in Hq as [Hq _].
  apply negb_true_iff in Hm, Hq.
  assert (attempt json_loads py_str now
            [msg "system" report_system_prompt;
             msg "user" (report_user_prompt (json_dumps reviews))]
          = _generate_review_report py_str now reviews) as Hattempt.
  { rewrite report_user_prompt_pieces. unfold attempt.
    rewrite scan_system_then_user. cbn [mbind result_bind].
    assert (PyStr.contains "Document Content Preview:"
              (report_pieces (json_dumps reviews)) = false) as H1.
    { unfold report_pieces. rewrite !append_assoc. absent. }
    assert (PyStr.contains "research context"
              (PyStr.lower (report_pieces (json_dumps reviews))) = false) as H2.
    { unfold report_pieces. rewrite !append_assoc, !lower_append. absent. }
    assert (PyStr.contains "Question:" (report_pieces (json_dumps reviews)) = false)
      as H3.
    { unfold report_pieces. rewrite !append_assoc. absent. }
    assert (extract_reviews json_loads (report_pieces (json_dumps reviews)) = reviews)
      as H4.
    { rewrite Hdumps in Hloads |- *. by apply extract_reviews_pieces. }
    destruct (report_pieces (json_dumps reviews)) as [|c m] eqn:E.
    { unfold report_pieces in E. discriminate E. }
    rewrite H1, H2, H3. cbn [andb].
    assert (is_report_request (Some report_system_prompt) (String c m) = true) as ->
      by reflexivity.
    by rewrite H4. }
  unfold generate_review_report. rewrite Htruthy. cbn [negb].
  unfold get_completion. rewrite Hattempt.
  destruct (_generate_review_report py_str now reviews) as [report|e] eqn:Hreport.
  - rewrite retry_OK.
    pose proof (report_no_error_value py_str now reviews report Hreport) as He.
    unfold error_value in He. by rewrite He.
  - reflexivity.
Qed.

End AgentReport.

Lemma agent_report_always_completed_witness :
  generate_review_report sample_loads str_blank sample_dumps
    "2026-11-03 10:00:00" "2026-11-03 10:00:01" sample_reviews
  = ReportCompleted
      (get_completion sample_loads str_blank "2026-11-03 10:00:00"
         [msg "system" report_system_prompt;
          msg "user" (report_user_prompt (sample_dumps sample_reviews))])
      "2026-11-03 10:00:01".
Proof.
  apply (agent_report_always_completed sample_loads str_blank sample_dumps
           "2026-11-03 10:00:00" "2026-11-03 10:00:01" sample_reviews).
  reflexivity.
Defined.

Lemma agent_report_reads_back_witness :
  generate_review_report sample_loads str_blank sample_dumps
    "2026-11-03 10:00:00" "2026-11-03 10:00:01" sample_reviews
  = ReportCompleted
      match _generate_review_report str_blank "2026-11-03 10:00:00" sample_reviews with
      | OK report => report
      | Raise _ => service_unavailable
      end
      "2026-11-03 10:00:01".
Proof.
  apply (agent_report_reads_back sample_loads str_blank sample_dumps
           "2026-11-03 10:00:00" "2026-11-03 10:00:01" sample_reviews
           "consent.pdf: {status: APPROVED}");
    vm_compute; reflexivity.
Defined.

